(** * Kamino liquidity analysis: a shallow embedding and its properties

    The development follows the Python package [kamino_liquidity_analysis]:
    [utils.py] (unit conversions, route-plan helpers), [jupiter_client.py]
    (quote retry loop, quote normalisation, liquidity curve),
    [kamino_client.py] (reserve fetch) and [analyzer.py] (risk flags,
    report).

    Python values are modelled as they are at run time: integers are
    unbounded ([Z]), floats are IEEE-754 binary64 values ([spec_float] with
    [prec = 53], [emax = 1024], rounded to nearest even), [decimal.Decimal]
    works in the default context (28 significant digits, ROUND_HALF_EVEN),
    JSON documents are trees of dynamically typed values, and exceptions are
    explicit results.  HTTP traffic and [time.sleep] go through a small
    state-and-exception monad over a scripted upstream. *)

From Stdlib Require Import ZArith QArith Qabs Qpower List String Ascii Bool.
From Stdlib Require Import Lia Lqa.
From Stdlib Require Import Floats.SpecFloat DecimalString.
Import ListNotations.
Set Warnings "-register-all".
Open Scope string_scope.
Open Scope Z_scope.

(** ** Python run-time values *)

Module Py.

Definition float := spec_float.

(** Numbers: [int] and [float]. *)
Inductive pynum :=
| PInt (n : Z)
| PFloat (x : float).

(** JSON-shaped dynamic values; a [dict] keeps its items in insertion
    order with distinct keys, and lookup returns the item of a key. *)
Inductive pyval :=
| VNone
| VBool (b : bool)
| VNum (n : pynum)
| VStr (s : string)
| VList (l : list pyval)
| VDict (d : list (string * pyval)).

(** Exceptions of [requests.exceptions.RequestException]: the transport
    failures of [session.get], [HTTPError] of [raise_for_status] and the
    [JSONDecodeError] of [response.json()] (a [RequestException] since
    requests 2.27). *)
Inductive request_exception :=
| TransportError (msg : string)
| HTTPError (status : Z)
| JSONDecodeError.

Inductive exn :=
| RequestException (e : request_exception)
| InvalidTokenPrice (price : pynum)  (* ValueError(f"Invalid token price: {p}") *)
| ValueError                         (* a ValueError raised by a builtin *)
| TypeError
| AttributeError
| ZeroDivisionError
| OverflowError
| DecimalInvalidOperation
| DecimalDivisionByZero.

(** [except ValueError] *)
Definition is_ValueError (e : exn) : bool :=
  match e with
  | InvalidTokenPrice _ | ValueError => true
  | _ => false
  end.

(** Texts built from exceptions: [str(e)], [f"Parse error: {e}"] and
    literals. *)
Inductive error_text :=
| StrOfExn (e : exn)
| ParseErrorText (e : exn)
| Literal (s : string).

Inductive result (A : Type) :=
| Ok (a : A)
| Raise (e : exn).
Arguments Ok {A} a.
Arguments Raise {A} e.

Definition rbind {A B} (r : result A) (k : A -> result B) : result B :=
  match r with
  | Ok a => k a
  | Raise e => Raise e
  end.

End Py.
Export Py.

Declare Scope result_scope.
Delimit Scope result_scope with result.
Notation "'let?' x ':=' c1 'in' c2" := (rbind c1 (fun x => c2))
  (at level 10, x pattern, c1 at level 100, c2 at level 200) : result_scope.
Open Scope result_scope.

(** ** binary64 arithmetic as Python performs it *)

Module PyFloat.

Definition prec : Z := 53.
Definition emax : Z := 1024.

Definition zero : float := S754_zero false.

(** [float(n)] for an [int]: nearest-even, [OverflowError] beyond the
    largest finite float. *)
Definition of_int (n : Z) : result float :=
  match binary_normalize prec emax n 0 false with
  | S754_infinity _ => Raise OverflowError
  | x => Ok x
  end.

(** [a / b] on two [int]s: the correctly rounded quotient. *)
Definition int_truediv (a b : Z) : result float :=
  match a, b with
  | _, Z0 => Raise ZeroDivisionError
  | Z0, Zpos _ => Ok (S754_zero false)
  | Z0, Zneg _ => Ok (S754_zero true)
  | Zpos x, Zpos y | Zneg x, Zneg y =>
      match SFdiv prec emax (S754_finite false x 0) (S754_finite false y 0) with
      | S754_infinity _ => Raise OverflowError
      | q => Ok q
      end
  | Zpos x, Zneg y | Zneg x, Zpos y =>
      match SFdiv prec emax (S754_finite true x 0) (S754_finite false y 0) with
      | S754_infinity _ => Raise OverflowError
      | q => Ok q
      end
  end.

Definition mul (x y : float) : float := SFmul prec emax x y.

Definition is_zero (x : float) : bool :=
  match x with S754_zero _ => true | _ => false end.

(** [x / y] on floats raises on a zero divisor. *)
Definition div (x y : float) : result float :=
  if is_zero y then Raise ZeroDivisionError else Ok (SFdiv prec emax x y).

Definition abs (x : float) : float := SFabs x.

Definition compare (x y : float) : option comparison := SFcompare x y.

(** Exact comparison of an [int] with a float (no conversion of the
    integer, as in CPython). *)
Definition compare_int (n : Z) (x : float) : option comparison :=
  match x with
  | S754_nan => None
  | S754_infinity s => Some (if s then Gt else Lt)
  | S754_zero _ => Some (n ?= 0)
  | S754_finite s m e =>
      let v := if s then Zneg m else Zpos m in
      match e with
      | Zneg k => Some (n * 2 ^ Zpos k ?= v)
      | _ => Some (n ?= v * 2 ^ e)
      end
  end.

(** The exact rational value of a finite float (0 for the others). *)
Definition to_Q (x : float) : Q :=
  match x with
  | S754_finite s m e =>
      let v := if s then Zneg m else Zpos m in
      match e with
      | Zneg k => v # (2 ^ k)
      | _ => inject_Z (v * 2 ^ e)
      end
  | _ => 0%Q
  end.

(** [int(x)]: truncation toward zero; infinities and NaN are refused. *)
Definition to_int (x : float) : result Z :=
  match x with
  | S754_nan => Raise ValueError
  | S754_infinity _ => Raise OverflowError
  | S754_zero _ => Ok 0
  | S754_finite s m e =>
      let v :=
        match e with
        | Zneg k => Zpos m / 2 ^ Zpos k
        | _ => Zpos m * 2 ^ e
        end in
      Ok (if s then - v else v)
  end.

End PyFloat.

(** ** Arithmetic, comparison and truth value of Python numbers *)

Module PyNum.

Definition to_float (a : pynum) : result float :=
  match a with
  | PInt n => PyFloat.of_int n
  | PFloat x => Ok x
  end.

(** [a * b] *)
Definition mul (a b : pynum) : result pynum :=
  match a, b with
  | PInt m, PInt n => Ok (PInt (m * n))
  | _, _ =>
      let? x := to_float a in
      let? y := to_float b in
      Ok (PFloat (PyFloat.mul x y))
  end.

(** [a / b] *)
Definition truediv (a b : pynum) : result float :=
  match a, b with
  | PInt m, PInt n => PyFloat.int_truediv m n
  | _, _ =>
      let? x := to_float a in
      let? y := to_float b in
      PyFloat.div x y
  end.

(** [abs(a)] *)
Definition abs (a : pynum) : pynum :=
  match a with
  | PInt n => PInt (Z.abs n)
  | PFloat x => PFloat (PyFloat.abs x)
  end.

Definition compare (a b : pynum) : option comparison :=
  match a, b with
  | PInt m, PInt n => Some (m ?= n)
  | PInt m, PFloat y => PyFloat.compare_int m y
  | PFloat x, PInt n => option_map CompOpp (PyFloat.compare_int n x)
  | PFloat x, PFloat y => PyFloat.compare x y
  end.

Definition gt (a b : pynum) : bool :=
  match compare a b with Some Gt => true | _ => false end.
Definition lt (a b : pynum) : bool :=
  match compare a b with Some Lt => true | _ => false end.
Definition le (a b : pynum) : bool :=
  match compare a b with Some Lt | Some Eq => true | _ => false end.
Definition eq (a b : pynum) : bool :=
  match compare a b with Some Eq => true | _ => false end.

(** [bool(a)]: zero is false, everything else (NaN too) is true. *)
Definition truthy (a : pynum) : bool :=
  match a with
  | PInt n => negb (n =? 0)
  | PFloat x => negb (PyFloat.is_zero x)
  end.

End PyNum.

(** ** Builtins of the interpreter that the package calls

    Conversions between text and numbers are taken as given: [repr] of a
    positive finite float (the decimal [c * 10^k] it prints as), [float(s)]
    and [int(s)] on strings ([None] for [ValueError]) and [str.upper]. *)

Record builtins := {
  float_repr : positive -> Z -> positive * Z;
  float_of_str : string -> option float;
  int_of_str : string -> option Z;
  str_upper : string -> string
}.

(** ** [decimal.Decimal] in the default context *)

Module PyDecimal.

(** [getcontext().prec] *)
Definition context_prec : Z := 28.

(** A finite decimal is [(-1)^sign * coeff * 10^exp] with [0 <= coeff].
    Only values matter below, so a value is not tied to the exponent
    Python would pick for it, and the exponent limits of the context
    (Emax = 999999) are not represented. *)
Inductive decimal :=
| DFinite (sign : bool) (coeff : Z) (exp : Z)
| DInfinity (sign : bool)
| DNaN.

(** [len(str(n))] for [0 <= n] *)
Fixpoint ndigits_fuel (fuel : nat) (n : Z) : Z :=
  match fuel with
  | O => 1
  | S f => if n <? 10 then 1 else 1 + ndigits_fuel f (n / 10)
  end.

Definition ndigits (n : Z) : Z := ndigits_fuel (Z.to_nat (Z.log2 n)) n.

(** Drop the last [k] digits of [c], rounding half to even. *)
Definition round_half_even (c k : Z) : Z :=
  let p := 10 ^ k in
  let q := c / p in
  match 2 * (c mod p) ?= p with
  | Lt => q
  | Gt => q + 1
  | Eq => if Z.even q then q else q + 1
  end.

(** [Decimal._fix]: round to the precision of the context. *)
Definition fix_ (s : bool) (c e : Z) : decimal :=
  let drop := ndigits c - context_prec in
  if 0 <? drop then DFinite s (round_half_even c drop) (e + drop)
  else DFinite s c e.

(** [Decimal(n)] for an [int] *)
Definition of_int (n : Z) : decimal := DFinite (n <? 0) (Z.abs n) 0.

Section WithBuiltins.
Variable py : builtins.

(** [Decimal(str(x))] *)
Definition of_num (x : pynum) : decimal :=
  match x with
  | PInt n => of_int n
  | PFloat (S754_finite s m e) =>
      let (c, k) := float_repr py m e in DFinite s (Zpos c) k
  | PFloat (S754_zero s) => DFinite s 0 (-1)
  | PFloat (S754_infinity s) => DInfinity s
  | PFloat S754_nan => DNaN
  end.
End WithBuiltins.

(** [a / b] *)
Definition div (a b : decimal) : result decimal :=
  match a, b with
  | DNaN, _ | _, DNaN => Ok DNaN
  | DInfinity _, DInfinity _ => Raise DecimalInvalidOperation
  | DInfinity sa, DFinite sb _ _ => Ok (DInfinity (xorb sa sb))
  | DFinite sa _ _, DInfinity sb => Ok (DFinite (xorb sa sb) 0 0)
  | DFinite sa ca ea, DFinite sb cb eb =>
      if cb =? 0 then
        Raise (if ca =? 0 then DecimalInvalidOperation else DecimalDivisionByZero)
      else if ca =? 0 then Ok (DFinite (xorb sa sb) 0 (ea - eb))
      else
        let shift := ndigits cb - ndigits ca + context_prec + 1 in
        let exp := ea - eb - shift in
        let (coeff, remainder) :=
          if 0 <=? shift then Z.div_eucl (ca * 10 ^ shift) cb
          else Z.div_eucl ca (cb * 10 ^ (- shift)) in
        let coeff :=
          if negb (remainder =? 0) && (coeff mod 5 =? 0) then coeff + 1
          else coeff in
        Ok (fix_ (xorb sa sb) coeff exp)
  end.

(** [a * b] *)
Definition mul (a b : decimal) : result decimal :=
  match a, b with
  | DNaN, _ | _, DNaN => Ok DNaN
  | DInfinity sa, DInfinity sb => Ok (DInfinity (xorb sa sb))
  | DInfinity sa, DFinite sb cb _ =>
      if cb =? 0 then Raise DecimalInvalidOperation
      else Ok (DInfinity (xorb sa sb))
  | DFinite sa ca _, DInfinity sb =>
      if ca =? 0 then Raise DecimalInvalidOperation
      else Ok (DInfinity (xorb sa sb))
  | DFinite sa ca ea, DFinite sb cb eb =>
      Ok (fix_ (xorb sa sb) (ca * cb) (ea + eb))
  end.

(** [a.to_integral_value(ROUND_DOWN)] *)
Definition to_integral_value_ROUND_DOWN (a : decimal) : decimal :=
  match a with
  | DFinite s c e =>
      if 0 <=? e then a else DFinite s (c / 10 ^ (- e)) 0
  | _ => a
  end.

(** [int(a)] *)
Definition to_int (a : decimal) : result Z :=
  match a with
  | DNaN => Raise ValueError
  | DInfinity _ => Raise OverflowError
  | DFinite s c e =>
      let n := if 0 <=? e then c * 10 ^ e else c / 10 ^ (- e) in
      Ok (if s then - n else n)
  end.

(** The exact value of a finite decimal (0 for the others). *)
Definition to_Q (a : decimal) : Q :=
  match a with
  | DFinite s c e => (inject_Z (if s then - c else c) * 10 ^ e)%Q
  | _ => 0%Q
  end.

End PyDecimal.

(** ** Text of numbers *)

Module PyStr.

(** [str(n)] for an [int] *)
Definition of_int (n : Z) : string := NilZero.string_of_int (Z.to_int n).

Fixpoint zeros (k : nat) : string :=
  match k with
  | O => ""
  | S k' => "0" ++ zeros k'
  end.

(** [sep.join(l)] on strings *)
Fixpoint join (sep : string) (l : list string) : string :=
  match l with
  | [] => ""
  | [s] => s
  | s :: rest => s ++ sep ++ join sep rest
  end.

(** The integer nearest to [m * 2^e * 10^k], ties to even. *)
Definition scaled_nearest (m : positive) (e : Z) (k : nat) : Z :=
  let num := Zpos m * 10 ^ Z.of_nat k in
  match e with
  | Zneg d =>
      let den := 2 ^ Zpos d in
      let q := num / den in
      match 2 * (num mod den) ?= den with
      | Lt => q
      | Gt => q + 1
      | Eq => if Z.even q then q else q + 1
      end
  | _ => num * 2 ^ e
  end.

(** [format(x, ".kf")] for a float: the value rounded to [k] decimals. *)
Definition format_f (k : nat) (x : float) : string :=
  let point_frac (frac : string) :=
    match k with O => "" | _ => "." ++ frac end in
  match x with
  | S754_nan => "nan"
  | S754_infinity s => if s then "-inf" else "inf"
  | S754_zero s => (if s then "-" else "") ++ "0" ++ point_frac (zeros k)
  | S754_finite s m e =>
      let n := scaled_nearest m e k in
      let p := 10 ^ Z.of_nat k in
      let frac := of_int (n mod p) in
      (if s then "-" else "") ++ of_int (n / p)
      ++ point_frac (zeros (k - String.length frac) ++ frac)
  end.

(** [format(a, ".kf")] for a number: an [int] is converted to float. *)
Definition format_num_f (k : nat) (a : pynum) : result string :=
  let? x := PyNum.to_float a in Ok (format_f k x).

End PyStr.

(** ** Dynamic values: truth, equality, [dict.get], iteration *)

Module PyVal.

(** [bool(v)] *)
Definition truthy (v : pyval) : bool :=
  match v with
  | VNone => false
  | VBool b => b
  | VNum n => PyNum.truthy n
  | VStr s => negb (String.eqb s "")
  | VList l => match l with [] => false | _ => true end
  | VDict d => match d with [] => false | _ => true end
  end.

(** A [bool] used as a number is 0 or 1. *)
Definition as_num (v : pyval) : option pynum :=
  match v with
  | VNum n => Some n
  | VBool b => Some (PInt (if b then 1 else 0))
  | _ => None
  end.

(** [a == b].  Numbers and booleans compare by value, strings and lists
    structurally, dictionaries item by item whatever the order. *)
Fixpoint eqb (a b : pyval) {struct a} : bool :=
  match a, b with
  | VNone, VNone => true
  | VStr s, VStr t => String.eqb s t
  | VList l, VList l' =>
      (fix go (l l' : list pyval) {struct l} : bool :=
         match l, l' with
         | [], [] => true
         | x :: r, y :: r' => eqb x y && go r r'
         | _, _ => false
         end) l l'
  | VDict d, VDict d' =>
      (List.length d =? List.length d')%nat &&
      (fix go (d : list (string * pyval)) {struct d} : bool :=
         match d with
         | [] => true
         | (k, x) :: r =>
             match find (fun kv => String.eqb (fst kv) k) d' with
             | Some (_, y) => eqb x y && go r
             | None => false
             end
         end) d
  | _, _ =>
      match as_num a, as_num b with
      | Some m, Some n => PyNum.eq m n
      | _, _ => false
      end
  end.

(** [x in l] on a list *)
Definition In_list (x : pyval) (l : list pyval) : bool :=
  existsb (eqb x) l.

(** [d.get(k)]: [None] of the option stands for a missing key. *)
Fixpoint lookup (d : list (string * pyval)) (k : string) : option pyval :=
  match d with
  | [] => None
  | (k', v) :: r => if String.eqb k' k then Some v else lookup r k
  end.

(** [d.get(k, default)] *)
Definition get (d : list (string * pyval)) (k : string) (default : pyval)
  : pyval :=
  match lookup d k with
  | Some v => v
  | None => default
  end.

(** [v.get(k, default)] on any value: only a [dict] has [get]. *)
Definition val_get (v : pyval) (k : string) (default : pyval)
  : result pyval :=
  match v with
  | VDict d => Ok (get d k default)
  | _ => Raise AttributeError
  end.

Fixpoint chars (s : string) : list pyval :=
  match s with
  | EmptyString => []
  | String c r => VStr (String c EmptyString) :: chars r
  end.

(** The items [for x in v] goes through. *)
Definition iterate (v : pyval) : result (list pyval) :=
  match v with
  | VList l => Ok l
  | VDict d => Ok (map (fun kv => VStr (fst kv)) d)
  | VStr s => Ok (chars s)
  | _ => Raise TypeError
  end.

(** [v > n] for a number [n]: a [TypeError] unless [v] is a number. *)
Definition gt_num (v : pyval) (n : pynum) : result bool :=
  match as_num v with
  | Some m => Ok (PyNum.gt m n)
  | None => Raise TypeError
  end.

(** [", ".join(l)]: every item must be a [str]. *)
Fixpoint strings_of (l : list pyval) : result (list string) :=
  match l with
  | [] => Ok []
  | VStr s :: r => let? r' := strings_of r in Ok (s :: r')
  | _ :: _ => Raise TypeError
  end.

Definition join (sep : string) (l : list pyval) : result string :=
  let? ss := strings_of l in Ok (PyStr.join sep ss).

Section WithBuiltins.
Variable py : builtins.

(** [float(v)] *)
Definition to_float (v : pyval) : result float :=
  match v with
  | VNum n => PyNum.to_float n
  | VBool b => PyFloat.of_int (if b then 1 else 0)
  | VStr s =>
      match float_of_str py s with
      | Some x => Ok x
      | None => Raise ValueError
      end
  | _ => Raise TypeError
  end.
End WithBuiltins.

End PyVal.

(** ** constants.py *)

Module Constants.

Definition KLEND_PROGRAM_ID := "KLend2g3cP87fffoy8q1mQqGKjrxjC8boSyAYavgmjD".
Definition USDC_MINT := "EPjFWdd5AufqSSqeM2qN1xzybapC8G4wEGGkZwyTDt1v".

Definition SOL_BASED_ASSETS :=
  ["SOL"; "MSOL"; "JITOSOL"; "BSOL"; "STSOL"; "JSOL"; "BNSOL"; "HBSOL";
   "COMPASSSOL"; "SUPSOL"; "INF"].
Definition BTC_BASED_ASSETS := ["WBTC"; "LBTC"; "TBTC"; "SBTC"].
Definition ETH_BASED_ASSETS := ["WETH"; "STETH"; "RETH"; "CBETH"].
Definition VOLATILE_ASSETS :=
  (SOL_BASED_ASSETS ++ BTC_BASED_ASSETS ++ ETH_BASED_ASSETS)%list.

Definition SWAP_SIZE_BANDS_USD : list pynum :=
  [PInt 1000000; PInt 5000000; PInt 10000000; PInt 20000000;
   PInt 50000000; PInt 100000000].

Definition MAX_RETRIES : nat := 3.
Definition RETRY_BACKOFF_FACTOR : Z := 2.
(** 0.5 *)
Definition RATE_LIMIT_DELAY : float := S754_finite false 4503599627370496 (-53).

(** 5.0, 70.0 and 5.0 *)
Definition HIGH_PRICE_IMPACT_THRESHOLD : float :=
  S754_finite false 5629499534213120 (-50).
Definition ROUTE_CONCENTRATION_THRESHOLD : float :=
  S754_finite false 4925812092436480 (-46).
Definition MIN_TVL_MULTIPLE : float :=
  S754_finite false 5629499534213120 (-50).

End Constants.
Import Constants.

(** ** utils.py *)

Module Utils.

Section WithBuiltins.
Variable py : builtins.

(** [decimals] is a number of decimal places, a natural number. *)
Definition usd_to_native_units (amount_usd token_price_usd : pynum)
  (decimals : N) : result Z :=
  if PyNum.le token_price_usd (PInt 0) then
    Raise (InvalidTokenPrice token_price_usd)
  else
    let amount_decimal := PyDecimal.of_num py amount_usd in
    let price_decimal := PyDecimal.of_num py token_price_usd in
    let? token_amount := PyDecimal.div amount_decimal price_decimal in
    let multiplier := PyDecimal.of_int (10 ^ Z.of_N decimals) in
    let? scaled := PyDecimal.mul token_amount multiplier in
    PyDecimal.to_int (PyDecimal.to_integral_value_ROUND_DOWN scaled).

Definition native_to_usd (amount_native token_price_usd : pynum)
  (decimals : N) : result float :=
  let? token_amount :=
    PyNum.truediv amount_native (PInt (10 ^ Z.of_N decimals)) in
  let? price := PyNum.to_float token_price_usd in
  Ok (PyFloat.mul token_amount price).

Definition native_to_tokens (amount_native : pynum) (decimals : N)
  : result float :=
  PyNum.truediv amount_native (PInt (10 ^ Z.of_N decimals)).

(** The label a step contributes to [dexes], if any: the step and its
    swap info must be dictionaries. *)
Definition step_label (step : pyval) : option pyval :=
  match step with
  | VDict sd =>
      match PyVal.get sd "swapInfo" (PyVal.get sd "swap_info" (VDict [])) with
      | VDict swap_info =>
          Some (PyVal.get swap_info "label"
                  (PyVal.get swap_info "ammKey" (VStr "Unknown")))
      | _ => None
      end
  | _ => None
  end.

(** One turn of the loop over the steps. *)
Definition add_dex (dexes : list pyval) (step : pyval) : list pyval :=
  match step_label step with
  | Some label =>
      if PyVal.truthy label && negb (PyVal.In_list label dexes)
      then (dexes ++ [label])%list
      else dexes
  | None => dexes
  end.

Definition parse_route_summary (route_plan : pyval) : result string :=
  if negb (PyVal.truthy route_plan) then Ok "Unknown"
  else
    let? steps := PyVal.iterate route_plan in
    let dexes := fold_left add_dex steps [] in
    match dexes with
    | [] => Ok "Unknown"
    | _ => PyVal.join ", " (firstn 3 dexes)
    end.

(** The value a step reports as its percentage, if any. *)
Definition step_percent (step : pyval) : option pyval :=
  match step with
  | VDict sd =>
      match PyVal.get sd "swapInfo" (PyVal.get sd "swap_info" (VDict [])) with
      | VDict swap_info =>
          match PyVal.get swap_info "percent"
                  (PyVal.get swap_info "percentage" VNone) with
          | VNone => None
          | percent => Some percent
          end
      | _ => None
      end
  | _ => None
  end.

(** One turn of the loop: [percentages.append(float(percent))]. *)
Definition add_percent (percentages : list float) (step : pyval)
  : result (list float) :=
  match step_percent step with
  | Some percent =>
      let? x := PyVal.to_float py percent in Ok (percentages ++ [x])%list
  | None => Ok percentages
  end.

Fixpoint collect_percentages (steps : list pyval) (percentages : list float)
  : result (list float) :=
  match steps with
  | [] => Ok percentages
  | step :: rest =>
      let? percentages' := add_percent percentages step in
      collect_percentages rest percentages'
  end.

(** [max] keeps its current item unless the next one is greater. *)
Fixpoint max_from (cur : float) (l : list float) : float :=
  match l with
  | [] => cur
  | x :: r => max_from (if PyNum.gt (PFloat x) (PFloat cur) then x else cur) r
  end.

Definition calculate_route_concentration (route_plan : pyval)
  : result (option float) :=
  if negb (PyVal.truthy route_plan) then Ok None
  else
    let? steps := PyVal.iterate route_plan in
    let? percentages := collect_percentages steps [] in
    match percentages with
    | [] => Ok None
    | x :: r => Ok (Some (max_from x r))
    end.

End WithBuiltins.

Definition calculate_effective_price
  (amount_in_usd amount_out_usd original_price : pynum) : result pynum :=
  if PyNum.le amount_in_usd (PInt 0) then Ok (PFloat PyFloat.zero)
  else
    let? price_ratio := PyNum.truediv amount_out_usd amount_in_usd in
    PyNum.mul original_price (PFloat price_ratio).

End Utils.

(** ** The upstream services and the effects of a run

    [session.get] is answered by a scripted upstream: the answer to the
    n-th call of an endpoint is a response (status code and, when the body
    is JSON, its document) or a transport failure.  The trace records every
    GET and every [time.sleep] in order.  Logging is left out. *)

Module Http.

Inductive outcome :=
| Responds (status : Z) (body : option pyval)
| Fails (msg : string).

Record jupiter_request := {
  inputMint : string;
  outputMint : string;
  amount : string;
  taker : option string
}.

Record kamino_request := {
  market : string;
  programId : string
}.

Inductive event :=
| KaminoGet (r : kamino_request)
| JupiterGet (r : jupiter_request)
| Sleep (seconds : pynum).

Record world := {
  kamino_api : nat -> kamino_request -> outcome;
  jupiter_api : nat -> jupiter_request -> outcome;
  trace : list event
}.

Record response := {
  status_code : Z;
  body : option pyval
}.

Definition M (A : Type) : Type := world -> result A * world.

Definition ret {A} (a : A) : M A := fun w => (Ok a, w).

Definition bind {A B} (m : M A) (k : A -> M B) : M B :=
  fun w =>
    match m w with
    | (Ok a, w') => k a w'
    | (Raise e, w') => (Raise e, w')
    end.

Definition raise {A} (e : exn) : M A := fun w => (Raise e, w).

Definition lift {A} (r : result A) : M A := fun w => (r, w).

(** [try: body  except requests.exceptions.RequestException as e: handler] *)
Definition try_request {A} (body : M A) (handler : request_exception -> M A)
  : M A :=
  fun w =>
    match body w with
    | (Raise (RequestException e), w') => handler e w'
    | r => r
    end.

Definition log (ev : event) (w : world) : world :=
  {| kamino_api := kamino_api w;
     jupiter_api := jupiter_api w;
     trace := (trace w ++ [ev])%list |}.

Definition is_jupiter_get (ev : event) : bool :=
  match ev with JupiterGet _ => true | _ => false end.

Definition is_kamino_get (ev : event) : bool :=
  match ev with KaminoGet _ => true | _ => false end.

Definition jupiter_calls (w : world) : nat :=
  List.length (filter is_jupiter_get (trace w)).

Definition kamino_calls (w : world) : nat :=
  List.length (filter is_kamino_get (trace w)).

Definition answer (o : outcome) : result response :=
  match o with
  | Responds st b => Ok {| status_code := st; body := b |}
  | Fails msg => Raise (RequestException (TransportError msg))
  end.

(** [self.session.get(url, params=params, timeout=REQUEST_TIMEOUT)] *)
Definition jupiter_get (r : jupiter_request) : M response :=
  fun w => (answer (jupiter_api w (jupiter_calls w) r), log (JupiterGet r) w).

Definition kamino_get (r : kamino_request) : M response :=
  fun w => (answer (kamino_api w (kamino_calls w) r), log (KaminoGet r) w).

(** [time.sleep(seconds)] *)
Definition sleep (seconds : pynum) : M unit :=
  fun w => (Ok tt, log (Sleep seconds) w).

(** [response.raise_for_status()] *)
Definition raise_for_status (resp : response) : M unit :=
  if (400 <=? status_code resp) && (status_code resp <? 600)
  then raise (RequestException (HTTPError (status_code resp)))
  else ret tt.

(** [response.json()] *)
Definition json (resp : response) : M pyval :=
  match body resp with
  | Some data => ret data
  | None => raise (RequestException JSONDecodeError)
  end.

Fixpoint for_each {A B} (f : A -> M B) (l : list A) : M (list B) :=
  match l with
  | [] => ret []
  | a :: rest =>
      bind (f a) (fun b => bind (for_each f rest) (fun bs => ret (b :: bs)))
  end.

End Http.
Import Http.

Declare Scope http_scope.
Delimit Scope http_scope with http.
Notation "x <- c1 ;; c2" := (Http.bind c1 (fun x => c2))
  (at level 61, c1 at next level, right associativity) : http_scope.
Notation "c1 ;;; c2" := (Http.bind c1 (fun _ => c2))
  (at level 61, right associativity) : http_scope.

(** ** jupiter_client.py *)

Module Jupiter.

(** The dictionary returned for a quote.  The keys [route_summary] and
    [route_concentration], missing from error results, are only read with
    [.get], so a missing key and [None] are one case. *)
Record quote := {
  price_impact : option pynum;
  out_amount : pyval;
  out_amount_usd : float;
  slippage_bps : pyval;
  router : pyval;
  route_info : pyval;
  route_summary : option string;
  route_concentration : option float;
  success : bool;
  error : option error_text
}.

(** One row of the liquidity curve. *)
Record point := {
  swap_size_usd : pynum;
  swap_size_native : Z;
  swap_size_tokens : float;
  price_impact_pct : option pynum;
  output_usd : float;
  effective_price : float;
  point_slippage_bps : option pyval;
  point_router : pyval;
  point_route_summary : option string;
  point_route_concentration : option float;
  point_success : bool;
  point_error : option error_text
}.

Definition error_result (msg : error_text) : quote :=
  {| price_impact := None;
     out_amount := VNum (PInt 0);
     out_amount_usd := PyFloat.zero;
     slippage_bps := VNum (PInt 0);
     router := VNone;
     route_info := VList [];
     route_summary := None;
     route_concentration := None;
     success := false;
     error := Some msg |}.

Section WithBuiltins.
Variable py : builtins.

(** [abs(x * 100)]: numbers and booleans multiply; a list times 100 is
    a list, on which [abs] fails like [*] does on the other values. *)
Definition abs_times_100 (x : pyval) : result pynum :=
  match PyVal.as_num x with
  | Some n => let? r := PyNum.mul n (PInt 100) in Ok (PyNum.abs r)
  | None => Raise TypeError
  end.

(** The body of the [try] of [_parse_quote_response]. *)
Definition parse_quote_body (data : pyval) : result quote :=
  let? price_impact_decimal := PyVal.val_get data "priceImpact" (VNum (PInt 0)) in
  let? price_impact_decimal :=
    match price_impact_decimal with
    | VStr s => let? x := PyVal.to_float py (VStr s) in Ok (VNum (PFloat x))
    | v => Ok v
    end in
  let? price_impact_pct := abs_times_100 price_impact_decimal in
  let? out_amount := PyVal.val_get data "outAmount" (VNum (PInt 0)) in
  let? out_amount :=
    match out_amount with
    | VStr s =>
        match int_of_str py s with
        | Some n => Ok (VNum (PInt n))
        | None => Raise ValueError
        end
    | v => Ok v
    end in
  let? slippage_bps := PyVal.val_get data "slippageBps" (VNum (PInt 0)) in
  let? router := PyVal.val_get data "router" (VStr "unknown") in
  let? route_plan := PyVal.val_get data "routePlan" (VList []) in
  let? summary := Utils.parse_route_summary route_plan in
  let? concentration := Utils.calculate_route_concentration py route_plan in
  Ok {| price_impact := Some price_impact_pct;
        out_amount := out_amount;
        out_amount_usd := PyFloat.zero;
        slippage_bps := slippage_bps;
        router := router;
        route_info := route_plan;
        route_summary := Some summary;
        route_concentration := concentration;
        success := true;
        error := None |}.

Definition _parse_quote_response (data : pyval) : quote :=
  match parse_quote_body data with
  | Ok q => q
  | Raise e => error_result (ParseErrorText e)
  end.

(** One turn of [for attempt in range(MAX_RETRIES)]: [Some q] returns
    [q], [None] goes on with the next attempt. *)
Definition quote_attempt (req : jupiter_request) (attempt : nat)
  : M (option quote) :=
  (try_request
     (resp <- jupiter_get req ;;
      if status_code resp =? 429 then
        sleep (PInt (RETRY_BACKOFF_FACTOR ^ (Z.of_nat attempt + 1))) ;;;
        ret None
      else
        raise_for_status resp ;;;
        data <- json resp ;;
        ret (Some (_parse_quote_response data)))
     (fun e =>
        if (attempt <? MAX_RETRIES - 1)%nat then
          sleep (PInt (RETRY_BACKOFF_FACTOR ^ Z.of_nat attempt)) ;;;
          ret None
        else
          ret (Some (error_result (StrOfExn (RequestException e))))))%http.

Fixpoint query_attempts (req : jupiter_request) (attempts : list nat)
  : M quote :=
  match attempts with
  | [] => ret (error_result (Literal "Max retries exceeded"))
  | attempt :: rest =>
      (r <- quote_attempt req attempt ;;
       match r with
       | Some q => ret q
       | None => query_attempts req rest
       end)%http
  end.

(** The [params] of the request; [taker] is sent when it is given and
    not empty. *)
Definition quote_params (input_mint output_mint : string)
  (amount_in_native : Z) (taker : option string) : jupiter_request :=
  {| inputMint := input_mint;
     outputMint := output_mint;
     amount := PyStr.of_int amount_in_native;
     taker := match taker with
              | Some t => if String.eqb t "" then None else Some t
              | None => None
              end |}.

Definition query_swap_price_impact (input_mint output_mint : string)
  (amount_in_native : Z) (taker : option string) : M quote :=
  query_attempts
    (quote_params input_mint output_mint amount_in_native taker)
    (seq 0 MAX_RETRIES).

(** The point appended when the conversion of the size fails. *)
Definition conversion_failed (swap_size : pynum) (e : exn) : point :=
  {| swap_size_usd := swap_size;
     swap_size_native := 0;
     swap_size_tokens := PyFloat.zero;
     price_impact_pct := None;
     output_usd := PyFloat.zero;
     effective_price := PyFloat.zero;
     point_slippage_bps := None;
     point_router := VNone;
     point_route_summary := None;
     point_route_concentration := None;
     point_success := false;
     point_error := Some (StrOfExn e) |}.

(** [quote["success"] and quote["out_amount"] > 0] *)
Definition has_output (q : quote) : result bool :=
  if success q then PyVal.gt_num (out_amount q) (PInt 0) else Ok false.

(** Output value and effective price of a quote. *)
Definition output_of (q : quote) (swap_size_tokens : float)
  (output_price_usd : pynum) (output_decimals : N)
  : result (float * float) :=
  let? positive := has_output q in
  if positive then
    let? out :=
      match PyVal.as_num (out_amount q) with
      | Some n => Ok n
      | None => Raise TypeError
      end in
    let? output_usd := Utils.native_to_usd out output_price_usd output_decimals in
    let? effective_price :=
      if PyNum.gt (PFloat swap_size_tokens) (PInt 0)
      then PyFloat.div output_usd swap_size_tokens
      else Ok PyFloat.zero in
    Ok (output_usd, effective_price)
  else Ok (PyFloat.zero, PyFloat.zero).

(** One turn of the loop over the size bands. *)
Definition depth_point (input_mint : string) (token_decimals : N)
  (token_price_usd : pynum) (output_decimals : N)
  (output_price_usd : pynum) (swap_size : pynum) : M point :=
  match Utils.usd_to_native_units py swap_size token_price_usd token_decimals with
  | Raise e =>
      if is_ValueError e then ret (conversion_failed swap_size e)
      else raise e
  | Ok amount_native =>
      (tokens <- lift (Utils.native_to_tokens (PInt amount_native) token_decimals) ;;
       q <- query_swap_price_impact input_mint USDC_MINT amount_native None ;;
       out <- lift (output_of q tokens output_price_usd output_decimals) ;;
       sleep (PFloat RATE_LIMIT_DELAY) ;;;
       ret {| swap_size_usd := swap_size;
              swap_size_native := amount_native;
              swap_size_tokens := tokens;
              price_impact_pct := price_impact q;
              output_usd := fst out;
              effective_price := snd out;
              point_slippage_bps := Some (slippage_bps q);
              point_router := router q;
              point_route_summary := route_summary q;
              point_route_concentration := route_concentration q;
              point_success := success q;
              point_error := error q |})%http
  end.

(** The defaults [output_decimals = 6] and [output_price_usd = 1.0]. *)
Definition default_output_decimals : N := 6.
Definition default_output_price_usd : float :=
  S754_finite false 4503599627370496 (-52).

Definition analyze_liquidity_depth (input_mint : string)
  (token_decimals : N) (token_price_usd : pynum)
  (output_decimals : N) (output_price_usd : pynum)
  (swap_sizes_usd : option (list pynum)) : M (list point) :=
  let swap_sizes_usd :=
    match swap_sizes_usd with
    | None => SWAP_SIZE_BANDS_USD
    | Some l => l
    end in
  for_each
    (depth_point input_mint token_decimals token_price_usd
       output_decimals output_price_usd)
    swap_sizes_usd.

End WithBuiltins.

End Jupiter.

(** ** kamino_client.py *)

Module Kamino.

(** A normalised reserve.  Mint addresses are strings and [decimals] a
    natural number, as the lending market reports them. *)
Record reserve := {
  symbol : string;
  mint_address : string;
  decimals : N;
  total_deposits : float;
  usd_price : pynum;
  tvl_usd : float;
  reserve_pubkey : pyval
}.

Section WithParser.
Variable py : builtins.

(** [_parse_reserves], the normalisation of the reserve records of a
    market document, is not unfolded: nothing below depends on how
    records are read, only on the fetch around it. *)
Variable _parse_reserves : pyval -> result (list reserve).

(** One turn of [for attempt in range(MAX_RETRIES)]. *)
Definition fetch_attempt (req : kamino_request) (attempt : nat)
  : M (option (list reserve)) :=
  (try_request
     (resp <- kamino_get req ;;
      raise_for_status resp ;;;
      data <- json resp ;;
      reserves <- lift (_parse_reserves data) ;;
      ret (Some reserves))
     (fun e =>
        if (attempt <? MAX_RETRIES - 1)%nat then
          sleep (PInt (RETRY_BACKOFF_FACTOR ^ Z.of_nat attempt)) ;;;
          ret None
        else
          raise (RequestException e)))%http.

Fixpoint fetch_attempts (req : kamino_request) (attempts : list nat)
  : M (list reserve) :=
  match attempts with
  | [] => ret []
  | attempt :: rest =>
      (r <- fetch_attempt req attempt ;;
       match r with
       | Some reserves => ret reserves
       | None => fetch_attempts req rest
       end)%http
  end.

Definition fetch_market_reserves (market_pubkey : string)
  : M (list reserve) :=
  fetch_attempts
    {| market := market_pubkey; programId := KLEND_PROGRAM_ID |}
    (seq 0 MAX_RETRIES).

Definition filter_volatile_collateral (reserves : list reserve)
  (asset_symbols : option (list string)) : list reserve :=
  let asset_symbols :=
    match asset_symbols with
    | None => VOLATILE_ASSETS
    | Some l => l
    end in
  let symbols_upper := map (str_upper py) asset_symbols in
  filter
    (fun r => existsb (String.eqb (str_upper py (symbol r))) symbols_upper)
    reserves.

End WithParser.

(** The dictionary [_parse_single_reserve] returns.  The values it copies
    from the record of the market document keep whatever type that record
    gave them. *)
Record parsed_reserve := {
  parsed_symbol : string;
  parsed_mint_address : pyval;
  parsed_decimals : pyval;
  parsed_total_deposits : float;
  parsed_usd_price : pyval;
  parsed_tvl_usd : float;
  parsed_reserve_pubkey : pyval
}.

Section WithPower.
Variable py : builtins.

(** [10 ** x] for a negative [int] or a [float] [x] is a float computed
    by the platform's [pow]; it is taken as given. *)
Variable float_pow10 : pynum -> result float.

(** [10 ** x] *)
Definition pow10 (x : pyval) : result pynum :=
  match PyVal.as_num x with
  | Some (PInt d) =>
      if 0 <=? d then Ok (PInt (10 ^ d))
      else let? y := float_pow10 (PInt d) in Ok (PFloat y)
  | Some (PFloat e) => let? y := float_pow10 (PFloat e) in Ok (PFloat y)
  | None => Raise TypeError
  end.

(** [a / b] where [b] is a number *)
Definition val_truediv (a : pyval) (b : pynum) : result float :=
  match PyVal.as_num a with
  | Some m => PyNum.truediv m b
  | None => Raise TypeError
  end.

(** [x * v] where [x] is a float *)
Definition float_times (x : float) (v : pyval) : result float :=
  match PyVal.as_num v with
  | Some n =>
      let? y := PyNum.to_float n in Ok (PyFloat.mul x y)
  | None => Raise TypeError
  end.

(** The body of the [try] of [_parse_single_reserve]. *)
Definition parse_single_reserve_body (reserve_data : pyval)
  : result (option parsed_reserve) :=
  match reserve_data with
  | VDict d =>
      let? symbol :=
        match PyVal.get d "symbol" (VStr "") with
        | VStr s => Ok (str_upper py s)
        | _ => Raise AttributeError
        end in
      let mint_address := PyVal.get d "mintAddress" (PyVal.get d "mint" VNone) in
      let decimals := PyVal.get d "decimals" (VNum (PInt 0)) in
      let reserve_pubkey := PyVal.get d "reserve" (PyVal.get d "address" VNone) in
      if negb (PyVal.truthy (VStr symbol)) || negb (PyVal.truthy mint_address)
      then Ok None
      else
        let price := PyVal.get d "assetPriceUSD" (VNum (PFloat PyFloat.zero)) in
        let? price :=
          match price with
          | VStr s => let? x := PyVal.to_float py (VStr s) in Ok (VNum (PFloat x))
          | v => Ok v
          end in
        let total_deposits_wads :=
          PyVal.get d "totalLiquidityWads"
            (PyVal.get d "totalDepositsWads" (VNum (PInt 0))) in
        let? total_deposits_wads :=
          match total_deposits_wads with
          | VStr s =>
              match int_of_str py s with
              | Some n => Ok (VNum (PInt n))
              | None => Raise ValueError
              end
          | VNum (PFloat x) => let? n := PyFloat.to_int x in Ok (VNum (PInt n))
          | v => Ok v
          end in
        let? power := pow10 decimals in
        let? total_deposits := val_truediv total_deposits_wads power in
        let? tvl_usd := float_times total_deposits price in
        Ok (Some {| parsed_symbol := symbol;
                    parsed_mint_address := mint_address;
                    parsed_decimals := decimals;
                    parsed_total_deposits := total_deposits;
                    parsed_usd_price := price;
                    parsed_tvl_usd := tvl_usd;
                    parsed_reserve_pubkey := reserve_pubkey |})
  | _ => Raise AttributeError
  end.

(** [except Exception: return None] *)
Definition _parse_single_reserve (reserve_data : pyval)
  : option parsed_reserve :=
  match parse_single_reserve_body reserve_data with
  | Ok r => r
  | Raise _ => None
  end.

(** One turn of the loop of [_parse_reserves]. *)
Definition add_reserve (reserves : list parsed_reserve) (reserve_raw : pyval)
  : list parsed_reserve :=
  match _parse_single_reserve reserve_raw with
  | Some reserve => (reserves ++ [reserve])%list
  | None => reserves
  end.

Definition _parse_reserves (market_data : pyval)
  : result (list parsed_reserve) :=
  match market_data with
  | VDict md =>
      let reserves_data := PyVal.get md "reserves" (VList []) in
      let? reserves_data :=
        if negb (PyVal.truthy reserves_data) then
          PyVal.val_get (PyVal.get md "data" (VDict [])) "reserves" (VList [])
        else Ok reserves_data in
      let? items := PyVal.iterate reserves_data in
      Ok (fold_left add_reserve items [])
  | _ => Raise AttributeError
  end.

End WithPower.

End Kamino.

(** ** analyzer.py *)

Module Analyzer.
Import Jupiter Kamino.

(** One row of the report (the timestamp of the run is left out). *)
Record row := {
  asset_symbol : string;
  row_mint_address : string;
  current_price_usd : pynum;
  current_tvl_usd : float;
  row_swap_size_usd : pynum;
  row_swap_size_tokens : float;
  row_price_impact_pct : option pynum;
  row_output_usd : float;
  row_effective_price : float;
  row_slippage_bps : pyval;
  row_router : pyval;
  row_route_summary : option string;
  row_route_concentration : option float;
  quote_success : bool;
  error_msg : option error_text;
  risk_flags : list string
}.

(** The flags of the first two rules, in order. *)
Definition impact_flags (liquidity_result : point) : result (list string) :=
  let? flags :=
    match price_impact_pct liquidity_result with
    | Some price_impact =>
        if PyNum.truthy price_impact
           && PyNum.gt price_impact (PFloat HIGH_PRICE_IMPACT_THRESHOLD)
        then
          let? t := PyStr.format_num_f 1 price_impact in
          Ok ["HIGH_IMPACT_" ++ t ++ "%"]
        else Ok []
    | None => Ok []
    end in
  match point_route_concentration liquidity_result with
  | Some concentration =>
      if PyNum.truthy (PFloat concentration)
         && PyNum.gt (PFloat concentration) (PFloat ROUTE_CONCENTRATION_THRESHOLD)
      then
        Ok (flags ++ [("CONCENTRATED_ROUTE_" ++ PyStr.format_f 0 concentration ++ "%")%string])%list
      else Ok flags
  | None => Ok flags
  end.

Definition low_tvl_flag (tvl_ratio : float) : string :=
  "LOW_TVL_RATIO_" ++ PyStr.format_f 1 tvl_ratio ++ "x".

Definition _identify_risk_flags (reserve : reserve) (liquidity_result : point)
  : result (list string) :=
  if negb (point_success liquidity_result) then Ok ["QUOTE_FAILED"]
  else
    let? flags := impact_flags liquidity_result in
    let swap_size := swap_size_usd liquidity_result in
    let tvl := tvl_usd reserve in
    if PyNum.gt (PFloat tvl) (PInt 0) then
      let? tvl_ratio := PyNum.truediv (PFloat tvl) swap_size in
      if PyNum.lt (PFloat tvl_ratio) (PFloat MIN_TVL_MULTIPLE)
      then Ok (flags ++ [low_tvl_flag tvl_ratio])%list
      else Ok flags
    else Ok flags.

Section WithBuiltins.
Variable py : builtins.
Variable _parse_reserves : pyval -> result (list reserve).

(** [LiquidityAnalyzer.__init__]: [swap_sizes_usd or SWAP_SIZE_BANDS_USD] *)
Definition init_swap_sizes (swap_sizes_usd : option (list pynum))
  : list pynum :=
  match swap_sizes_usd with
  | Some (x :: l) => x :: l
  | _ => SWAP_SIZE_BANDS_USD
  end.

Definition report_row (reserve : reserve) (result : point)
  : M row :=
  (flags <- lift (_identify_risk_flags reserve result) ;;
   ret {| asset_symbol := symbol reserve;
          row_mint_address := mint_address reserve;
          current_price_usd := usd_price reserve;
          current_tvl_usd := tvl_usd reserve;
          row_swap_size_usd := swap_size_usd result;
          row_swap_size_tokens := swap_size_tokens result;
          row_price_impact_pct := price_impact_pct result;
          row_output_usd := output_usd result;
          row_effective_price := effective_price result;
          row_slippage_bps :=
            match point_slippage_bps result with
            | Some v => v
            | None => VNum (PInt 0)
            end;
          row_router := point_router result;
          row_route_summary := point_route_summary result;
          row_route_concentration := point_route_concentration result;
          quote_success := point_success result;
          error_msg := point_error result;
          risk_flags := flags |})%http.

(** The body of the loop over the volatile reserves. *)
Definition analyze_reserve (swap_sizes : list pynum) (reserve : reserve)
  : M (list row) :=
  (liquidity_results <-
     analyze_liquidity_depth py (mint_address reserve) (decimals reserve)
       (usd_price reserve) default_output_decimals
       (PFloat default_output_price_usd) (Some swap_sizes) ;;
   for_each (report_row reserve) liquidity_results)%http.

Definition generate_liquidity_report (market_pubkey : string)
  (swap_sizes_usd : option (list pynum))
  (asset_filter : option (list string)) : M (list row) :=
  (all_reserves <- fetch_market_reserves _parse_reserves market_pubkey ;;
   match all_reserves with
   | [] => ret []
   | _ =>
       let volatile_reserves :=
         filter_volatile_collateral py all_reserves
           (Some match asset_filter with
                 | Some (x :: l) => x :: l
                 | _ => VOLATILE_ASSETS
                 end) in
       match volatile_reserves with
       | [] => ret []
       | _ =>
           rows <- for_each (analyze_reserve (init_swap_sizes swap_sizes_usd))
                     volatile_reserves ;;
           ret (List.concat rows)
       end
   end)%http.

End WithBuiltins.

End Analyzer.

(** ** A reference implementation of the builtins

    Plain decimal literals only (no underscores, no hexadecimal forms); it
    serves to run the model on concrete documents. *)

Module Reference.

(** The float nearest to [(-1)^s * c * 10^k]. *)
Definition float_of_decimal (s : bool) (c : positive) (k : Z) : float :=
  match k with
  | Zneg d =>
      SFdiv PyFloat.prec PyFloat.emax
        (S754_finite s c 0) (S754_finite false (10 ^ d)%positive 0)
  | _ =>
      binary_normalize PyFloat.prec PyFloat.emax
        ((if s then Zneg c else Zpos c) * 10 ^ k) 0 false
  end.

(** [floor(log10(m * 2^e))] *)
Definition decimal_exponent (m : positive) (e : Z) : Z :=
  match e with
  | Zneg d => PyDecimal.ndigits (Zpos m * 10 ^ 400 / 2 ^ Zpos d) - 1 - 400
  | _ => PyDecimal.ndigits (Zpos m * 2 ^ e) - 1
  end.

(** The integer nearest to [m * 2^e / 10^k], ties to even. *)
Definition nearest_coefficient (m : positive) (e k : Z) : Z :=
  let num := Zpos m * 2 ^ Z.max e 0 * 10 ^ Z.max (- k) 0 in
  let den := 2 ^ Z.max (- e) 0 * 10 ^ Z.max k 0 in
  let q := num / den in
  match 2 * (num mod den) ?= den with
  | Lt => q
  | Gt => q + 1
  | Eq => if Z.even q then q else q + 1
  end.

Definition float_eqb (x y : float) : bool :=
  match x, y with
  | S754_finite s m e, S754_finite s' m' e' =>
      Bool.eqb s s' && Pos.eqb m m' && Z.eqb e e'
  | _, _ => false
  end.

(** The shortest decimal that reads back as the float [m * 2^e]. *)
Fixpoint shortest (fuel : nat) (nd : Z) (m : positive) (e : Z)
  : positive * Z :=
  let k := decimal_exponent m e - nd + 1 in
  let c := Z.to_pos (nearest_coefficient m e k) in
  match fuel with
  | O => (c, k)
  | S fuel' =>
      if float_eqb (float_of_decimal false c k) (S754_finite false m e)
      then (c, k)
      else shortest fuel' (nd + 1) m e
  end.

Definition ref_float_repr (m : positive) (e : Z) : positive * Z :=
  shortest 16 1 m e.

Definition is_space (c : ascii) : bool :=
  let n := nat_of_ascii c in
  ((n =? 32) || (n =? 9) || (n =? 10) || (n =? 13))%nat.

Fixpoint lstrip (s : string) : string :=
  match s with
  | String c r => if is_space c then lstrip r else s
  | EmptyString => s
  end.

Fixpoint rev_string (s acc : string) : string :=
  match s with
  | EmptyString => acc
  | String c r => rev_string r (String c acc)
  end.

Definition strip (s : string) : string :=
  rev_string (lstrip (rev_string (lstrip s) "")) "".

Definition digit_of (c : ascii) : option Z :=
  let n := nat_of_ascii c in
  if ((48 <=? n) && (n <=? 57))%nat then Some (Z.of_nat n - 48) else None.

(** Leading digits of [s]: their value after [acc], their number, the rest. *)
Fixpoint read_digits (s : string) (acc : Z) (count : nat)
  : Z * nat * string :=
  match s with
  | String c r =>
      match digit_of c with
      | Some d => read_digits r (10 * acc + d) (S count)
      | None => (acc, count, s)
      end
  | EmptyString => (acc, count, s)
  end.

Definition read_sign (s : string) : bool * string :=
  match s with
  | String "-" r => (true, r)
  | String "+" r => (false, r)
  | _ => (false, s)
  end.

Definition ref_int_of_str (s : string) : option Z :=
  let (neg, r) := read_sign (strip s) in
  match read_digits r 0 0 with
  | (n, S _, EmptyString) => Some (if neg then - n else n)
  | _ => None
  end.

Definition to_lower (c : ascii) : ascii :=
  let n := nat_of_ascii c in
  if ((65 <=? n) && (n <=? 90))%nat then ascii_of_nat (n + 32) else c.

Definition to_upper (c : ascii) : ascii :=
  let n := nat_of_ascii c in
  if ((97 <=? n) && (n <=? 122))%nat then ascii_of_nat (n - 32) else c.

Fixpoint map_string (f : ascii -> ascii) (s : string) : string :=
  match s with
  | EmptyString => EmptyString
  | String c r => String (f c) (map_string f r)
  end.

Definition ref_str_upper (s : string) : string := map_string to_upper s.

(** The exponent part of a literal: nothing, or [e] and a signed number. *)
Definition read_exponent (s : string) : option Z :=
  match s with
  | EmptyString => Some 0
  | String c r =>
      if Ascii.eqb (to_lower c) "e" then
        let (neg, r') := read_sign r in
        match read_digits r' 0 0 with
        | (n, S _, EmptyString) => Some (if neg then - n else n)
        | _ => None
        end
      else None
  end.

Definition ref_float_of_str (s : string) : option float :=
  let (neg, r) := read_sign (strip s) in
  let low := map_string to_lower r in
  if String.eqb low "inf" || String.eqb low "infinity" then
    Some (S754_infinity neg)
  else if String.eqb low "nan" then Some S754_nan
  else
    let '(ip, n1, r1) := read_digits r 0 0 in
    let '(c, n2, r2) :=
      match r1 with
      | String "." r' => read_digits r' ip 0
      | _ => (ip, O, r1)
      end in
    match (n1 + n2)%nat, read_exponent r2 with
    | S _, Some ex =>
        match c with
        | Zpos p => Some (float_of_decimal neg p (ex - Z.of_nat n2))
        | _ => Some (S754_zero neg)
        end
    | _, _ => None
    end.

Definition ref_builtins : builtins :=
  {| float_repr := ref_float_repr;
     float_of_str := ref_float_of_str;
     int_of_str := ref_int_of_str;
     str_upper := ref_str_upper |}.

End Reference.

(** * Vocabulary of the statements and sample data *)

Import Utils Jupiter Kamino Analyzer.

Definition is_low_tvl_flag (f : string) : bool := prefix "LOW_TVL_RATIO_" f.


(** A number that is neither an infinity nor NaN. *)
Definition is_finite_num (a : pynum) : bool :=
  match a with
  | PFloat (S754_infinity _) | PFloat S754_nan => false
  | _ => true
  end.

(** A reserve and a point used to run the rules. *)
Definition sample_reserve (tvl : float) : reserve :=
  {| symbol := "SOL"; mint_address := "So11111111111111111111111111111111111111112";
     decimals := 9; total_deposits := tvl; usd_price := PInt 1;
     tvl_usd := tvl; reserve_pubkey := VNone |}.

Definition sample_point (size : pynum) (ok : bool) : point :=
  {| swap_size_usd := size; swap_size_native := 0;
     swap_size_tokens := PyFloat.zero; price_impact_pct := None;
     output_usd := PyFloat.zero; effective_price := PyFloat.zero;
     point_slippage_bps := None; point_router := VNone;
     point_route_summary := None; point_route_concentration := None;
     point_success := ok; point_error := None |}.

(** 10000000.0 and 2.0 *)
Definition ten_million : float := S754_finite false 5368709120000000 (-29).
Definition two : float := S754_finite false 4503599627370496 (-51).

(** ** Route plans *)

(** The entries of a list that are first of their kind, in order. *)
Fixpoint distinct (l : list string) : list string :=
  match l with
  | [] => []
  | x :: r => x :: filter (fun y => negb (String.eqb y x)) (distinct r)
  end.

(** The venue label of a step: its label when that is a non-empty text. *)
Definition venue_label (step : pyval) : option string :=
  match step_label step with
  | Some (VStr s) => if String.eqb s "" then None else Some s
  | _ => None
  end.

Definition venue_labels (steps : list pyval) : list string :=
  flat_map (fun step => match venue_label step with
                        | Some s => [s]
                        | None => []
                        end) steps.

(** Every label found in the plan is a text or an empty value. *)
Definition labels_are_text (steps : list pyval) : Prop :=
  Forall (fun step => match step_label step with
                      | Some (VStr _) | None => True
                      | Some v => PyVal.truthy v = false
                      end) steps.

(** The summary in the words of the specification: the first three distinct
    labels joined by a comma and a space, "Unknown" when there is none. *)
Definition route_summary_spec (labels : list string) : string :=
  match labels with
  | [] => "Unknown"
  | _ => PyStr.join ", " (firstn 3 (distinct labels))
  end.

(** A step routed through the venue [label]. *)
Definition step_at (label : string) : pyval :=
  VDict [("swapInfo", VDict [("label", VStr label); ("percent", VNum (PInt 100))])].

(** One turn of the loop over the steps, on text labels. *)
Definition add_label (acc : list string) (s : string) : list string :=
  if existsb (String.eqb s) acc then acc else (acc ++ [s])%list.

(** ** Route concentration *)

(** The percentages the steps of a plan report, in order. *)
Definition reported_percents (steps : list pyval) : list pyval :=
  flat_map (fun step => match step_percent step with
                        | Some v => [v]
                        | None => []
                        end) steps.

(** [x <= y] on floats *)
Definition float_le (x y : float) : Prop :=
  PyNum.le (PFloat x) (PFloat y) = true.

(** [m] is a maximum of [l]: one of its items, and no item is above it. *)
Definition is_maximum (m : float) (l : list float) : Prop :=
  In m l /\ Forall (fun p => float_le p m) l.

(** Floats other than NaN are ordered like these triples, taken
    lexicographically. *)
Definition float_key (x : float) : Z * Z * Z :=
  match x with
  | S754_infinity true => (-2, 0, 0)
  | S754_finite true m e => (-1, - e, - Zpos m)
  | S754_finite false m e => (1, e, Zpos m)
  | S754_infinity false => (2, 0, 0)
  | _ => (0, 0, 0)
  end.

Definition lex3 (a b : Z * Z * Z) : comparison :=
  let '(a1, a2, a3) := a in
  let '(b1, b2, b3) := b in
  match a1 ?= b1 with
  | Eq => match a2 ?= b2 with
          | Eq => a3 ?= b3
          | c => c
          end
  | c => c
  end.

(** A step that reports the percentage [v]. *)
Definition step_with_percent (v : pyval) : pyval :=
  VDict [("swapInfo", VDict [("label", VStr "Orca"); ("percent", v)])].

(** 60.0 and 40.0 *)
Definition sixty : float := S754_finite false 8444249301319680 (-47).
Definition forty : float := S754_finite false 5629499534213120 (-47).

(** ** Upstream answers *)

(** What an answer of the aggregator means to the retry loop. *)
Inductive attempt_outcome :=
| RateLimited
| Failed (e : request_exception)
| Answered (data : pyval).

Definition classify (o : outcome) : attempt_outcome :=
  match o with
  | Fails msg => Failed (TransportError msg)
  | Responds st b =>
      if st =? 429 then RateLimited
      else if (400 <=? st) && (st <? 600) then Failed (HTTPError st)
      else match b with
           | Some data => Answered data
           | None => Failed JSONDecodeError
           end
  end.

(** The RequestException an answer leads to when read without a special
    case for 429, as the reserve fetch does. *)
Definition request_failure (o : outcome) : option request_exception :=
  match o with
  | Fails msg => Some (TransportError msg)
  | Responds st b =>
      if (400 <=? st) && (st <? 600) then Some (HTTPError st)
      else match b with
           | Some _ => None
           | None => Some JSONDecodeError
           end
  end.


(** An upstream that plays the given answers in order. *)
Definition scripted (kamino jupiter : list outcome) : world :=
  {| kamino_api := fun n _ => nth n kamino (Fails "connection refused");
     jupiter_api := fun n _ => nth n jupiter (Fails "connection refused");
     trace := [] |}.

(** 0.02 *)
Definition two_percent : float := S754_finite false 5764607523034235 (-58).


(** An answer whose output amount is 0. *)
Definition empty_quote_document : pyval :=
  VDict [("priceImpact", VNum (PFloat two_percent));
         ("outAmount", VStr "0");
         ("router", VStr "X")].

(** ** Exact values of a conversion *)




(** ** Flags by kind *)

Definition is_high_impact_flag (f : string) : bool := prefix "HIGH_IMPACT_" f.

Definition is_concentrated_route_flag (f : string) : bool :=
  prefix "CONCENTRATED_ROUTE_" f.

Definition is_quote_failed_flag (f : string) : bool :=
  String.eqb f "QUOTE_FAILED".

(** At most one entry, of the given kind. *)
Definition at_most_one (kind : string -> bool) (l : list string) : Prop :=
  l = [] \/ exists f, l = [f] /\ kind f = true.

(** 80.0 *)
Definition eighty : float := S754_finite false 5629499534213120 (-46).

(** A successful point with the given price impact, route concentration
    and size. *)
Definition quoted_point (impact : option pynum) (concentration : option float)
  (size : pynum) : point :=
  {| swap_size_usd := size; swap_size_native := 0;
     swap_size_tokens := PyFloat.zero; price_impact_pct := impact;
     output_usd := PyFloat.zero; effective_price := PyFloat.zero;
     point_slippage_bps := None; point_router := VNone;
     point_route_summary := None; point_route_concentration := concentration;
     point_success := true; point_error := None |}.

(** ** Time spent waiting *)

(** The whole seconds slept in a stretch of the trace, that is the backoff
    waits: the pacing delay between two bands is the float 0.5. *)
Fixpoint backoff_seconds (evs : list event) : Z :=
  match evs with
  | [] => 0
  | Sleep (PInt n) :: r => n + backoff_seconds r
  | _ :: r => backoff_seconds r
  end.

(** The events of a quote request: GETs of that request and whole-second
    sleeps. *)
Definition is_quote_event (req : jupiter_request) (ev : event) : Prop :=
  ev = JupiterGet req \/ exists k : Z, ev = Sleep (PInt k).

(** ** Signs *)

(** [-a] *)
Definition negated (a : pynum) : pynum :=
  match a with
  | PInt n => PInt (- n)
  | PFloat x => PFloat (SFopp x)
  end.

(** The decimal of opposite sign. *)
Definition decimal_negated (a : PyDecimal.decimal) : PyDecimal.decimal :=
  match a with
  | PyDecimal.DFinite s c e => PyDecimal.DFinite (negb s) c e
  | PyDecimal.DInfinity s => PyDecimal.DInfinity (negb s)
  | PyDecimal.DNaN => PyDecimal.DNaN
  end.

(** The steps of the conversion after its guard, on decimals. *)
Definition scaled_quotient (amount price : PyDecimal.decimal) (decimals : N)
  : result Z :=
  let? token_amount := PyDecimal.div amount price in
  let? scaled :=
    PyDecimal.mul token_amount (PyDecimal.of_int (10 ^ Z.of_N decimals)) in
  PyDecimal.to_int (PyDecimal.to_integral_value_ROUND_DOWN scaled).

(** ** Errors and special values *)

Definition raises_zero_division {A} (r : result A) : bool :=
  match r with
  | Raise ZeroDivisionError => true
  | _ => false
  end.

Definition is_nan (x : float) : bool :=
  match x with S754_nan => true | _ => false end.

(** A step routed through a venue whose label is the value [label]. *)
Definition step_labelled (label : pyval) : pyval :=
  VDict [("swapInfo", VDict [("label", label)])].

(** ** Answers of the lending market *)

(** The document an answer carries, when it is not an error status. *)
Definition document (o : outcome) : option pyval :=
  match o with
  | Responds st (Some data) =>
      if (400 <=? st) && (st <? 600) then None else Some data
  | _ => None
  end.

Definition is_request_exception (e : exn) : bool :=
  match e with RequestException _ => true | _ => false end.

(** A parser of market documents that finds one reserve in every
    object and fails like [get] does on anything else. *)
Definition one_reserve_parser (data : pyval) : result (list reserve) :=
  match data with
  | VDict _ => Ok [{| symbol := "SOL";
                      mint_address := "So11111111111111111111111111111111111111112";
                      decimals := 9; total_deposits := PyFloat.zero;
                      usd_price := PInt 0; tvl_usd := PyFloat.zero;
                      reserve_pubkey := VNone |}]
  | _ => Raise AttributeError
  end.

(** ** Records of the market document *)

(** The examples use natural numbers of decimals, for which [10 ** x] is
    an integer power; the float power stands in as a function that always
    fails. *)
Definition no_float_pow10 (x : pynum) : result float := Raise OverflowError.

(** A record of the market document for 2,500 tokens of 9 decimals at
    150.0 USD. *)
Definition one_hundred_fifty : float := S754_finite false 5277655813324800 (-45).

Definition sample_record : pyval :=
  VDict [("symbol", VStr "sol");
         ("mintAddress", VStr "So11111111111111111111111111111111111111112");
         ("decimals", VNum (PInt 9));
         ("assetPriceUSD", VNum (PFloat one_hundred_fifty));
         ("totalLiquidityWads", VStr "2500000000000")].

(** The records read from a list of raw records, in order. *)
Definition parsed_records (py : builtins) (float_pow10 : pynum -> result float)
  (items : list pyval) : list parsed_reserve :=
  flat_map (fun raw => match _parse_single_reserve py float_pow10 raw with
                       | Some r => [r]
                       | None => []
                       end) items.

(** ** Rows of the report *)

(** The assets a report is made for: [asset_filter or VOLATILE_ASSETS]. *)
Definition requested_assets (asset_filter : option (list string))
  : list string :=
  match asset_filter with
  | Some (x :: l) => x :: l
  | _ => VOLATILE_ASSETS
  end.

(** What a row is about: an asset and a swap size. *)
Definition row_key (r : row) : string * pynum :=
  (asset_symbol r, row_swap_size_usd r).

(** A reserve whose price is 0, as the market document gives it for an
    asset without a price. *)
Definition unpriced_reserve : reserve :=
  {| symbol := "SOL"; mint_address := "So11111111111111111111111111111111111111112";
     decimals := 9; total_deposits := PyFloat.zero; usd_price := PInt 0;
     tvl_usd := PyFloat.zero; reserve_pubkey := VNone |}.

(** The row of a point whose quote failed. *)
Definition failed_row (reserve : reserve) (pt : point) : row :=
  {| asset_symbol := symbol reserve;
     row_mint_address := mint_address reserve;
     current_price_usd := usd_price reserve;
     current_tvl_usd := tvl_usd reserve;
     row_swap_size_usd := swap_size_usd pt;
     row_swap_size_tokens := swap_size_tokens pt;
     row_price_impact_pct := price_impact_pct pt;
     row_output_usd := output_usd pt;
     row_effective_price := effective_price pt;
     row_slippage_bps :=
       match point_slippage_bps pt with
       | Some v => v
       | None => VNum (PInt 0)
       end;
     row_router := point_router pt;
     row_route_summary := point_route_summary pt;
     row_route_concentration := point_route_concentration pt;
     quote_success := point_success pt;
     error_msg := point_error pt;
     risk_flags := ["QUOTE_FAILED"] |}.

(** * Properties *)

(** ** Risk flags *)

Ltac inv H := inversion H; subst; clear H.

(** The float constants are the values Python reads from their literals. *)
Lemma float_literals :
  Reference.ref_float_of_str "0.5" = Some RATE_LIMIT_DELAY
  /\ Reference.ref_float_of_str "5.0" = Some HIGH_PRICE_IMPACT_THRESHOLD
  /\ Reference.ref_float_of_str "70.0" = Some ROUTE_CONCENTRATION_THRESHOLD
  /\ Reference.ref_float_of_str "5.0" = Some MIN_TVL_MULTIPLE
  /\ Reference.ref_float_of_str "1.0" = Some default_output_price_usd
  /\ Reference.ref_float_of_str "10000000.0" = Some ten_million
  /\ Reference.ref_float_of_str "2.0" = Some two
  /\ Reference.ref_float_of_str "0.02" = Some two_percent
  /\ Reference.ref_float_of_str "60.0" = Some sixty
  /\ Reference.ref_float_of_str "40.0" = Some forty.
Proof. repeat split; vm_compute; reflexivity. Qed.



(** C5. Whatever the reserve, a point whose quote failed
    ([success == false]) gets exactly the list [["QUOTE_FAILED"]]: the
    impact, concentration and TVL rules are not evaluated. *)
Theorem quote_failed_is_exclusive (r : reserve) (pt : point) :
  point_success pt = false ->
  _identify_risk_flags r pt = Ok ["QUOTE_FAILED"].
Proof.
  intros H. unfold _identify_risk_flags. rewrite H. reflexivity.
Qed.

Lemma quote_failed_is_exclusive_witness :
  _identify_risk_flags (sample_reserve ten_million)
    (sample_point (PInt 5000000) false) = Ok ["QUOTE_FAILED"].
Proof.
  apply (quote_failed_is_exclusive (sample_reserve ten_million)
           (sample_point (PInt 5000000) false)).
  reflexivity.
Defined.



(** ** Unit conversion *)

Lemma fix_finite s c e : exists c' e', PyDecimal.fix_ s c e = PyDecimal.DFinite s c' e'.
Proof.
  unfold PyDecimal.fix_. destruct (0 <? _); eauto.
Qed.

Lemma to_int_finite s c e :
  exists n, PyDecimal.to_int (PyDecimal.to_integral_value_ROUND_DOWN (PyDecimal.DFinite s c e)) = Ok n.
Proof.
  unfold PyDecimal.to_integral_value_ROUND_DOWN.
  destruct (0 <=? e); unfold PyDecimal.to_int; eauto.
Qed.

Lemma div_finite sa ca ea sb cb eb :
  cb <> 0 ->
  exists c e, PyDecimal.div (PyDecimal.DFinite sa ca ea) (PyDecimal.DFinite sb cb eb)
              = Ok (PyDecimal.DFinite (xorb sa sb) c e).
Proof.
  intros Hcb. unfold PyDecimal.div.
  destruct (Z.eqb_spec cb 0); [contradiction|].
  destruct (ca =? 0); [eauto|].
  match goal with |- context [let (_, _) := ?p in _] => destruct p as [coeff rem] end.
  destruct (fix_finite (xorb sa sb)
              (if negb (rem =? 0) && (coeff mod 5 =? 0) then coeff + 1 else coeff)
              (ea - eb - (PyDecimal.ndigits cb - PyDecimal.ndigits ca + PyDecimal.context_prec + 1)))
    as (c' & e' & ->).
  eauto.
Qed.

Lemma mul_finite sa ca ea sb cb eb :
  exists c e, PyDecimal.mul (PyDecimal.DFinite sa ca ea) (PyDecimal.DFinite sb cb eb)
              = Ok (PyDecimal.DFinite (xorb sa sb) c e).
Proof.
  unfold PyDecimal.mul.
  destruct (fix_finite (xorb sa sb) (ca * cb) (ea + eb)) as (c & e & ->). eauto.
Qed.

Lemma le_gt_exclusive a b : PyNum.gt a b = true -> PyNum.le a b = false.
Proof.
  unfold PyNum.gt, PyNum.le. destruct (PyNum.compare a b) as [[| |]|]; easy.
Qed.

Lemma of_num_finite py a :
  is_finite_num a = true ->
  exists s c e, PyDecimal.of_num py a = PyDecimal.DFinite s c e.
Proof.
  destruct a as [n|[s|s| |s m e]]; cbn; try discriminate; intros _; eauto.
  - unfold PyDecimal.of_int; eauto.
  - destruct (float_repr py m e); eauto.
Qed.

Lemma of_num_positive py p :
  PyNum.gt p (PInt 0) = true ->
  (exists c e, PyDecimal.of_num py p = PyDecimal.DFinite false c e /\ 0 < c)
  \/ PyDecimal.of_num py p = PyDecimal.DInfinity false.
Proof.
  destruct p as [n|[s|s| |s m e]]; cbn.
  - unfold PyNum.gt; cbn. destruct (Z.compare_spec n 0); try discriminate.
    intros _. left. exists (Z.abs n), 0. split; [|lia].
    unfold PyDecimal.of_int. destruct (Z.ltb_spec n 0); [lia|reflexivity].
  - vm_compute. discriminate.
  - destruct s; vm_compute; [discriminate|]. intros _. now right.
  - vm_compute. discriminate.
  - unfold PyNum.gt, PyNum.compare, PyFloat.compare_int.
    intros H. left. destruct (float_repr py m e) as [c k].
    destruct s.
    + exfalso.
      assert (Hp : forall k, 0 < 2 ^ Z.pos k) by (intros; apply Z.pow_pos_nonneg; lia).
      destruct e as [|j|j]; cbn [option_map] in H;
        match type of H with
        | context [?a ?= ?b] => destruct (Z.compare_spec a b) as [Hc|Hc|Hc]
        end; cbn in H; try discriminate; try specialize (Hp j); nia.
    + exists (Zpos c), k. split; [reflexivity|lia].
Qed.

(** C9. [usd_to_native_units] raises the invalid-price [ValueError]
    exactly when [token_price_usd <= 0], in particular for the prices 0 and
    -5; for a price above 0 and a finite amount it returns an integer
    without error. *)
Theorem invalid_price_iff_nonpositive :
  (forall (py : builtins) (amount_usd token_price_usd : pynum) (decimals : N),
      usd_to_native_units py amount_usd token_price_usd decimals
        = Raise (InvalidTokenPrice token_price_usd)
      <-> PyNum.le token_price_usd (PInt 0) = true)
  /\ (forall (py : builtins) (amount_usd : pynum) (decimals : N),
         usd_to_native_units py amount_usd (PInt 0) decimals
           = Raise (InvalidTokenPrice (PInt 0))
         /\ usd_to_native_units py amount_usd (PInt (-5)) decimals
              = Raise (InvalidTokenPrice (PInt (-5))))
  /\ (forall (py : builtins) (amount_usd token_price_usd : pynum) (decimals : N),
         is_finite_num amount_usd = true ->
         PyNum.gt token_price_usd (PInt 0) = true ->
         exists n : Z,
           usd_to_native_units py amount_usd token_price_usd decimals = Ok n).
Proof.
  split; [|split].
  - intros py a p d. unfold usd_to_native_units. split.
    + destruct (PyNum.le p (PInt 0)); [reflexivity|]. intros H. exfalso.
      destruct (PyDecimal.of_num py a) as [sa ca ea|sa|];
        destruct (PyDecimal.of_num py p) as [sb cb eb|sb|]; cbn [PyDecimal.div rbind] in H.
      * destruct (Z.eqb_spec cb 0).
        { destruct (ca =? 0); discriminate. }
        destruct (div_finite sa ca ea sb cb eb n) as (c & e & Hd).
        unfold PyDecimal.div in Hd. destruct (Z.eqb_spec cb 0); [contradiction|].
        rewrite Hd in H. cbn [rbind] in H.
        destruct (mul_finite (xorb sa sb) c e (10 ^ Z.of_N d <? 0) (Z.abs (10 ^ Z.of_N d)) 0)
          as (c2 & e2 & Hm).
        unfold PyDecimal.of_int in H. rewrite Hm in H. cbn [rbind] in H.
        destruct (to_int_finite (xorb (xorb sa sb) (10 ^ Z.of_N d <? 0)) c2 e2) as (n' & Hn).
        rewrite Hn in H. discriminate.
      * unfold PyDecimal.of_int, PyDecimal.mul in H.
        cbn [rbind] in H.
        destruct (fix_finite (xorb (xorb sa sb) (10 ^ Z.of_N d <? 0)) (0 * Z.abs (10 ^ Z.of_N d)) (0 + 0))
          as (c2 & e2 & Hm).
        rewrite Hm in H. cbn [rbind] in H.
        destruct (to_int_finite (xorb (xorb sa sb) (10 ^ Z.of_N d <? 0)) c2 e2) as (n' & Hn).
        rewrite Hn in H. discriminate.
      * cbn in H. discriminate.
      * unfold PyDecimal.of_int, PyDecimal.mul in H. cbn [rbind] in H.
        destruct (Z.abs (10 ^ Z.of_N d) =? 0); cbn in H; discriminate.
      * discriminate.
      * cbn in H. discriminate.
      * cbn in H. discriminate.
      * cbn in H. discriminate.
      * cbn in H. discriminate.
    + intros ->. reflexivity.
  - intros py a d. split; reflexivity.
  - intros py a p d Hfin Hpos. unfold usd_to_native_units.
    rewrite (le_gt_exclusive _ _ Hpos).
    destruct (of_num_finite py a Hfin) as (sa & ca & ea & ->).
    destruct (of_num_positive py p Hpos) as [(cb & eb & -> & Hcb)| ->].
    + destruct (div_finite sa ca ea false cb eb ltac:(lia)) as (c & e & ->).
      cbn [rbind]. unfold PyDecimal.of_int.
      destruct (mul_finite (xorb sa false) c e (10 ^ Z.of_N d <? 0) (Z.abs (10 ^ Z.of_N d)) 0)
        as (c2 & e2 & ->).
      cbn [rbind]. apply to_int_finite.
    + cbn [PyDecimal.div rbind]. unfold PyDecimal.of_int.
      destruct (mul_finite (xorb sa false) 0 0 (10 ^ Z.of_N d <? 0) (Z.abs (10 ^ Z.of_N d)) 0)
        as (c2 & e2 & ->).
      cbn [rbind]. apply to_int_finite.
Qed.

Lemma invalid_price_iff_nonpositive_witness :
  exists n : Z,
    usd_to_native_units Reference.ref_builtins (PInt 1000000) (PInt 200) 9 = Ok n.
Proof.
  apply (proj2 (proj2 invalid_price_iff_nonpositive) Reference.ref_builtins
           (PInt 1000000) (PInt 200) 9%N); reflexivity.
Defined.

(** ** Quote normalisation *)

Ltac step_bind E :=
  match type of E with
  | rbind ?r _ = _ =>
      let H := fresh "Hb" in
      destruct r eqn:H; cbn [rbind] in E; [|discriminate E]
  end.

Lemma parse_quote_body_fields py d q :
  parse_quote_body py (VDict d) = Ok q ->
  success q = true
  /\ (PyVal.lookup d "priceImpact" = None -> price_impact q = Some (PInt 0))
  /\ (PyVal.lookup d "outAmount" = None -> out_amount q = VNum (PInt 0))
  /\ (PyVal.lookup d "slippageBps" = None -> slippage_bps q = VNum (PInt 0)).
Proof.
  unfold parse_quote_body. cbn [PyVal.val_get rbind]. intros E.
  do 5 step_bind E. inv E. cbn.
  split; [reflexivity|]. split; [|split].
  - intros Hl. unfold PyVal.get in *. rewrite Hl in *.
    inv Hb. cbn in Hb0. inv Hb0. reflexivity.
  - intros Hl. unfold PyVal.get in *. rewrite Hl in *. inv Hb1. reflexivity.
  - intros Hl. unfold PyVal.get. rewrite Hl. reflexivity.
Qed.

Lemma parse_quote_body_bare py d :
  PyVal.lookup d "priceImpact" = None ->
  PyVal.lookup d "outAmount" = None ->
  PyVal.lookup d "routePlan" = None ->
  exists q, parse_quote_body py (VDict d) = Ok q.
Proof.
  intros H1 H2 H3. unfold parse_quote_body. cbn [PyVal.val_get rbind].
  unfold PyVal.get. rewrite H1, H2, H3. cbn. eauto.
Qed.

(** C2 (amended). For every aggregator response that is a JSON object: when
    the parse succeeds, a numeric field absent from the response is recorded
    as zero (price impact 0, output amount 0, slippage bps 0), not as an
    absent value; a parse that fails records an absent price impact with
    output amount 0 and slippage bps 0; and a response without price
    impact, output amount and route plan always parses. *)
Theorem absent_numeric_fields_are_zero (py : builtins) (d : list (string * pyval)) :
  let q := _parse_quote_response py (VDict d) in
  (success q = true ->
     (PyVal.lookup d "priceImpact" = None -> price_impact q = Some (PInt 0))
     /\ (PyVal.lookup d "outAmount" = None -> out_amount q = VNum (PInt 0))
     /\ (PyVal.lookup d "slippageBps" = None -> slippage_bps q = VNum (PInt 0)))
  /\ (success q = false ->
        price_impact q = None
        /\ out_amount q = VNum (PInt 0)
        /\ slippage_bps q = VNum (PInt 0))
  /\ (PyVal.lookup d "priceImpact" = None ->
      PyVal.lookup d "outAmount" = None ->
      PyVal.lookup d "routePlan" = None ->
      success q = true).
Proof.
  cbn zeta. unfold _parse_quote_response.
  destruct (parse_quote_body py (VDict d)) as [q|e] eqn:E.
  - destruct (parse_quote_body_fields py d q E) as (Hs & H1 & H2 & H3).
    split; [auto|]. split; [|auto].
    rewrite Hs. discriminate.
  - split; [discriminate|]. split; [auto|].
    intros H1 H2 H3. destruct (parse_quote_body_bare py d H1 H2 H3) as (q & Hq).
    congruence.
Qed.

Lemma absent_numeric_fields_are_zero_witness :
  price_impact (_parse_quote_response Reference.ref_builtins
                  (VDict [("router", VStr "X")])) = Some (PInt 0).
Proof.
  apply (proj1 (absent_numeric_fields_are_zero Reference.ref_builtins
                  [("router", VStr "X")])); reflexivity.
Defined.

(** C2 as stated fails: a response carrying only a router label lacks the
    three numeric fields, it is normalised to a successful quote, and the
    quote records 0 for each of them instead of an absent value. *)
Lemma absent_numeric_fields_counterexample :
  let d := [("router", VStr "X")] in
  let q := _parse_quote_response Reference.ref_builtins (VDict d) in
  PyVal.lookup d "priceImpact" = None
  /\ PyVal.lookup d "outAmount" = None
  /\ PyVal.lookup d "slippageBps" = None
  /\ success q = true
  /\ price_impact q = Some (PInt 0) /\ price_impact q <> None
  /\ out_amount q = VNum (PInt 0) /\ out_amount q <> VNone
  /\ slippage_bps q = VNum (PInt 0) /\ slippage_bps q <> VNone.
Proof.
  vm_compute. repeat split; discriminate.
Qed.

(** ** Route summary *)

Lemma In_list_strings s acc :
  PyVal.In_list (VStr s) (map VStr acc) = existsb (String.eqb s) acc.
Proof.
  unfold PyVal.In_list. induction acc as [|t acc IH]; cbn; [reflexivity|].
  now rewrite <- IH.
Qed.

Lemma add_dex_label acc step :
  match step_label step with
  | Some (VStr _) | None => True
  | Some v => PyVal.truthy v = false
  end ->
  add_dex (map VStr acc) step
  = map VStr (fold_left add_label
                (match venue_label step with Some s => [s] | None => [] end) acc).
Proof.
  unfold add_dex, venue_label. destruct (step_label step) as [v|]; [|reflexivity].
  destruct v; intros H; try (rewrite H; reflexivity).
  cbn [PyVal.truthy]. destruct (String.eqb s ""); cbn [negb andb fold_left]; [reflexivity|].
  rewrite In_list_strings. unfold add_label.
  destruct (existsb (String.eqb s) acc); cbn [negb]; [reflexivity|].
  now rewrite map_app.
Qed.

Lemma fold_add_dex steps :
  labels_are_text steps ->
  forall acc,
    fold_left add_dex steps (map VStr acc)
    = map VStr (fold_left add_label (venue_labels steps) acc).
Proof.
  induction 1 as [|step steps Hstep _ IH]; intros acc; [reflexivity|].
  cbn [fold_left venue_labels flat_map].
  rewrite (add_dex_label acc step Hstep), IH.
  fold (venue_labels steps). now rewrite fold_left_app.
Qed.

Lemma filter_comm {A} (p q : A -> bool) l :
  filter p (filter q l) = filter q (filter p l).
Proof.
  induction l as [|x l IH]; cbn; [reflexivity|].
  destruct (p x) eqn:Hp, (q x) eqn:Hq; cbn; rewrite ?Hp, ?Hq, IH; reflexivity.
Qed.

Lemma distinct_filter p l : distinct (filter p l) = filter p (distinct l).
Proof.
  induction l as [|x l IH]; cbn; [reflexivity|].
  destruct (p x) eqn:Hp; cbn; rewrite ?Hp, IH.
  - now rewrite filter_comm.
  - assert (E : forall l', filter p (filter (fun y => negb (String.eqb y x)) l') = filter p l').
    { induction l' as [|z l' IH']; cbn; [reflexivity|].
      destruct (String.eqb_spec z x) as [->|]; cbn.
      - rewrite Hp. exact IH'.
      - destruct (p z); now rewrite IH'. }
    symmetry. apply E.
Qed.

Lemma fold_add_label l :
  forall acc,
    fold_left add_label l acc
    = (acc ++ distinct (filter (fun x => negb (existsb (String.eqb x) acc)) l))%list.
Proof.
  induction l as [|x l IH]; intros acc; cbn [fold_left filter].
  - cbn. now rewrite app_nil_r.
  - unfold add_label at 2. destruct (existsb (String.eqb x) acc) eqn:Hx; cbn [negb].
    + apply IH.
    + rewrite IH. cbn [distinct]. rewrite <- app_assoc. cbn [app]. do 2 f_equal.
      rewrite <- distinct_filter, filter_comm. f_equal.
      clear. induction l as [|z l IH]; cbn; [reflexivity|].
      rewrite existsb_app. cbn [existsb]. rewrite orb_false_r.
      destruct (String.eqb z x); cbn [negb filter orb];
        destruct (existsb (String.eqb z) acc); cbn [negb orb];
        rewrite ?orb_true_r; cbn [negb]; now rewrite ?IH.
Qed.

Lemma strings_of_map l : PyVal.strings_of (map VStr l) = Ok l.
Proof.
  induction l as [|s l IH]; cbn; [reflexivity|]. now rewrite IH.
Qed.

Lemma step_label_fallbacks :
  forall sd si,
    PyVal.get sd "swapInfo" (PyVal.get sd "swap_info" (VDict [])) = VDict si ->
    step_label (VDict sd)
    = Some (match PyVal.lookup si "label" with
            | Some v => v
            | None => match PyVal.lookup si "ammKey" with
                      | Some v => v
                      | None => VStr "Unknown"
                      end
            end).
Proof.
  intros sd si H. unfold step_label. rewrite H. reflexivity.
Qed.

(** C7. For every route plan whose labels are texts, [parse_route_summary]
    returns the first three distinct venue labels joined by ", " in the
    order they are first seen, and "Unknown" when no step has a label.  The
    label of a step is read from "swapInfo" (else "swap_info"), under
    "label", else "ammKey", else it is "Unknown".  The empty plan gives
    "Unknown" and the five steps A, A, B, C, D give "A, B, C". *)
Theorem route_summary_first_three_distinct :
  (forall steps : list pyval,
      labels_are_text steps ->
      parse_route_summary (VList steps)
      = Ok (route_summary_spec (venue_labels steps)))
  /\ (forall sd si : list (string * pyval),
         PyVal.get sd "swapInfo" (PyVal.get sd "swap_info" (VDict [])) = VDict si ->
         step_label (VDict sd)
         = Some (match PyVal.lookup si "label" with
                 | Some v => v
                 | None => match PyVal.lookup si "ammKey" with
                           | Some v => v
                           | None => VStr "Unknown"
                           end
                 end))
  /\ parse_route_summary (VList []) = Ok "Unknown"
  /\ parse_route_summary
       (VList [step_at "A"; step_at "A"; step_at "B"; step_at "C"; step_at "D"])
     = Ok "A, B, C".
Proof.
  split; [|split; [exact step_label_fallbacks|split; reflexivity]].
  intros steps Htext. unfold parse_route_summary.
  destruct steps as [|step steps]; [reflexivity|].
  cbn [PyVal.truthy negb PyVal.iterate rbind].
  change (@nil pyval) with (map VStr []).
  rewrite (fold_add_dex _ Htext), fold_add_label. cbn [app existsb negb].
  assert (E : forall l : list string, filter (fun _ => true) l = l).
  { induction l as [|z l IH]; cbn; congruence. }
  rewrite E. unfold route_summary_spec, PyVal.join.
  destruct (venue_labels (step :: steps)) as [|s l]; [reflexivity|].
  cbn [distinct map]. rewrite <- (map_cons VStr), firstn_map.
  rewrite strings_of_map. reflexivity.
Qed.

Lemma route_summary_first_three_distinct_witness :
  parse_route_summary (VList [step_at "Orca"; step_at "Raydium"; step_at "Orca"])
  = Ok (route_summary_spec
          (venue_labels [step_at "Orca"; step_at "Raydium"; step_at "Orca"])).
Proof.
  apply (proj1 route_summary_first_three_distinct
           [step_at "Orca"; step_at "Raydium"; step_at "Orca"]).
  repeat constructor.
Defined.

(** ** Route concentration *)

Lemma compare_key x y :
  x <> S754_nan -> y <> S754_nan ->
  PyNum.compare (PFloat x) (PFloat y) = Some (lex3 (float_key x) (float_key y)).
Proof.
  intros Hx Hy. unfold PyNum.compare, PyFloat.compare, SFcompare.
  destruct x as [sx|sx| |sx mx ex], y as [sy|sy| |sy my ey];
    try congruence; try (destruct sx); try (destruct sy); cbn; try reflexivity.
  rewrite Z.compare_opp, (Z.compare_antisym ex ey).
  destruct (ex ?= ey); reflexivity.
Qed.

Lemma lex3_not_gt a b :
  lex3 a b <> Gt <->
  let '(a1, a2, a3) := a in
  let '(b1, b2, b3) := b in
  a1 < b1 \/ (a1 = b1 /\ (a2 < b2 \/ (a2 = b2 /\ a3 <= b3))).
Proof.
  destruct a as [[a1 a2] a3], b as [[b1 b2] b3]. unfold lex3.
  destruct (Z.compare_spec a1 b1);
    [|split; [lia|discriminate]|split; [congruence|lia]].
  destruct (Z.compare_spec a2 b2);
    [|split; [lia|discriminate]|split; [congruence|lia]].
  destruct (Z.compare_spec a3 b3); split;
    solve [lia | discriminate | congruence].
Qed.

Lemma float_le_key x y :
  x <> S754_nan -> y <> S754_nan ->
  (float_le x y <-> lex3 (float_key x) (float_key y) <> Gt).
Proof.
  intros Hx Hy. unfold float_le, PyNum.le. rewrite (compare_key x y Hx Hy).
  destruct (lex3 (float_key x) (float_key y)); split; congruence.
Qed.

Lemma float_gt_key x y :
  x <> S754_nan -> y <> S754_nan ->
  (PyNum.gt (PFloat x) (PFloat y) = true <-> lex3 (float_key x) (float_key y) = Gt).
Proof.
  intros Hx Hy. unfold PyNum.gt. rewrite (compare_key x y Hx Hy).
  destruct (lex3 (float_key x) (float_key y)); split; congruence.
Qed.

Lemma float_le_refl x : x <> S754_nan -> float_le x x.
Proof.
  intros Hx. apply float_le_key; trivial. apply lex3_not_gt.
  destruct (float_key x) as [[a b] c]. lia.
Qed.

Lemma float_le_trans x y z :
  x <> S754_nan -> y <> S754_nan -> z <> S754_nan ->
  float_le x y -> float_le y z -> float_le x z.
Proof.
  intros Hx Hy Hz Hxy Hyz.
  apply float_le_key in Hxy; trivial. apply float_le_key in Hyz; trivial.
  apply float_le_key; trivial.
  apply lex3_not_gt in Hxy. apply lex3_not_gt in Hyz. apply lex3_not_gt.
  destruct (float_key x) as [[a1 a2] a3], (float_key y) as [[b1 b2] b3],
    (float_key z) as [[c1 c2] c3]. lia.
Qed.

Lemma float_gt_le x y :
  x <> S754_nan -> y <> S754_nan ->
  PyNum.gt (PFloat x) (PFloat y) = true -> float_le y x.
Proof.
  intros Hx Hy H. apply float_gt_key in H; trivial.
  apply float_le_key; trivial. apply lex3_not_gt.
  destruct (float_key x) as [[a1 a2] a3], (float_key y) as [[b1 b2] b3].
  unfold lex3 in H.
  destruct (Z.compare_spec a1 b1); try discriminate; try lia.
  destruct (Z.compare_spec a2 b2); try discriminate; try lia.
  destruct (Z.compare_spec a3 b3); try discriminate; lia.
Qed.

Lemma float_not_gt_le x y :
  x <> S754_nan -> y <> S754_nan ->
  PyNum.gt (PFloat x) (PFloat y) = false -> float_le x y.
Proof.
  intros Hx Hy H. apply float_le_key; trivial. intros Hgt.
  apply float_gt_key in Hgt; trivial. congruence.
Qed.

Lemma max_from_is_maximum l :
  forall cur,
    Forall (fun p => p <> S754_nan) (cur :: l) ->
    is_maximum (max_from cur l) (cur :: l).
Proof.
  induction l as [|x l IH]; intros cur Hn.
  - inv Hn. split; [now left|]. constructor; [|constructor].
    now apply float_le_refl.
  - inversion Hn as [|? ? Hc Hl]; subst. inversion Hl as [|? ? Hx Hl']; subst.
    cbn [max_from].
    destruct (PyNum.gt (PFloat x) (PFloat cur)) eqn:Hgt.
    + destruct (IH x Hl) as [Hin Hall]. split.
      * right. exact Hin.
      * assert (Hm : max_from x l <> S754_nan).
        { rewrite Forall_forall in Hl. now apply Hl. }
        constructor; [|exact Hall].
        inversion Hall; subst.
        eapply (float_le_trans cur x); eauto using float_gt_le.
    + assert (Hcl : Forall (fun p => p <> S754_nan) (cur :: l)) by now constructor.
      destruct (IH cur Hcl) as [Hin Hall]. split.
      * destruct Hin as [<-|Hin]; [now left|right; now right].
      * assert (Hm : max_from cur l <> S754_nan).
        { rewrite Forall_forall in Hcl. now apply Hcl. }
        inversion Hall; subst.
        constructor; [assumption|]. constructor; [|assumption].
        eapply (float_le_trans x cur); eauto using float_not_gt_le.
Qed.

Lemma collect_percentages_app py steps :
  forall acc ps,
    Forall2 (fun v x => PyVal.to_float py v = Ok x) (reported_percents steps) ps ->
    collect_percentages py steps acc = Ok (acc ++ ps)%list.
Proof.
  induction steps as [|step steps IH]; intros acc ps H; cbn in H.
  - inv H. cbn. now rewrite app_nil_r.
  - cbn [collect_percentages]. unfold add_percent.
    fold (reported_percents steps) in H.
    destruct (step_percent step) as [v|]; cbn [app] in H.
    + inv H. match goal with Hv : PyVal.to_float _ _ = _ |- _ => rewrite Hv end.
      cbn [rbind]. erewrite IH by eassumption.
      now rewrite <- app_assoc.
    + cbn [rbind]. now apply IH.
Qed.

(** C8. For every route plan whose reported percentages convert to floats
    [ps], none of them NaN, [calculate_route_concentration] returns a
    maximum of [ps] (one of the reported values, with no reported value
    above it), and no value when no step reports a percentage.  A step
    reports the value under "percent", else the one under "percentage", of
    its swap info, unless that value is null.  The empty plan gives no
    value. *)
Theorem route_concentration_is_maximum :
  (forall (py : builtins) (steps : list pyval) (ps : list float),
      Forall2 (fun v x => PyVal.to_float py v = Ok x) (reported_percents steps) ps ->
      Forall (fun p => p <> S754_nan) ps ->
      match ps with
      | [] => calculate_route_concentration py (VList steps) = Ok None
      | _ => exists m, calculate_route_concentration py (VList steps) = Ok (Some m)
                       /\ is_maximum m ps
      end)
  /\ (forall sd si : list (string * pyval),
         PyVal.get sd "swapInfo" (PyVal.get sd "swap_info" (VDict [])) = VDict si ->
         step_percent (VDict sd)
         = match PyVal.lookup si "percent" with
           | Some VNone => None
           | Some v => Some v
           | None => match PyVal.lookup si "percentage" with
                     | Some VNone | None => None
                     | Some v => Some v
                     end
           end)
  /\ (forall py : builtins, calculate_route_concentration py (VList []) = Ok None).
Proof.
  split; [|split].
  - intros py steps ps Hconv Hnan. unfold calculate_route_concentration.
    destruct steps as [|step steps].
    + cbn in Hconv. inv Hconv. reflexivity.
    + cbn [PyVal.truthy negb PyVal.iterate rbind].
      rewrite (collect_percentages_app py _ [] ps Hconv). cbn [app rbind].
      destruct ps as [|x r]; [reflexivity|].
      exists (max_from x r). split; [reflexivity|].
      now apply max_from_is_maximum.
  - intros sd si H. unfold step_percent. rewrite H. unfold PyVal.get.
    destruct (PyVal.lookup si "percent") as [v|].
    + destruct v; reflexivity.
    + destruct (PyVal.lookup si "percentage") as [v|]; [destruct v|]; reflexivity.
  - reflexivity.
Qed.

Lemma route_concentration_is_maximum_witness :
  exists m,
    calculate_route_concentration Reference.ref_builtins
      (VList [step_with_percent (VNum (PInt 60)); step_with_percent (VStr "40")])
    = Ok (Some m)
    /\ is_maximum m [sixty; forty].
Proof.
  apply (proj1 route_concentration_is_maximum Reference.ref_builtins
           [step_with_percent (VNum (PInt 60)); step_with_percent (VStr "40")]
           [sixty; forty]).
  - repeat constructor.
  - repeat constructor; discriminate.
Defined.

(** ** The retry loop of the quote request *)

Lemma jupiter_calls_log_get w r :
  jupiter_calls (log (JupiterGet r) w) = S (jupiter_calls w).
Proof.
  unfold jupiter_calls, log. cbn [trace]. rewrite filter_app, length_app.
  cbn. lia.
Qed.

Lemma jupiter_calls_log_sleep w s :
  jupiter_calls (log (Sleep s) w) = jupiter_calls w.
Proof.
  unfold jupiter_calls, log. cbn [trace]. rewrite filter_app, length_app.
  cbn. lia.
Qed.

Lemma jupiter_calls_log_kamino w r :
  jupiter_calls (log (KaminoGet r) w) = jupiter_calls w.
Proof.
  unfold jupiter_calls, log. cbn [trace]. rewrite filter_app, length_app.
  cbn. lia.
Qed.

(** One attempt, by the kind of answer it gets. *)
Lemma quote_attempt_spec py req attempt w :
  quote_attempt py req attempt w =
  let w1 := log (JupiterGet req) w in
  match classify (jupiter_api w (jupiter_calls w) req) with
  | RateLimited =>
      (Ok None, log (Sleep (PInt (RETRY_BACKOFF_FACTOR ^ (Z.of_nat attempt + 1)))) w1)
  | Failed e =>
      if (attempt <? MAX_RETRIES - 1)%nat
      then (Ok None, log (Sleep (PInt (RETRY_BACKOFF_FACTOR ^ Z.of_nat attempt))) w1)
      else (Ok (Some (error_result (StrOfExn (RequestException e)))), w1)
  | Answered data => (Ok (Some (_parse_quote_response py data)), w1)
  end.
Proof.
  unfold quote_attempt, try_request, Http.bind, jupiter_get, classify.
  destruct (jupiter_api w (jupiter_calls w) req) as [st b|msg]; cbn [answer].
  - cbn [status_code]. destruct (st =? 429); [reflexivity|].
    unfold raise_for_status. cbn [status_code].
    destruct ((400 <=? st) && (st <? 600)); cbn.
    + destruct attempt as [|[|?]]; reflexivity.
    + destruct b; cbn; [reflexivity|].
      destruct attempt as [|[|?]]; reflexivity.
  - destruct attempt as [|[|?]]; reflexivity.
Qed.



Lemma api_log w ev : jupiter_api (log ev w) = jupiter_api w.
Proof. reflexivity. Qed.

Ltac run_attempt :=
  unfold Http.bind at 1; rewrite quote_attempt_spec; cbn zeta;
  repeat first [ rewrite api_log
               | rewrite jupiter_calls_log_sleep
               | rewrite jupiter_calls_log_get ].




(** ** The reserve fetch *)

Lemma kamino_calls_log_get w r :
  kamino_calls (log (KaminoGet r) w) = S (kamino_calls w).
Proof.
  unfold kamino_calls, log. cbn [trace]. rewrite filter_app, length_app.
  cbn. lia.
Qed.

Lemma kamino_calls_log_sleep w s :
  kamino_calls (log (Sleep s) w) = kamino_calls w.
Proof.
  unfold kamino_calls, log. cbn [trace]. rewrite filter_app, length_app.
  cbn. lia.
Qed.

(** A failing attempt: a sleep and another turn, or the exception on the
    last turn. *)
Lemma fetch_attempt_failure parse req attempt w e :
  request_failure (kamino_api w (kamino_calls w) req) = Some e ->
  fetch_attempt parse req attempt w =
  if (attempt <? MAX_RETRIES - 1)%nat
  then (Ok None,
        log (Sleep (PInt (RETRY_BACKOFF_FACTOR ^ Z.of_nat attempt)))
          (log (KaminoGet req) w))
  else (Raise (RequestException e), log (KaminoGet req) w).
Proof.
  unfold fetch_attempt, try_request, Http.bind, kamino_get, request_failure.
  destruct (kamino_api w (kamino_calls w) req) as [st b|msg]; cbn [answer].
  - unfold raise_for_status. cbn [status_code].
    destruct ((400 <=? st) && (st <? 600)); cbn.
    + intros H; inv H. destruct attempt as [|[|?]]; reflexivity.
    + destruct b; cbn; [discriminate|].
      intros H; inv H. destruct attempt as [|[|?]]; reflexivity.
  - intros H; inv H. destruct attempt as [|[|?]]; reflexivity.
Qed.




(** ** The liquidity curve *)

Lemma not_positive_no_output q v :
  success q = true ->
  PyVal.as_num (out_amount q) = Some v ->
  PyNum.le v (PInt 0) = true ->
  has_output q = Ok false.
Proof.
  intros Hs Hv Hle. unfold has_output, PyVal.gt_num. rewrite Hs, Hv.
  unfold PyNum.le in Hle. unfold PyNum.gt.
  destruct (PyNum.compare v (PInt 0)) as [[| |]|]; try discriminate; reflexivity.
Qed.

Lemma no_output_zero q tokens op od :
  has_output q = Ok false ->
  output_of q tokens op od = Ok (PyFloat.zero, PyFloat.zero).
Proof.
  intros H. unfold output_of. rewrite H. reflexivity.
Qed.

(** C10. In a turn of the loop over the size bands where the size converts
    to [amount_native] and the quote succeeds with an output amount that is
    a number not above 0, the point has [output_usd = 0.0] and
    [effective_price = 0.0] and keeps [success = true].  The output value
    is 0.0 whenever the test [success and out_amount > 0] is false, and that
    test holds only for a successful quote with a positive output amount.
    The curve is made of these turns, one per band, in order. *)
Theorem nonpositive_output_gives_zero_usd :
  (forall (py : builtins) (input_mint : string) (token_decimals : N)
          (token_price_usd : pynum) (output_decimals : N)
          (output_price_usd : pynum) (swap_size : pynum) (w : world)
          (amount_native : Z) (tokens : float) (q : quote) (w1 : world)
          (out : pynum),
      usd_to_native_units py swap_size token_price_usd token_decimals
        = Ok amount_native ->
      native_to_tokens (PInt amount_native) token_decimals = Ok tokens ->
      query_swap_price_impact py input_mint USDC_MINT amount_native None w
        = (Ok q, w1) ->
      success q = true ->
      PyVal.as_num (out_amount q) = Some out ->
      PyNum.le out (PInt 0) = true ->
      exists pt,
        depth_point py input_mint token_decimals token_price_usd
          output_decimals output_price_usd swap_size w
        = (Ok pt, log (Sleep (PFloat RATE_LIMIT_DELAY)) w1)
        /\ output_usd pt = PyFloat.zero
        /\ effective_price pt = PyFloat.zero
        /\ point_success pt = true)
  /\ (forall (q : quote) (tokens : float) (output_price_usd : pynum)
             (output_decimals : N),
         has_output q = Ok false ->
         output_of q tokens output_price_usd output_decimals
         = Ok (PyFloat.zero, PyFloat.zero))
  /\ (forall q : quote,
         has_output q = Ok true ->
         success q = true
         /\ exists out, PyVal.as_num (out_amount q) = Some out
                        /\ PyNum.gt out (PInt 0) = true)
  /\ (forall py input_mint token_decimals token_price_usd output_decimals
             output_price_usd sizes,
         analyze_liquidity_depth py input_mint token_decimals token_price_usd
           output_decimals output_price_usd (Some sizes)
         = for_each (depth_point py input_mint token_decimals token_price_usd
                       output_decimals output_price_usd) sizes).
Proof.
  split; [|split; [|split; [|reflexivity]]].
  - intros py im d p od op size w n tokens q w1 out Hn Ht Hq Hs Ho Hle.
    unfold depth_point. rewrite Hn. unfold Http.bind, lift. rewrite Ht, Hq.
    rewrite (no_output_zero q tokens op od (not_positive_no_output q out Hs Ho Hle)).
    unfold sleep, ret. eexists. split; [reflexivity|]. cbn. auto.
  - exact no_output_zero.
  - intros q H. unfold has_output in H. destruct (success q); [|discriminate].
    split; [reflexivity|]. unfold PyVal.gt_num in H.
    destruct (PyVal.as_num (out_amount q)) as [out|]; [|discriminate].
    inv H. eauto.
Qed.

Lemma nonpositive_output_gives_zero_usd_witness :
  let w := scripted [] [Responds 200 (Some empty_quote_document)] in
  exists pt,
    depth_point Reference.ref_builtins
      "So11111111111111111111111111111111111111112" 9 (PInt 200) 6 (PInt 1)
      (PInt 1000000) w
    = (Ok pt,
       log (Sleep (PFloat RATE_LIMIT_DELAY))
         (snd (query_swap_price_impact Reference.ref_builtins
                 "So11111111111111111111111111111111111111112" USDC_MINT
                 5000000000000 None w)))
    /\ output_usd pt = PyFloat.zero
    /\ effective_price pt = PyFloat.zero
    /\ point_success pt = true.
Proof.
  cbn zeta.
  apply (proj1 nonpositive_output_gives_zero_usd Reference.ref_builtins
           "So11111111111111111111111111111111111111112" 9%N (PInt 200) 6%N
           (PInt 1) (PInt 1000000)
           (scripted [] [Responds 200 (Some empty_quote_document)])
           5000000000000
           (S754_finite false 5497558138880000 (-40))
           (_parse_quote_response Reference.ref_builtins empty_quote_document)
           (snd (query_swap_price_impact Reference.ref_builtins
                   "So11111111111111111111111111111111111111112" USDC_MINT
                   5000000000000 None
                   (scripted [] [Responds 200 (Some empty_quote_document)])))
           (PInt 0)); vm_compute; reflexivity.
Defined.

(** ** Decimal arithmetic *)

Import PyDecimal.

Lemma ndigits_fuel_spec fuel :
  forall n, 0 < n -> n < 2 ^ (Z.of_nat fuel + 1) ->
  1 <= ndigits_fuel fuel n
  /\ 10 ^ (ndigits_fuel fuel n - 1) <= n < 10 ^ ndigits_fuel fuel n.
Proof.
  induction fuel as [|f IH]; intros n Hn Hlt.
  - cbn in Hlt. cbn [ndigits_fuel]. change (10 ^ (1 - 1)) with 1.
    change (10 ^ 1) with 10. lia.
  - cbn [ndigits_fuel]. destruct (Z.ltb_spec n 10) as [H10|H10].
    + change (10 ^ (1 - 1)) with 1. change (10 ^ 1) with 10. lia.
    + assert (Hq : 0 < n / 10) by (apply Z.div_str_pos; lia).
      assert (Hd : 10 * (n / 10) <= n < 10 * (n / 10) + 10).
      { pose proof (Z.div_mod n 10 ltac:(lia)).
        pose proof (Z.mod_pos_bound n 10 ltac:(lia)). lia. }
      assert (Hp : 2 ^ (Z.of_nat (S f) + 1) = 2 * 2 ^ (Z.of_nat f + 1)).
      { rewrite <- Z.pow_succ_r by lia. f_equal. lia. }
      destruct (IH (n / 10) Hq ltac:(lia)) as (H1 & H2 & H3).
      set (L := ndigits_fuel f (n / 10)) in *.
      replace (1 + L - 1) with (Z.succ (L - 1)) by lia.
      replace (1 + L) with (Z.succ L) by lia.
      rewrite !Z.pow_succ_r by lia. lia.
Qed.

Lemma ndigits_spec n :
  0 < n -> 1 <= ndigits n /\ 10 ^ (ndigits n - 1) <= n < 10 ^ ndigits n.
Proof.
  intros Hn. unfold ndigits. apply ndigits_fuel_spec; [exact Hn|].
  rewrite Z2Nat.id by apply Z.log2_nonneg.
  replace (Z.log2 n + 1) with (Z.succ (Z.log2 n)) by lia.
  apply Z.log2_spec, Hn.
Qed.

Lemma ndigits_le n m : 0 < n -> n < 10 ^ m -> ndigits n <= m.
Proof.
  intros Hn Hm. destruct (ndigits_spec n Hn) as (H1 & H2 & _).
  destruct (Z_le_gt_dec (ndigits n) m) as [|Hgt]; [assumption|exfalso].
  assert (10 ^ m <= 10 ^ (ndigits n - 1)) by (apply Z.pow_le_mono_r; lia).
  lia.
Qed.

Lemma ndigits_ge n m : 0 <= m -> 10 ^ m <= n -> m + 1 <= ndigits n.
Proof.
  intros Hm Hn.
  assert (Hpos : 0 < n) by (pose proof (Z.pow_pos_nonneg 10 m); lia).
  destruct (ndigits_spec n Hpos) as (H1 & _ & H3).
  destruct (Z_le_gt_dec (m + 1) (ndigits n)) as [|Hgt]; [assumption|exfalso].
  assert (10 ^ ndigits n <= 10 ^ m) by (apply Z.pow_le_mono_r; lia).
  lia.
Qed.

(** Rounding a coefficient that ends in enough zeros drops them. *)
Lemma round_half_even_exact c k :
  0 <= k -> c mod 10 ^ k = 0 -> round_half_even c k * 10 ^ k = c.
Proof.
  intros Hk Hz. unfold round_half_even. rewrite Hz.
  assert (Hp : 0 < 10 ^ k) by (apply Z.pow_pos_nonneg; lia).
  destruct (Z.compare_spec (2 * 0) (10 ^ k)); try lia.
  pose proof (Z.div_mod c (10 ^ k) ltac:(lia)). lia.
Qed.

(** The result of rounding is within half a unit of the last kept digit. *)
Lemma round_half_even_near c k :
  0 <= k ->
  2 * Z.abs (round_half_even c k * 10 ^ k - c) <= 10 ^ k.
Proof.
  intros Hk. unfold round_half_even.
  assert (Hp : 0 < 10 ^ k) by (apply Z.pow_pos_nonneg; lia).
  pose proof (Z.div_mod c (10 ^ k) ltac:(lia)) as Hdm.
  pose proof (Z.mod_pos_bound c (10 ^ k) Hp) as Hb.
  set (q := c / 10 ^ k) in *. set (m := c mod 10 ^ k) in *.
  destruct (Z.compare_spec (2 * m) (10 ^ k)); [destruct (Z.even q)| |]; lia.
Qed.

(** Half-even rounding of a quotient known through its floor and a sticky
    digit is the correct rounding of the quotient itself. *)
Lemma sticky_bound P den num coeff rem c1 r :
  0 < den -> 0 <= rem < den -> num = coeff * den + rem ->
  (P = 10 \/ P = 100) ->
  c1 = (if negb (rem =? 0) && (coeff mod 5 =? 0) then coeff + 1 else coeff) ->
  (r = round_half_even c1 1 /\ P = 10 \/ r = round_half_even c1 2 /\ P = 100) ->
  2 * Z.abs (r * P * den - num) <= P * den.
Proof.
  intros Hden Hrem Hnum HP Hc1 Hr.
  set (mm := r * P - coeff).
  assert (E : r * P * den - num = mm * den - rem) by (subst mm num; ring).
  rewrite E.
  assert (Hmm : (rem = 0 /\ 2 * Z.abs mm <= P)
                \/ (0 < rem /\ - (P / 2) + 1 <= mm <= P / 2)).
  { subst mm. destruct (Z.eqb_spec rem 0) as [Hz|Hz]; cbn [negb andb] in Hc1.
    - left. split; [assumption|]. subst c1.
      destruct Hr as [[-> ->]|[-> ->]].
      + pose proof (round_half_even_near coeff 1 ltac:(lia)) as Hn.
        change (10 ^ 1) with 10 in Hn. lia.
      + pose proof (round_half_even_near coeff 2 ltac:(lia)) as Hn.
        change (10 ^ 2) with 100 in Hn. lia.
    - right. split; [lia|].
      destruct Hr as [[-> ->]|[-> ->]]; unfold round_half_even;
        [change (10 ^ 1) with 10|change (10 ^ 2) with 100];
        change (10 / 2) with 5; change (100 / 2) with 50;
        pose proof (Z.div_mod coeff 5 ltac:(lia));
        pose proof (Z.mod_pos_bound coeff 5 ltac:(lia));
        revert Hc1; destruct (Z.eqb_spec (coeff mod 5) 0) as [H5|H5];
        intros Hc1; subst c1;
        match goal with
        | |- context [(?x mod ?p)] =>
            match goal with
            | |- context [Z.even (x / p)] =>
                pose proof (Z.div_mod x p ltac:(lia));
                pose proof (Z.mod_pos_bound x p ltac:(lia));
                destruct (Z.compare_spec (2 * (x mod p)) p);
                [destruct (Z.even (x / p))| |]
            end
        end; lia. }
  destruct Hmm as [[Hz Hm]|[Hz Hm]].
  - subst rem. nia.
  - assert (P / 2 * 2 = P) by (destruct HP; subst P; reflexivity).
    nia.
Qed.

Lemma round_half_even_range c k lo :
  0 < 10 ^ k -> lo * 10 ^ k <= c < 10 * lo * 10 ^ k ->
  lo <= round_half_even c k <= 10 * lo.
Proof.
  intros Hp Hc. unfold round_half_even.
  pose proof (Z.div_mod c (10 ^ k) ltac:(lia)) as Hdm.
  pose proof (Z.mod_pos_bound c (10 ^ k) Hp) as Hb.
  set (q := c / 10 ^ k) in *. set (m := c mod 10 ^ k) in *.
  assert (lo <= q < 10 * lo) by nia.
  destruct (Z.compare_spec (2 * m) (10 ^ k)); [destruct (Z.even q)| |]; lia.
Qed.

(** The coefficient of a quotient: floor, sticky digit, then [_fix]. *)
Lemma quotient_fix s num den e :
  0 < den -> 10 ^ 28 * den <= num -> num < 10 ^ 30 * den ->
  exists r k,
    fix_ s (if negb (num mod den =? 0) && ((num / den) mod 5 =? 0)
            then num / den + 1 else num / den) e
    = DFinite s r (e + k)
    /\ 1 <= k <= 2
    /\ 10 ^ 27 <= r <= 10 ^ 28
    /\ 2 * Z.abs (r * 10 ^ k * den - num) <= 10 ^ k * den.
Proof.
  intros Hden Hlo Hhi.
  pose proof (Z.div_mod num den ltac:(lia)) as Hdm.
  pose proof (Z.mod_pos_bound num den Hden) as Hb.
  set (coeff := num / den) in *. set (rem := num mod den) in *.
  assert (Hc : 10 ^ 28 <= coeff < 10 ^ 30).
  { split.
    - apply Z.div_le_lower_bound; lia.
    - apply Z.div_lt_upper_bound; lia. }
  set (c1 := if negb (rem =? 0) && (coeff mod 5 =? 0) then coeff + 1 else coeff).
  assert (Hc1 : 10 ^ 28 <= c1 < 10 ^ 30).
  { subst c1. destruct (negb (rem =? 0)); cbn [andb]; [|lia].
    destruct (Z.eqb_spec (coeff mod 5) 0) as [H5|H5]; [|lia].
    change (10 ^ 28) with 10000000000000000000000000000 in *.
    change (10 ^ 30) with 1000000000000000000000000000000 in *.
    pose proof (Z.div_mod coeff 5 ltac:(lia)). lia. }
  assert (Hpos : 0 < c1) by (change (10 ^ 28) with 10000000000000000000000000000 in Hc1; lia).
  pose proof (ndigits_ge c1 28 ltac:(lia) ltac:(lia)) as HL1.
  pose proof (ndigits_le c1 30 Hpos ltac:(lia)) as HL2.
  destruct (ndigits_spec c1 Hpos) as (_ & HS).
  exists (round_half_even c1 (ndigits c1 - 28)), (ndigits c1 - 28).
  split; [|split; [lia|]].
  - unfold fix_, context_prec.
    destruct (Z.ltb_spec 0 (ndigits c1 - 28)); [reflexivity|lia].
  - assert (Hk : ndigits c1 - 28 = 1 \/ ndigits c1 - 28 = 2) by lia.
    assert (HL : ndigits c1 - 1 = 27 + (ndigits c1 - 28)
                 /\ ndigits c1 = 28 + (ndigits c1 - 28)) by lia.
    destruct HL as [HLa HLb]. rewrite HLa in HS. rewrite HLb in HS at 2.
    set (k := ndigits c1 - 28) in *.
    split.
    + apply round_half_even_range.
      * apply Z.pow_pos_nonneg; lia.
      * rewrite !Z.pow_add_r in HS by lia.
        change (10 * 10 ^ 27) with (10 ^ 28). lia.
    + apply (sticky_bound (10 ^ k) den num coeff rem c1); try assumption.
      * lia.
      * destruct Hk as [-> | ->]; [left|right]; reflexivity.
      * reflexivity.
      * destruct Hk as [-> | ->]; [left|right]; split; reflexivity.
Qed.

Lemma div_eucl_div_mod a b :
  Z.div_eucl a b = (a / b, a mod b).
Proof.
  unfold Z.div, Z.modulo. destruct (Z.div_eucl a b); reflexivity.
Qed.

(** The quotient of two positive decimals: its coefficient [r] has 28
    digits and [r * 10^k] is the quotient [num / den] of the scaled
    coefficients rounded to the nearest multiple of [10^k]. *)
Lemma div_positive ca ea cb eb :
  0 < ca -> 0 < cb ->
  exists r k s num den,
    div (DFinite false ca ea) (DFinite false cb eb)
    = Ok (DFinite false r (ea - eb - s + k))
    /\ 1 <= k <= 2
    /\ 10 ^ 27 <= r <= 10 ^ 28
    /\ 0 < den
    /\ ((0 <= s /\ num = ca * 10 ^ s /\ den = cb)
        \/ (s < 0 /\ num = ca /\ den = cb * 10 ^ (- s)))
    /\ 2 * Z.abs (r * 10 ^ k * den - num) <= 10 ^ k * den.
Proof.
  intros Hca Hcb. unfold div.
  destruct (Z.eqb_spec cb 0); [lia|]. destruct (Z.eqb_spec ca 0); [lia|].
  destruct (ndigits_spec ca Hca) as (HLa & Ha1 & Ha2).
  destruct (ndigits_spec cb Hcb) as (HLb & Hb1 & Hb2).
  unfold context_prec.
  set (s := ndigits cb - ndigits ca + 28 + 1).
  set (X := 10 ^ (ndigits ca - 1)) in *. set (Y := 10 ^ (ndigits cb - 1)) in *.
  assert (HX : 10 ^ ndigits ca = 10 * X).
  { subst X. rewrite <- Z.pow_succ_r by lia. f_equal. lia. }
  assert (HY : 10 ^ ndigits cb = 10 * Y).
  { subst Y. rewrite <- Z.pow_succ_r by lia. f_equal. lia. }
  assert (HXp : 0 < X) by (apply Z.pow_pos_nonneg; lia).
  assert (HYp : 0 < Y) by (apply Z.pow_pos_nonneg; lia).
  rewrite HX in Ha2. rewrite HY in Hb2.
  change (10 ^ 28) with 10000000000000000000000000000.
  change (10 ^ 27) with 1000000000000000000000000000.
  destruct (Z.leb_spec 0 s) as [Hs|Hs].
  - rewrite div_eucl_div_mod.
    set (S' := 10 ^ s).
    assert (HS : 0 < S') by (apply Z.pow_pos_nonneg; lia).
    assert (E : S' * X = 10 ^ 29 * Y).
    { subst S' X Y. rewrite <- !Z.pow_add_r by lia. f_equal. lia. }
    change (10 ^ 29) with 100000000000000000000000000000 in E.
    destruct (quotient_fix false (ca * S') cb (ea - eb - s) Hcb) as (r & k & Hf & Hk & Hr & Hn).
    + change (10 ^ 28) with 10000000000000000000000000000. nia.
    + change (10 ^ 30) with 1000000000000000000000000000000. nia.
    + exists r, k, s, (ca * S'), cb. cbv beta iota zeta. fold S'. cbn [xorb]. rewrite Hf.
      change (10 ^ 28) with 10000000000000000000000000000 in Hr.
      change (10 ^ 27) with 1000000000000000000000000000 in Hr.
      repeat split; try lia.
  - rewrite div_eucl_div_mod.
    set (S' := 10 ^ (- s)).
    assert (HS : 0 < S') by (apply Z.pow_pos_nonneg; lia).
    assert (E : X = 10 ^ 29 * Y * S').
    { subst S' X Y. rewrite <- !Z.pow_add_r by lia. f_equal. lia. }
    change (10 ^ 29) with 100000000000000000000000000000 in E.
    destruct (quotient_fix false ca (cb * S') (ea - eb - s) ltac:(nia)) as (r & k & Hf & Hk & Hr & Hn).
    + change (10 ^ 28) with 10000000000000000000000000000. nia.
    + change (10 ^ 30) with 1000000000000000000000000000000. nia.
    + exists r, k, s, ca, (cb * S'). cbv beta iota zeta. fold S'. cbn [xorb]. rewrite Hf.
      change (10 ^ 28) with 10000000000000000000000000000 in Hr.
      change (10 ^ 27) with 1000000000000000000000000000 in Hr.
      repeat split; try lia; try nia; right; repeat split; lia.
Qed.

(** Scaling a 28-digit coefficient by a power of ten is exact. *)
Lemma mul_pow10 r e d :
  10 ^ 27 <= r <= 10 ^ 28 -> 0 <= d ->
  exists c3 j,
    mul (DFinite false r e) (of_int (10 ^ d)) = Ok (DFinite false c3 (e + j))
    /\ 0 <= j /\ 0 <= c3 /\ c3 * 10 ^ j = r * 10 ^ d.
Proof.
  intros Hr Hd.
  assert (HD : 0 < 10 ^ d) by (apply Z.pow_pos_nonneg; lia).
  assert (Hr27 : 0 < r) by (change (10 ^ 27) with 1000000000000000000000000000 in Hr; lia).
  unfold mul, of_int. destruct (Z.ltb_spec (10 ^ d) 0); [lia|].
  rewrite Z.abs_eq by lia. cbn [xorb]. unfold fix_, context_prec.
  set (c := r * 10 ^ d). set (drop := ndigits c - 28).
  destruct (Z.ltb_spec 0 drop) as [Hdrop|Hdrop].
  - exists (round_half_even c drop), drop.
    assert (Hmod : c mod 10 ^ drop = 0).
    { assert (Hle : ndigits c <= 29 + d).
      { apply ndigits_le; [subst c; nia|].
        rewrite Z.pow_add_r by lia.
        change (10 ^ 29) with (10 * 10 ^ 28). subst c. nia. }
      destruct (Z.eq_dec r (10 ^ 28)) as [->|Hne].
      - subst c. rewrite <- Z.pow_add_r by lia.
        replace (28 + d) with ((28 + d - drop) + drop) by lia.
        rewrite Z.pow_add_r by lia. apply Z.mod_mul. lia.
      - assert (Hle' : ndigits c <= 28 + d).
        { apply ndigits_le; [subst c; nia|].
          rewrite Z.pow_add_r by lia. subst c. nia. }
        subst c. replace d with ((d - drop) + drop) at 1 by lia.
        rewrite Z.pow_add_r by lia. rewrite Z.mul_assoc. apply Z.mod_mul.
        pose proof (Z.pow_pos_nonneg 10 drop); lia. }
    replace (e + 0 + drop) with (e + drop) by lia.
    split; [reflexivity|]. split; [lia|].
    pose proof (round_half_even_exact c drop ltac:(lia) Hmod) as Hx.
    split; [|exact Hx].
    pose proof (Z.pow_pos_nonneg 10 drop ltac:(lia) ltac:(lia)).
    assert (0 <= c) by (subst c; nia). nia.
  - exists c, 0. replace (e + 0 + 0) with (e + 0) by lia.
    split; [reflexivity|]. split; [lia|]. split; [subst c; nia|].
    change (10 ^ 0) with 1. lia.
Qed.

(** [int(x.to_integral_value(ROUND_DOWN))] is the floor of a positive value. *)
Lemma to_int_floor c e :
  0 <= c ->
  exists n,
    to_int (to_integral_value_ROUND_DOWN (DFinite false c e)) = Ok n
    /\ 0 <= n
    /\ ((0 <= e /\ n = c * 10 ^ e)
        \/ (e < 0 /\ n * 10 ^ (- e) <= c < (n + 1) * 10 ^ (- e))).
Proof.
  intros Hc. unfold to_integral_value_ROUND_DOWN.
  destruct (Z.leb_spec 0 e) as [He|He]; unfold to_int.
  - destruct (Z.leb_spec 0 e); [|lia]. eexists. split; [reflexivity|].
    pose proof (Z.pow_nonneg 10 e ltac:(lia)). split; [nia|left; lia].
  - cbn. assert (Hp : 0 < 10 ^ (- e)) by (apply Z.pow_pos_nonneg; lia).
    eexists. split; [reflexivity|].
    pose proof (Z.div_mod c (10 ^ (- e)) ltac:(lia)).
    pose proof (Z.mod_pos_bound c (10 ^ (- e)) Hp).
    pose proof (Z.div_pos c (10 ^ (- e)) Hc Hp).
    split; [lia|]. right. split; [lia|]. nia.
Qed.











(** * Further properties of the code *)

(** ** Risk flags *)

Lemma gt_threshold_truthy (v : pynum) (m : positive) (e : Z) :
  PyNum.gt v (PFloat (S754_finite false m e)) = true -> PyNum.truthy v = true.
Proof.
  destruct v as [n|x]; unfold PyNum.gt, PyNum.truthy.
  - destruct n; try reflexivity.
    unfold PyNum.compare, PyFloat.compare_int.
    assert (H : 0 < Z.pos m * 2 ^ e \/ e < 0).
    { destruct (Z.le_gt_cases 0 e) as [He|He]; [left|right; lia].
      pose proof (Z.pow_pos_nonneg 2 e ltac:(lia) He). nia. }
    destruct e as [|k|k].
    + cbn. intros; discriminate.
    + destruct H as [H|H]; [|lia].
      destruct (Z.compare_spec 0 (Z.pos m * 2 ^ Z.pos k)); try lia;
        intros; discriminate.
    + cbn. intros; discriminate.
  - destruct x as [s| | |]; try reflexivity.
    destruct s; cbn; intros; discriminate.
Qed.

Lemma high_prefix_concentrated t :
  is_high_impact_flag ("CONCENTRATED_ROUTE_" ++ t) = false.
Proof. reflexivity. Qed.

Lemma high_prefix_low x : is_high_impact_flag (low_tvl_flag x) = false.
Proof. reflexivity. Qed.

Lemma high_prefix_high t : is_high_impact_flag ("HIGH_IMPACT_" ++ t) = true.
Proof. unfold is_high_impact_flag. cbn. destruct t; reflexivity. Qed.

Lemma concentrated_prefix_high t :
  is_concentrated_route_flag ("HIGH_IMPACT_" ++ t) = false.
Proof. reflexivity. Qed.

Lemma concentrated_prefix_low x :
  is_concentrated_route_flag (low_tvl_flag x) = false.
Proof. reflexivity. Qed.

Lemma concentrated_prefix_concentrated t :
  is_concentrated_route_flag ("CONCENTRATED_ROUTE_" ++ t) = true.
Proof. unfold is_concentrated_route_flag. cbn. destruct t; reflexivity. Qed.

Lemma low_prefix_low x : is_low_tvl_flag (low_tvl_flag x) = true.
Proof.
  unfold is_low_tvl_flag, low_tvl_flag. cbn.
  destruct (PyStr.format_f 1 x ++ "x"); reflexivity.
Qed.

(** The flags of the first two rules, rule by rule. *)
Lemma impact_flags_shape pt base :
  impact_flags pt = Ok base ->
  exists h c,
    base = (h ++ c)%list
    /\ (h = [] /\
        (forall v, price_impact_pct pt = Some v ->
                   PyNum.gt v (PFloat HIGH_PRICE_IMPACT_THRESHOLD) = false)
        \/ exists v t, price_impact_pct pt = Some v
             /\ PyNum.gt v (PFloat HIGH_PRICE_IMPACT_THRESHOLD) = true
             /\ PyStr.format_num_f 1 v = Ok t
             /\ h = [("HIGH_IMPACT_" ++ t ++ "%")%string])
    /\ (c = [] /\
        (forall x, point_route_concentration pt = Some x ->
                   PyNum.gt (PFloat x) (PFloat ROUTE_CONCENTRATION_THRESHOLD) = false)
        \/ exists x, point_route_concentration pt = Some x
             /\ PyNum.gt (PFloat x) (PFloat ROUTE_CONCENTRATION_THRESHOLD) = true
             /\ c = [("CONCENTRATED_ROUTE_" ++ PyStr.format_f 0 x ++ "%")%string]).
Proof.
  unfold impact_flags. intros H.
  assert (Hh : exists h,
    match price_impact_pct pt with
    | Some price_impact =>
        if PyNum.truthy price_impact
           && PyNum.gt price_impact (PFloat HIGH_PRICE_IMPACT_THRESHOLD)
        then
          let? t := PyStr.format_num_f 1 price_impact in
          Ok ["HIGH_IMPACT_" ++ t ++ "%"]
        else Ok []
    | None => Ok []
    end = Ok h
    /\ (h = [] /\
        (forall v, price_impact_pct pt = Some v ->
                   PyNum.gt v (PFloat HIGH_PRICE_IMPACT_THRESHOLD) = false)
        \/ exists v t, price_impact_pct pt = Some v
             /\ PyNum.gt v (PFloat HIGH_PRICE_IMPACT_THRESHOLD) = true
             /\ PyStr.format_num_f 1 v = Ok t
             /\ h = [("HIGH_IMPACT_" ++ t ++ "%")%string])).
  { destruct (price_impact_pct pt) as [v|].
    - destruct (PyNum.gt v (PFloat HIGH_PRICE_IMPACT_THRESHOLD)) eqn:Hgt.
      + rewrite (gt_threshold_truthy _ _ _ Hgt) in *. cbn [andb] in *.
        destruct (PyStr.format_num_f 1 v) as [t|e] eqn:Ht;
          cbn [rbind] in *; try discriminate.
        eexists; split; [reflexivity|]. right. exists v, t. auto.
      + rewrite Bool.andb_false_r. eexists; split; [reflexivity|].
        left. split; [reflexivity|]. intros v' Hv. inv Hv. exact Hgt.
    - eexists; split; [reflexivity|]. left. split; [reflexivity|].
      intros v' Hv. discriminate. }
  destruct Hh as [h [Hh Hhs]]. rewrite Hh in H. cbn [rbind] in H.
  destruct (point_route_concentration pt) as [x|].
  - destruct (PyNum.gt (PFloat x) (PFloat ROUTE_CONCENTRATION_THRESHOLD)) eqn:Hgt.
    + rewrite (gt_threshold_truthy _ _ _ Hgt) in H. cbn [andb] in H. inv H.
      eexists h, _. split; [reflexivity|]. split; [exact Hhs|].
      right. exists x. auto.
    + rewrite Bool.andb_false_r in H. inv H.
      exists base, []. rewrite app_nil_r. split; [reflexivity|].
      split; [exact Hhs|]. left. split; [reflexivity|].
      intros x' Hx. inv Hx. exact Hgt.
  - inv H. exists base, []. rewrite app_nil_r. split; [reflexivity|].
    split; [exact Hhs|]. left. split; [reflexivity|]. intros x' Hx. discriminate.
Qed.

(** The flags of a successful point: the first two rules, then the TVL
    rule. *)
Lemma success_flags_shape r pt flags :
  point_success pt = true ->
  _identify_risk_flags r pt = Ok flags ->
  exists base l,
    impact_flags pt = Ok base
    /\ flags = (base ++ l)%list
    /\ (l = [] \/ exists x, l = [low_tvl_flag x]).
Proof.
  intros Hs H. unfold _identify_risk_flags in H. rewrite Hs in H.
  cbn [negb] in H.
  destruct (impact_flags pt) as [base|e]; cbn [rbind] in H; try discriminate.
  exists base.
  destruct (PyNum.gt (PFloat (tvl_usd r)) (PInt 0)).
  - destruct (PyNum.truediv (PFloat (tvl_usd r)) (swap_size_usd pt)) as [x|e];
      cbn [rbind] in H; try discriminate.
    destruct (PyNum.lt (PFloat x) (PFloat MIN_TVL_MULTIPLE)); inv H.
    + eexists. split; [reflexivity|]. split; [reflexivity|]. right. eauto.
    + exists []. rewrite app_nil_r. auto.
  - inv H. exists []. rewrite app_nil_r. auto.
Qed.


(** X1. For a successful point whose flags are returned, a HIGH_IMPACT
    flag is present exactly when the point has a price impact greater than
    5.0 (the truth test on the impact adds nothing), and it is then the
    first flag, with the impact printed to one decimal. *)
Theorem high_impact_flag_rule (r : reserve) (pt : point) (flags : list string) :
  point_success pt = true ->
  _identify_risk_flags r pt = Ok flags ->
  (existsb is_high_impact_flag flags = true <->
     exists v, price_impact_pct pt = Some v
               /\ PyNum.gt v (PFloat HIGH_PRICE_IMPACT_THRESHOLD) = true)
  /\ (forall v t,
        price_impact_pct pt = Some v ->
        PyNum.gt v (PFloat HIGH_PRICE_IMPACT_THRESHOLD) = true ->
        PyStr.format_num_f 1 v = Ok t ->
        hd_error flags = Some ("HIGH_IMPACT_" ++ t ++ "%")%string).
Proof.
  intros Hs H.
  destruct (success_flags_shape _ _ _ Hs H) as [base [l [Hb [-> Hl]]]].
  destruct (impact_flags_shape _ _ Hb) as [h [c [-> [Hh Hc]]]].
  assert (Hcl : existsb is_high_impact_flag c = false
                /\ existsb is_high_impact_flag l = false).
  { split.
    - destruct Hc as [[-> _]|[x [_ [_ ->]]]]; reflexivity.
    - destruct Hl as [->|[x ->]]; reflexivity. }
  destruct Hcl as [Hc' Hl'].
  rewrite !existsb_app, Hc', Hl', !Bool.orb_false_r.
  destruct Hh as [[-> Hno]|[v [t [Hv [Hgt [Ht ->]]]]]].
  - split.
    + split; [discriminate|]. intros [v [Hv Hgt]].
      rewrite (Hno _ Hv) in Hgt. discriminate.
    + intros v t Hv Hgt _. rewrite (Hno _ Hv) in Hgt. discriminate.
  - split.
    + split; [eauto|]. intros _. cbn [existsb].
      rewrite high_prefix_high. reflexivity.
    + intros v' t' Hv' _ Ht'. rewrite Hv in Hv'. inv Hv'.
      rewrite Ht in Ht'. inv Ht'. reflexivity.
Qed.

Lemma high_impact_flag_rule_witness :
  hd_error ["HIGH_IMPACT_7.0%"] = Some ("HIGH_IMPACT_" ++ "7.0" ++ "%")%string.
Proof.
  apply (proj2 (high_impact_flag_rule (sample_reserve PyFloat.zero)
                  (quoted_point (Some (PInt 7)) None (PInt 1000000))
                  ["HIGH_IMPACT_7.0%"] eq_refl eq_refl) (PInt 7) "7.0");
    vm_compute; reflexivity.
Defined.

(** X2. For a successful point whose flags are returned, a
    CONCENTRATED_ROUTE flag is present exactly when the point has a route
    concentration greater than 70.0, and it then carries the concentration
    printed without decimals. *)
Theorem concentrated_route_flag_rule (r : reserve) (pt : point)
  (flags : list string) :
  point_success pt = true ->
  _identify_risk_flags r pt = Ok flags ->
  (existsb is_concentrated_route_flag flags = true <->
     exists x, point_route_concentration pt = Some x
               /\ PyNum.gt (PFloat x) (PFloat ROUTE_CONCENTRATION_THRESHOLD) = true)
  /\ (forall x,
        point_route_concentration pt = Some x ->
        PyNum.gt (PFloat x) (PFloat ROUTE_CONCENTRATION_THRESHOLD) = true ->
        In ("CONCENTRATED_ROUTE_" ++ PyStr.format_f 0 x ++ "%")%string flags).
Proof.
  intros Hs H.
  destruct (success_flags_shape _ _ _ Hs H) as [base [l [Hb [-> Hl]]]].
  destruct (impact_flags_shape _ _ Hb) as [h [c [-> [Hh Hc]]]].
  assert (Hhl : existsb is_concentrated_route_flag h = false
                /\ existsb is_concentrated_route_flag l = false).
  { split.
    - destruct Hh as [[-> _]|[v [t [_ [_ [_ ->]]]]]]; reflexivity.
    - destruct Hl as [->|[x ->]]; reflexivity. }
  destruct Hhl as [Hh' Hl'].
  rewrite !existsb_app, Hh', Hl', Bool.orb_false_r, Bool.orb_false_l.
  destruct Hc as [[-> Hno]|[x [Hx [Hgt ->]]]].
  - split.
    + split; [discriminate|]. intros [x [Hx Hgt]].
      rewrite (Hno _ Hx) in Hgt. discriminate.
    + intros x Hx Hgt. rewrite (Hno _ Hx) in Hgt. discriminate.
  - split.
    + split; [eauto|]. intros _. cbn [existsb].
      rewrite concentrated_prefix_concentrated. reflexivity.
    + intros x' Hx' _. rewrite Hx in Hx'. inv Hx'.
      apply in_or_app. left. apply in_or_app. right. left. reflexivity.
Qed.

Lemma concentrated_route_flag_rule_witness :
  In ("CONCENTRATED_ROUTE_" ++ PyStr.format_f 0 eighty ++ "%")%string
     ["CONCENTRATED_ROUTE_80%"].
Proof.
  apply (proj2 (concentrated_route_flag_rule (sample_reserve PyFloat.zero)
                  (quoted_point None (Some eighty) (PInt 1000000))
                  ["CONCENTRATED_ROUTE_80%"] eq_refl eq_refl) eighty);
    vm_compute; reflexivity.
Defined.

(** X3. For a successful point and a reserve with [tvl_usd > 0], a swap
    size of zero makes the TVL rule divide by zero: the evaluator raises
    [ZeroDivisionError] (or the error of the first two rules) and returns
    no flags. *)
Theorem zero_swap_size_raises (r : reserve) (pt : point) :
  point_success pt = true ->
  PyNum.gt (PFloat (tvl_usd r)) (PInt 0) = true ->
  PyNum.truthy (swap_size_usd pt) = false ->
  _identify_risk_flags r pt =
    match impact_flags pt with
    | Ok _ => Raise ZeroDivisionError
    | Raise e => Raise e
    end.
Proof.
  intros Hs Htvl Hz. unfold _identify_risk_flags.
  rewrite Hs, Htvl. cbn [negb].
  destruct (impact_flags pt) as [base|e]; cbn [rbind]; [|reflexivity].
  destruct (swap_size_usd pt) as [n|x]; cbn in Hz.
  - apply Bool.negb_false_iff, Z.eqb_eq in Hz. subst n. reflexivity.
  - apply Bool.negb_false_iff in Hz. destruct x; try discriminate.
    reflexivity.
Qed.

Lemma zero_swap_size_raises_witness :
  _identify_risk_flags (sample_reserve ten_million)
    (quoted_point None None (PInt 0)) = Raise ZeroDivisionError.
Proof.
  apply (zero_swap_size_raises (sample_reserve ten_million)
           (quoted_point None None (PInt 0)));
    vm_compute; reflexivity.
Defined.

(** X4. The flags returned for a successful point are at most one
    HIGH_IMPACT flag, then at most one CONCENTRATED_ROUTE flag, then at
    most one LOW_TVL_RATIO flag, in this order; so there are at most three
    and QUOTE_FAILED is not among them. *)
Theorem success_flags_in_order (r : reserve) (pt : point) (flags : list string) :
  point_success pt = true ->
  _identify_risk_flags r pt = Ok flags ->
  (exists h c l,
      flags = (h ++ c ++ l)%list
      /\ at_most_one is_high_impact_flag h
      /\ at_most_one is_concentrated_route_flag c
      /\ at_most_one is_low_tvl_flag l)
  /\ (List.length flags <= 3)%nat
  /\ existsb is_quote_failed_flag flags = false.
Proof.
  intros Hs H.
  destruct (success_flags_shape _ _ _ Hs H) as [base [l [Hb [-> Hl]]]].
  destruct (impact_flags_shape _ _ Hb) as [h [c [-> [Hh Hc]]]].
  assert (Hh' : at_most_one is_high_impact_flag h).
  { destruct Hh as [[-> _]|[v [t [_ [_ [_ ->]]]]]]; [left; reflexivity|].
    right. eexists. split; [reflexivity|]. apply high_prefix_high. }
  assert (Hc' : at_most_one is_concentrated_route_flag c).
  { destruct Hc as [[-> _]|[x [_ [_ ->]]]]; [left; reflexivity|].
    right. eexists. split; [reflexivity|].
    apply concentrated_prefix_concentrated. }
  assert (Hl' : at_most_one is_low_tvl_flag l).
  { destruct Hl as [->|[x ->]]; [left; reflexivity|].
    right. eexists. split; [reflexivity|]. apply low_prefix_low. }
  split; [|split].
  - exists h, c, l. rewrite app_assoc. auto.
  - rewrite !length_app.
    destruct Hh' as [->|[? [-> _]]]; destruct Hc' as [->|[? [-> _]]];
      destruct Hl' as [->|[? [-> _]]]; cbn; lia.
  - rewrite !existsb_app.
    assert (Hq : forall f,
                 is_high_impact_flag f = true
                 \/ is_concentrated_route_flag f = true
                 \/ is_low_tvl_flag f = true ->
                 is_quote_failed_flag f = false).
    { intros f Hk. unfold is_quote_failed_flag.
      destruct (String.eqb_spec f "QUOTE_FAILED") as [->|]; [|reflexivity].
      destruct Hk as [Hk|[Hk|Hk]]; discriminate. }
    destruct Hh' as [->|[fh [-> Hfh]]]; destruct Hc' as [->|[fc [-> Hfc]]];
      destruct Hl' as [->|[fl [-> Hfl]]]; cbn [existsb orb];
      repeat match goal with
             | Hf : _ ?f = true |- context [is_quote_failed_flag ?f] =>
                 rewrite (Hq f) by auto
             end; reflexivity.
Qed.

Lemma success_flags_in_order_witness :
  (List.length ["HIGH_IMPACT_7.0%"; "CONCENTRATED_ROUTE_80%"; "LOW_TVL_RATIO_2.0x"]
   <= 3)%nat.
Proof.
  apply (success_flags_in_order (sample_reserve ten_million)
           (quoted_point (Some (PInt 7)) (Some eighty) (PInt 5000000))
           ["HIGH_IMPACT_7.0%"; "CONCENTRATED_ROUTE_80%"; "LOW_TVL_RATIO_2.0x"]);
    vm_compute; reflexivity.
Defined.

(** ** Quotes *)

Ltac bind_as E x :=
  match type of E with
  | rbind ?r _ = _ =>
      destruct r as [x|] eqn:?; cbn [rbind] in E; [|discriminate E]
  end.

Lemma abs_not_negative (r : pynum) : PyNum.lt (PyNum.abs r) (PInt 0) = false.
Proof.
  destruct r as [n|x]; unfold PyNum.lt, PyNum.abs, PyNum.compare.
  - destruct (Z.compare_spec (Z.abs n) 0); try reflexivity. lia.
  - destruct x as [s|s| |s m e]; cbn [PyFloat.abs SFabs PyFloat.compare_int option_map];
      try reflexivity.
    destruct e as [|k|k]; try reflexivity.
    destruct (Z.compare_spec 0 (Z.pos m * 2 ^ Z.pos k)); try reflexivity.
    pose proof (Z.pow_pos_nonneg 2 (Z.pos k) ltac:(lia) ltac:(lia)). nia.
Qed.

(** X5. The price impact of a normalised quote is never negative, whatever
    the sign of the [priceImpact] the aggregator reports. *)
Theorem price_impact_is_not_negative (py : builtins) (data : pyval) (v : pynum) :
  price_impact (_parse_quote_response py data) = Some v ->
  PyNum.lt v (PInt 0) = false.
Proof.
  unfold _parse_quote_response.
  destruct (parse_quote_body py data) as [q|e] eqn:E; [|discriminate].
  unfold parse_quote_body in E.
  bind_as E v0. bind_as E v1. unfold abs_times_100 in E.
  destruct (PyVal.as_num v1) as [n|]; [|discriminate].
  destruct (PyNum.mul n (PInt 100)) as [r|]; cbn [rbind] in E; [|discriminate].
  repeat step_bind E. inv E. cbn [price_impact].
  intros H. inv H. apply abs_not_negative.
Qed.

Lemma price_impact_is_not_negative_witness :
  PyNum.lt (PInt 200) (PInt 0) = false.
Proof.
  apply (price_impact_is_not_negative Reference.ref_builtins
           (VDict [("priceImpact", VNum (PInt (-2)))]) (PInt 200)).
  vm_compute. reflexivity.
Defined.

(** X6. The aggregator may send [outAmount] and [priceImpact] as texts or
    as numbers: a text that [int] (for the output amount) or [float] (for
    the price impact) reads gives the same quote as the number it reads
    as. *)
Theorem text_and_number_fields_agree (py : builtins)
  (rest : list (string * pyval)) (s : string) :
  (forall n : Z,
      int_of_str py s = Some n ->
      _parse_quote_response py (VDict (("outAmount", VStr s) :: rest))
      = _parse_quote_response py (VDict (("outAmount", VNum (PInt n)) :: rest)))
  /\ (forall x : float,
         float_of_str py s = Some x ->
         _parse_quote_response py (VDict (("priceImpact", VStr s) :: rest))
         = _parse_quote_response py
             (VDict (("priceImpact", VNum (PFloat x)) :: rest))).
Proof.
  split.
  - intros n Hn. unfold _parse_quote_response, parse_quote_body.
    cbn [PyVal.val_get rbind]. unfold PyVal.get.
    cbn [PyVal.lookup String.eqb Ascii.eqb Bool.eqb].
    rewrite Hn. reflexivity.
  - intros x Hx. unfold _parse_quote_response, parse_quote_body.
    cbn [PyVal.val_get rbind]. unfold PyVal.get.
    cbn [PyVal.lookup String.eqb Ascii.eqb Bool.eqb].
    cbn [PyVal.to_float]. rewrite Hx. reflexivity.
Qed.

Lemma text_and_number_fields_agree_witness :
  _parse_quote_response Reference.ref_builtins
    (VDict [("outAmount", VStr "4975000000000"); ("router", VStr "X")])
  = _parse_quote_response Reference.ref_builtins
      (VDict [("outAmount", VNum (PInt 4975000000000)); ("router", VStr "X")]).
Proof.
  apply (proj1 (text_and_number_fields_agree Reference.ref_builtins
                  [("router", VStr "X")] "4975000000000") 4975000000000).
  vm_compute. reflexivity.
Defined.

(** X7. A failed normalisation has one shape: the failed quote carrying
    the text of the exception, with no price impact and no route data.  A
    response that is not a JSON object (a list, a text, a number, null) is
    such a failure, with the [AttributeError] of its missing [get]. *)
Theorem failed_parse_is_error_result (py : builtins) (data : pyval) :
  (success (_parse_quote_response py data) = false ->
   exists e, parse_quote_body py data = Raise e
             /\ _parse_quote_response py data = error_result (ParseErrorText e))
  /\ ((forall d, data <> VDict d) ->
      _parse_quote_response py data
      = error_result (ParseErrorText AttributeError)).
Proof.
  split.
  - unfold _parse_quote_response.
    destruct (parse_quote_body py data) as [q|e] eqn:E.
    + intros Hs. exfalso. unfold parse_quote_body in E.
      repeat step_bind E. inv E. discriminate.
    + intros _. exists e. auto.
  - intros Hd. destruct data; try reflexivity.
    exfalso. eapply Hd. reflexivity.
Qed.

Lemma failed_parse_is_error_result_witness :
  _parse_quote_response Reference.ref_builtins (VList [])
  = error_result (ParseErrorText AttributeError).
Proof.
  apply (proj2 (failed_parse_is_error_result Reference.ref_builtins (VList []))).
  intros d. discriminate.
Defined.

(** ** The quote request *)

Lemma backoff_seconds_app (a b : list event) :
  backoff_seconds (a ++ b) = backoff_seconds a + backoff_seconds b.
Proof.
  induction a as [|ev a IH]; [reflexivity|].
  cbn [app backoff_seconds]. destruct ev as [r|r|[n|x]]; lia.
Qed.

(** The events the attempts of a quote request add to the trace. *)
Lemma query_attempts_events py req attempts :
  forall w,
  exists q evs,
    fst (query_attempts py req attempts w) = Ok q
    /\ trace (snd (query_attempts py req attempts w)) = (trace w ++ evs)%list
    /\ Forall (is_quote_event req) evs
    /\ backoff_seconds evs
       <= fold_right (fun a acc => 2 ^ (Z.of_nat a + 1) + acc) 0 attempts.
Proof.
  induction attempts as [|a rest IH]; intros w; cbn [query_attempts fold_right].
  - exists (error_result (Literal "Max retries exceeded")), [].
    cbn. rewrite app_nil_r. repeat split; [constructor|lia].
  - unfold Http.bind. rewrite quote_attempt_spec. cbn zeta.
    assert (Hpow : 0 <= 2 ^ Z.of_nat a <= 2 ^ (Z.of_nat a + 1)).
    { rewrite Z.pow_add_r by lia.
      pose proof (Z.pow_pos_nonneg 2 (Z.of_nat a) ltac:(lia) ltac:(lia)). lia. }
    assert (Hnn : 0 <= fold_right (fun a acc => 2 ^ (Z.of_nat a + 1) + acc) 0 rest).
    { clear. induction rest as [|b rest IH]; cbn [fold_right]; [lia|].
      pose proof (Z.pow_pos_nonneg 2 (Z.of_nat b + 1) ltac:(lia) ltac:(lia)). lia. }
    assert (Hstep : forall k, 0 <= k <= 2 ^ (Z.of_nat a + 1) ->
      exists q evs,
        fst (query_attempts py req rest
               (log (Sleep (PInt k)) (log (JupiterGet req) w))) = Ok q
        /\ trace (snd (query_attempts py req rest
               (log (Sleep (PInt k)) (log (JupiterGet req) w))))
           = (trace w ++ evs)%list
        /\ Forall (is_quote_event req) evs
        /\ backoff_seconds evs
           <= 2 ^ (Z.of_nat a + 1)
              + fold_right (fun a acc => 2 ^ (Z.of_nat a + 1) + acc) 0 rest).
    { intros k Hk.
      destruct (IH (log (Sleep (PInt k)) (log (JupiterGet req) w)))
        as (q & evs & E & Ht & Hev & Hb).
      exists q, (JupiterGet req :: Sleep (PInt k) :: evs).
      split; [exact E|]. split; [|split].
      - rewrite Ht. unfold log. cbn [trace]. rewrite <- !app_assoc. reflexivity.
      - constructor; [left; reflexivity|].
        constructor; [right; eauto|exact Hev].
      - cbn [backoff_seconds]. lia. }
    destruct (classify _).
    + apply Hstep. unfold RETRY_BACKOFF_FACTOR. lia.
    + destruct (a <? MAX_RETRIES - 1)%nat.
      * apply Hstep. unfold RETRY_BACKOFF_FACTOR. lia.
      * eexists _, [JupiterGet req]. cbn [fst snd ret].
        split; [reflexivity|]. split; [reflexivity|]. split.
        -- constructor; [left; reflexivity|constructor].
        -- cbn [backoff_seconds]. lia.
    + eexists _, [JupiterGet req]. cbn [fst snd ret].
      split; [reflexivity|]. split; [reflexivity|]. split.
      * constructor; [left; reflexivity|constructor].
      * cbn [backoff_seconds]. lia.
Qed.

(** X8. A quote request only adds to the trace GETs of its own request
    and whole-second sleeps, and the sleeps add up to at most 14 seconds
    (2 + 4 + 8, three rate-limited attempts). *)
Theorem quote_backoff_is_bounded (py : builtins) (im om : string) (n : Z)
  (tk : option string) (w : world) :
  let run := query_swap_price_impact py im om n tk w in
  exists q evs,
    fst run = Ok q
    /\ trace (snd run) = (trace w ++ evs)%list
    /\ Forall (is_quote_event (quote_params im om n tk)) evs
    /\ backoff_seconds evs <= 14.
Proof.
  cbv zeta. unfold query_swap_price_impact.
  destruct (query_attempts_events py (quote_params im om n tk)
              (seq 0 MAX_RETRIES) w) as (q & evs & E & Ht & Hev & Hb).
  exists q, evs. split; [exact E|]. split; [exact Ht|]. split; [exact Hev|].
  exact Hb.
Qed.

(** X9. A document at the first attempt ends the request there: the
    result is its normalisation (a failed quote when the document cannot be
    read, which is not tried again), after one GET and no sleep. *)
Theorem first_document_is_final (py : builtins) (im om : string) (n : Z)
  (tk : option string) (w : world) (data : pyval) :
  let req := quote_params im om n tk in
  classify (jupiter_api w (jupiter_calls w) req) = Answered data ->
  query_swap_price_impact py im om n tk w
  = (Ok (_parse_quote_response py data), log (JupiterGet req) w).
Proof.
  intros req H. unfold query_swap_price_impact. fold req.
  cbn [seq MAX_RETRIES query_attempts].
  unfold Http.bind at 1. rewrite quote_attempt_spec. cbn zeta.
  rewrite H. reflexivity.
Qed.

Lemma first_document_is_final_witness :
  query_swap_price_impact Reference.ref_builtins "A" "B" 1 None
    (scripted [] [Responds 200 (Some (VList []))])
  = (Ok (_parse_quote_response Reference.ref_builtins (VList [])),
     log (JupiterGet (quote_params "A" "B" 1 None))
       (scripted [] [Responds 200 (Some (VList []))])).
Proof.
  apply (first_document_is_final Reference.ref_builtins "A" "B" 1 None
           (scripted [] [Responds 200 (Some (VList []))]) (VList [])).
  reflexivity.
Defined.

(** X10. When the three attempts end in request exceptions, the request
    sleeps 1 and then 2 seconds between them and not after the last one,
    and returns the failed quote carrying the text of the last
    exception. *)
Theorem request_failures_back_off (py : builtins) (im om : string) (n : Z)
  (tk : option string) (w : world) (e0 e1 e2 : request_exception) :
  let req := quote_params im om n tk in
  let answer i := classify (jupiter_api w (jupiter_calls w + i)%nat req) in
  answer 0%nat = Failed e0 ->
  answer 1%nat = Failed e1 ->
  answer 2%nat = Failed e2 ->
  exists w',
    query_swap_price_impact py im om n tk w
    = (Ok (error_result (StrOfExn (RequestException e2))), w')
    /\ trace w' = (trace w ++ [JupiterGet req; Sleep (PInt 1);
                               JupiterGet req; Sleep (PInt 2);
                               JupiterGet req])%list.
Proof.
  intros req answer H0 H1 H2. subst answer. cbn beta in *.
  rewrite Nat.add_0_r in H0. rewrite Nat.add_1_r in H1.
  replace (jupiter_calls w + 2)%nat with (S (S (jupiter_calls w))) in H2 by lia.
  unfold query_swap_price_impact. fold req. cbn [seq MAX_RETRIES query_attempts].
  run_attempt. rewrite H0. cbn [Nat.ltb Nat.leb Nat.sub MAX_RETRIES].
  run_attempt. rewrite H1. cbn [Nat.ltb Nat.leb Nat.sub MAX_RETRIES].
  run_attempt. rewrite H2. cbn [Nat.ltb Nat.leb Nat.sub MAX_RETRIES].
  eexists. split; [reflexivity|].
  unfold log. cbn [trace]. rewrite <- !app_assoc. reflexivity.
Qed.

Lemma request_failures_back_off_witness :
  exists w',
    query_swap_price_impact Reference.ref_builtins "A" "B" 1 None
      (scripted [] [Fails "a"; Fails "b"; Fails "c"])
    = (Ok (error_result (StrOfExn (RequestException (TransportError "c")))), w')
    /\ trace w' = ([] ++ [JupiterGet (quote_params "A" "B" 1 None); Sleep (PInt 1);
                          JupiterGet (quote_params "A" "B" 1 None); Sleep (PInt 2);
                          JupiterGet (quote_params "A" "B" 1 None)])%list.
Proof.
  apply (request_failures_back_off Reference.ref_builtins "A" "B" 1 None
           (scripted [] [Fails "a"; Fails "b"; Fails "c"])
           (TransportError "a") (TransportError "b") (TransportError "c"));
    reflexivity.
Defined.

(** ** The liquidity curve *)

Lemma for_each_results {A B} (f : A -> M B) (l : list A) :
  forall w bs w',
  for_each f l w = (Ok bs, w') ->
  Forall2 (fun a b => exists w1 w2, f a w1 = (Ok b, w2)) l bs.
Proof.
  induction l as [|a l IH]; intros w bs w' H; cbn [for_each] in H.
  - inv H. constructor.
  - unfold Http.bind in H.
    destruct (f a w) as [[b|e] w1] eqn:Ea; [|discriminate].
    destruct (for_each f l w1) as [[bs'|e] w2] eqn:El; [|discriminate].
    inv H. constructor; [eauto|]. eapply IH. exact El.
Qed.

Lemma depth_point_size py mint d price od op size w pt w' :
  depth_point py mint d price od op size w = (Ok pt, w') ->
  swap_size_usd pt = size.
Proof.
  unfold depth_point.
  destruct (usd_to_native_units py size price d) as [n|e].
  - unfold Http.bind, lift, sleep, ret.
    destruct (native_to_tokens (PInt n) d) as [t|e]; [|discriminate].
    destruct (query_swap_price_impact py mint USDC_MINT n None w) as [[q|e] w1];
      [|discriminate].
    destruct (output_of q t op od) as [out|e]; [|discriminate].
    intros H. inv H. reflexivity.
  - destruct (is_ValueError e); unfold ret, raise; intros H; inv H. reflexivity.
Qed.

(** X11. When the price of the token is not above 0, the curve is made of
    one failed point per band, each carrying the invalid-price error, and
    the run leaves the world as it was: no quote is requested and nothing
    is slept. *)
Theorem nonpositive_price_fails_every_band (py : builtins) (mint : string)
  (d : N) (price : pynum) (od : N) (op : pynum)
  (sizes : option (list pynum)) (w : world) :
  PyNum.le price (PInt 0) = true ->
  analyze_liquidity_depth py mint d price od op sizes w
  = (Ok (map (fun size => conversion_failed size (InvalidTokenPrice price))
           match sizes with
           | None => SWAP_SIZE_BANDS_USD
           | Some l => l
           end), w).
Proof.
  intros Hle. unfold analyze_liquidity_depth.
  generalize (match sizes with None => SWAP_SIZE_BANDS_USD | Some l => l end).
  intros l. revert w. induction l as [|size l IH]; intros w; [reflexivity|].
  cbn [for_each map]. unfold Http.bind at 1.
  unfold depth_point at 1, usd_to_native_units. rewrite Hle.
  cbn [is_ValueError]. unfold ret at 1. unfold Http.bind at 1.
  rewrite IH. reflexivity.
Qed.

Lemma nonpositive_price_fails_every_band_witness :
  analyze_liquidity_depth Reference.ref_builtins "A" 9 (PInt 0) 6 (PInt 1)
    (Some [PInt 1000; PInt 2000]) (scripted [] [])
  = (Ok (map (fun size => conversion_failed size (InvalidTokenPrice (PInt 0)))
           [PInt 1000; PInt 2000]), scripted [] []).
Proof.
  apply (nonpositive_price_fails_every_band Reference.ref_builtins "A" 9
           (PInt 0) 6 (PInt 1) (Some [PInt 1000; PInt 2000]) (scripted [] [])).
  reflexivity.
Defined.

(** X12. A band whose quote failed still yields a point and the pacing
    delay: the point is unsuccessful, carries the error of the quote, and
    has an output value and an effective price of 0.0. *)
Theorem failed_quote_gives_failed_point (py : builtins) (mint : string)
  (d : N) (price : pynum) (od : N) (op : pynum) (size : pynum) (w : world)
  (amount_native : Z) (tokens : float) (q : quote) (w1 : world) :
  usd_to_native_units py size price d = Ok amount_native ->
  native_to_tokens (PInt amount_native) d = Ok tokens ->
  query_swap_price_impact py mint USDC_MINT amount_native None w = (Ok q, w1) ->
  success q = false ->
  exists pt,
    depth_point py mint d price od op size w
    = (Ok pt, log (Sleep (PFloat RATE_LIMIT_DELAY)) w1)
    /\ point_success pt = false
    /\ point_error pt = error q
    /\ output_usd pt = PyFloat.zero
    /\ effective_price pt = PyFloat.zero
    /\ swap_size_native pt = amount_native.
Proof.
  intros Hn Ht Hq Hs. unfold depth_point. rewrite Hn.
  unfold Http.bind, lift, sleep, ret. rewrite Ht, Hq.
  unfold output_of, has_output. rewrite Hs. cbn [rbind].
  eexists. split; [reflexivity|]. cbn. auto.
Qed.

Lemma failed_quote_gives_failed_point_witness :
  exists pt,
    depth_point Reference.ref_builtins "A" 0 (PInt 1) 6 (PInt 1) (PInt 5)
      (scripted [] [Responds 200 (Some (VList []))])
    = (Ok pt, log (Sleep (PFloat RATE_LIMIT_DELAY))
                (log (JupiterGet (quote_params "A" USDC_MINT 5 None))
                   (scripted [] [Responds 200 (Some (VList []))])))
    /\ point_success pt = false
    /\ point_error pt = error (error_result (ParseErrorText AttributeError))
    /\ output_usd pt = PyFloat.zero
    /\ effective_price pt = PyFloat.zero
    /\ swap_size_native pt = 5.
Proof.
  apply (failed_quote_gives_failed_point Reference.ref_builtins "A" 0 (PInt 1)
           6 (PInt 1) (PInt 5) (scripted [] [Responds 200 (Some (VList []))])
           5 (S754_finite false 5629499534213120 (-50))
           (error_result (ParseErrorText AttributeError)));
    vm_compute; reflexivity.
Defined.

(** X13. A curve that is returned has one point per band, in the order of
    the bands: the sizes of its points are the requested sizes. *)
Theorem curve_follows_the_bands (py : builtins) (mint : string)
  (d : N) (price : pynum) (od : N) (op : pynum)
  (sizes : list pynum) (w w' : world) (pts : list point) :
  analyze_liquidity_depth py mint d price od op (Some sizes) w = (Ok pts, w') ->
  map swap_size_usd pts = sizes.
Proof.
  unfold analyze_liquidity_depth. intros H.
  apply for_each_results in H.
  induction H as [|size pt l l' (w1 & w2 & Hp) _ IH]; [reflexivity|].
  cbn [map]. rewrite IH. f_equal. eapply depth_point_size. exact Hp.
Qed.

Lemma curve_follows_the_bands_witness :
  map swap_size_usd
    (map (fun size => conversion_failed size (InvalidTokenPrice (PInt 0)))
       [PInt 1000; PInt 2000])
  = [PInt 1000; PInt 2000].
Proof.
  apply (curve_follows_the_bands Reference.ref_builtins "A" 9 (PInt 0) 6
           (PInt 1) [PInt 1000; PInt 2000] (scripted [] []) (scripted [] [])).
  reflexivity.
Defined.

(** ** Unit conversion, continued *)

Lemma fix_negated s c e :
  fix_ (negb s) c e = decimal_negated (fix_ s c e).
Proof. unfold fix_. destruct (0 <? _); reflexivity. Qed.

Lemma div_negated a b :
  div (decimal_negated a) b
  = (let? q := div a b in Ok (decimal_negated q)).
Proof.
  destruct a as [sa ca ea|sa|]; destruct b as [sb cb eb|sb|];
    cbn [decimal_negated div rbind]; try reflexivity.
  - destruct (cb =? 0); [reflexivity|].
    destruct (ca =? 0); cbn [rbind].
    + now destruct sa, sb.
    + destruct (if 0 <=? _ then _ else _) as [coeff remainder].
      cbn [rbind]. rewrite <- fix_negated. now destruct sa, sb.
  - now destruct sa, sb.
  - now destruct sa, sb.
Qed.

Lemma mul_negated a b :
  mul (decimal_negated a) b
  = (let? q := mul a b in Ok (decimal_negated q)).
Proof.
  destruct a as [sa ca ea|sa|]; destruct b as [sb cb eb|sb|];
    cbn [decimal_negated mul rbind]; try reflexivity.
  - rewrite <- fix_negated. now destruct sa, sb.
  - destruct (ca =? 0); [reflexivity|]. now destruct sa, sb.
  - destruct (cb =? 0); [reflexivity|]. now destruct sa, sb.
  - now destruct sa, sb.
Qed.

Lemma to_int_negated a :
  to_int (to_integral_value_ROUND_DOWN (decimal_negated a))
  = (let? n := to_int (to_integral_value_ROUND_DOWN a) in Ok (- n)).
Proof.
  destruct a as [s c e|s|]; cbn [decimal_negated to_integral_value_ROUND_DOWN];
    try reflexivity.
  destruct (0 <=? e) eqn:He; cbn [to_int rbind]; rewrite ?He.
  - destruct s; cbn [negb]; f_equal; lia.
  - cbn. destruct s; cbn [negb]; f_equal; lia.
Qed.

Lemma scaled_quotient_negated a p d :
  scaled_quotient (decimal_negated a) p d
  = (let? n := scaled_quotient a p d in Ok (- n)).
Proof.
  unfold scaled_quotient. rewrite div_negated.
  destruct (div a p) as [q|e]; cbn [rbind]; [|reflexivity].
  rewrite mul_negated.
  destruct (mul q (of_int (10 ^ Z.of_N d))) as [m|e]; cbn [rbind]; [|reflexivity].
  apply to_int_negated.
Qed.

(** A zero amount gives 0 whatever its sign, when it gives anything. *)
Lemma scaled_quotient_zero s e p d n :
  scaled_quotient (DFinite s 0 e) p d = Ok n -> n = 0.
Proof.
  unfold scaled_quotient.
  assert (Hz : forall s' e',
    (let? scaled := mul (DFinite s' 0 e') (of_int (10 ^ Z.of_N d)) in
     to_int (to_integral_value_ROUND_DOWN scaled)) = Ok n -> n = 0).
  { intros s' e'. unfold of_int, mul. cbn [rbind].
    rewrite Z.mul_0_l. unfold fix_. cbn [ndigits_fuel].
    change (ndigits 0) with 1. cbn [Z.sub Z.ltb Z.compare Z.add Z.opp Z.pos_sub context_prec].
    unfold to_integral_value_ROUND_DOWN.
    destruct (0 <=? e' + 0) eqn:He; cbn [to_int]; rewrite ?He.
    - rewrite Z.mul_0_l. destruct (xorb s' _); intros H; inv H; reflexivity.
    - cbn. rewrite ?Zdiv_0_l. destruct (xorb s' _); intros H; inv H; reflexivity. }
  destruct p as [sb cb eb|sb|]; cbn [div rbind].
  - destruct (cb =? 0); [discriminate|]. cbn [Z.eqb rbind]. apply Hz.
  - apply Hz.
  - cbn. discriminate.
Qed.

Lemma of_num_negated py x :
  of_num py (negated x) = decimal_negated (of_num py x)
  \/ exists s e, of_num py (negated x) = DFinite s 0 e
                 /\ of_num py x = DFinite s 0 e.
Proof.
  destruct x as [n|x]; cbn [negated of_num].
  - destruct (Z.eq_dec n 0) as [->|Hn].
    + right. exists false, 0. split; reflexivity.
    + left. unfold of_int. cbn [decimal_negated]. rewrite Z.abs_opp.
      f_equal. destruct (Z.ltb_spec (- n) 0), (Z.ltb_spec n 0); try reflexivity; lia.
  - left. destruct x as [s|s| |s m e]; cbn [SFopp decimal_negated]; try reflexivity.
    destruct (float_repr py m e) as [c k]. reflexivity.
Qed.

(** X14. The conversion is odd in the amount: it truncates toward zero, so
    the opposite amount gives the opposite number of native units, and the
    same error when there is one. *)
Theorem usd_to_native_units_is_odd (py : builtins) (amount_usd price : pynum)
  (decimals : N) :
  usd_to_native_units py (negated amount_usd) price decimals
  = (let? n := usd_to_native_units py amount_usd price decimals in Ok (- n)).
Proof.
  unfold usd_to_native_units.
  destruct (PyNum.le price (PInt 0)); [reflexivity|].
  change (scaled_quotient (of_num py (negated amount_usd)) (of_num py price) decimals
          = (let? n := scaled_quotient (of_num py amount_usd) (of_num py price) decimals
             in Ok (- n))).
  destruct (of_num_negated py amount_usd) as [->|(s & e & -> & ->)].
  - apply scaled_quotient_negated.
  - destruct (scaled_quotient (DFinite s 0 e) (of_num py price) decimals)
      as [n|err] eqn:E; [|reflexivity].
    apply scaled_quotient_zero in E. subst n. reflexivity.
Qed.

Lemma pow10_pos (k : Z) : 0 <= k -> 0 < 10 ^ k.
Proof. intros. apply Z.pow_pos_nonneg; lia. Qed.

Lemma pow10_ge_10 (k : Z) : 1 <= k -> 10 <= 10 ^ k.
Proof.
  intros Hk. change 10 with (10 ^ 1) at 1. apply Z.pow_le_mono_r; lia.
Qed.

Lemma pow10_split (a b : Z) : 0 <= a -> 0 <= b -> 10 ^ (a + b) = 10 ^ a * 10 ^ b.
Proof. intros. now rewrite Z.pow_add_r. Qed.

(** When the price divides the scaled amount and the quotient has at most
    27 digits, the division, the scaling and the truncation lose nothing. *)
Lemma native_units_exact ca cb (d : N) Y :
  0 < ca -> 0 < cb ->
  Y * cb = ca * 10 ^ Z.of_N d ->
  Y < 10 ^ 27 ->
  scaled_quotient (DFinite false ca 0) (DFinite false cb 0) d = Ok Y.
Proof.
  intros Hca Hcb HY Hlt. set (D := Z.of_N d) in *.
  assert (HD : 0 <= D) by (subst D; lia).
  pose proof (pow10_pos D HD) as HT. set (T := 10 ^ D) in *.
  destruct (div_positive ca 0 cb 0 Hca Hcb)
    as (r & k & s & num & den & Hdiv & Hk & Hr & Hden & Hcase & HA).
  replace (0 - 0 - s + k) with (k - s) in Hdiv by lia.
  destruct (mul_pow10 r (k - s) D Hr HD) as (c3 & j & Hmul & Hj & Hc3 & Hc3eq).
  destruct (to_int_floor c3 (k - s + j) Hc3) as (n & Hn & Hn0 & Hfloor).
  unfold scaled_quotient. rewrite Hdiv. cbn [rbind]. fold D. rewrite Hmul.
  cbn [rbind]. rewrite Hn. f_equal.
  fold T in Hc3eq.
  change (10 ^ 27) with 1000000000000000000000000000 in *.
  change (10 ^ 28) with 10000000000000000000000000000 in *.
  pose proof (pow10_pos k ltac:(lia)) as HK. pose proof (pow10_ge_10 k ltac:(lia)) as HK10.
  set (K := 10 ^ k) in *.
  assert (Hbig : forall Q, 10 <= Q -> (2 * r - 1) * Q <= 2 * Y -> False).
  { intros Q HQ HQY. nia. }
  destruct Hcase as [(Hs & -> & ->)|(Hs & -> & ->)].
  - (* the dividend was scaled *)
    pose proof (pow10_pos s Hs) as HS. set (S' := 10 ^ s) in *.
    assert (HA1 : (2 * r - 1) * K * cb <= 2 * (ca * S')) by lia.
    destruct (Z_le_gt_dec (k + D - s) 0) as [HE|HE].
    + (* no digit above the units *)
      set (m := s - k - D). assert (Hm : 0 <= m) by (subst m; lia).
      pose proof (pow10_pos m Hm) as HM.
      assert (HSeq : S' = 10 ^ m * K * T).
      { subst S' K T. rewrite <- !pow10_split by lia. f_equal. subst m. lia. }
      set (Mm := 10 ^ m) in *.
      assert (Hr' : r = Y * Mm).
      { assert (Hnum : ca * S' = Y * cb * Mm * K) by (rewrite HSeq; nia).
        rewrite Hnum in HA.
        replace (r * K * cb - Y * cb * Mm * K) with ((K * cb) * (r - Y * Mm)) in HA by ring.
        rewrite Z.abs_mul in HA.
        assert (HG : 0 < K * cb) by nia.
        rewrite (Z.abs_eq (K * cb)) in HA by lia.
        assert (Z.abs (r - Y * Mm) = 0) by nia. lia. }
      assert (HcY : c3 * 10 ^ j = Y * (Mm * T)) by (rewrite Hc3eq, Hr'; ring).
      assert (HMT : Mm * T = 10 ^ (- (k - s))).
      { subst Mm T. rewrite <- pow10_split by lia. f_equal. subst m. lia. }
      rewrite HMT in HcY.
      pose proof (pow10_pos j Hj) as HJ.
      destruct Hfloor as [(He & ->)|(He & Hb)].
      * assert (Hj' : 10 ^ j = 10 ^ (k - s + j) * 10 ^ (- (k - s))).
        { rewrite <- pow10_split by lia. f_equal. lia. }
        pose proof (pow10_pos (- (k - s)) ltac:(lia)) as HP.
        rewrite Hj' in HcY. nia.
      * assert (Hj' : 10 ^ (- (k - s)) = 10 ^ (- (k - s + j)) * 10 ^ j).
        { rewrite <- pow10_split by lia. f_equal. lia. }
        pose proof (pow10_pos (- (k - s + j)) ltac:(lia)) as HP.
        rewrite Hj' in HcY.
        assert (Hc3' : c3 = Y * 10 ^ (- (k - s + j))) by nia.
        rewrite Hc3' in Hb. nia.
    + (* the scaled quotient would have more than 27 digits *)
      exfalso.
      pose proof (pow10_ge_10 (k + D - s) ltac:(lia)) as HE10.
      assert (HKT : K * T = 10 ^ (k + D - s) * S').
      { subst K T S'. rewrite <- !pow10_split by lia. f_equal. lia. }
      apply (Hbig (10 ^ (k + D - s)) HE10).
      assert (H1 : (2 * r - 1) * (K * T) * cb <= 2 * (Y * cb) * S') by (rewrite HY; nia).
      rewrite HKT in H1.
      assert (HG : 0 < S' * cb) by nia. nia.
  - exfalso.
    pose proof (pow10_pos (- s) ltac:(lia)) as HS. set (S' := 10 ^ (- s)) in *.
    assert (HA1 : (2 * r - 1) * (K * S') * cb <= 2 * ca) by lia.
    apply (Hbig (K * S' * T)); [nia|].
    assert (H1 : (2 * r - 1) * (K * S' * T) * cb <= 2 * (Y * cb)) by (rewrite HY; nia).
    nia.
Qed.

(** X15. For an integer amount and an integer price, both above 0: when
    the price divides [amount * 10^decimals] and the quotient has at most
    27 digits, [usd_to_native_units] returns exactly that quotient.  So
    10,000,000 USD at 200 USD with 9 decimals are 50,000,000,000,000 native
    units. *)
Theorem exact_when_price_divides (py : builtins) (amount price : Z)
  (decimals : N) :
  0 < amount -> 0 < price ->
  (amount * 10 ^ Z.of_N decimals) mod price = 0 ->
  amount * 10 ^ Z.of_N decimals / price < 10 ^ 27 ->
  usd_to_native_units py (PInt amount) (PInt price) decimals
  = Ok (amount * 10 ^ Z.of_N decimals / price).
Proof.
  intros Ha Hp Hmod Hlt. unfold usd_to_native_units.
  assert (Hle : PyNum.le (PInt price) (PInt 0) = false).
  { unfold PyNum.le, PyNum.compare.
    destruct (Z.compare_spec price 0); try reflexivity; lia. }
  rewrite Hle. cbn [of_num]. unfold of_int at 1 2.
  rewrite !Z.abs_eq by lia.
  destruct (Z.ltb_spec amount 0); [lia|]. destruct (Z.ltb_spec price 0); [lia|].
  apply native_units_exact; try assumption.
  pose proof (Z.div_mod (amount * 10 ^ Z.of_N decimals) price ltac:(lia)). lia.
Qed.

Lemma exact_when_price_divides_witness :
  usd_to_native_units Reference.ref_builtins (PInt 10000000) (PInt 200) 9
  = Ok 50000000000000.
Proof.
  apply (exact_when_price_divides Reference.ref_builtins 10000000 200 9);
    vm_compute; reflexivity.
Defined.

(** X16. [calculate_effective_price] never divides by zero: for a float
    input amount, and for integer input and output amounts, the guard
    [amount_in_usd <= 0] keeps a zero divisor away from the division. *)
Theorem effective_price_never_divides_by_zero :
  (forall (amount_in : float) (amount_out original : pynum),
      raises_zero_division
        (calculate_effective_price (PFloat amount_in) amount_out original)
      = false)
  /\ (forall (amount_in amount_out : Z) (original : pynum),
         raises_zero_division
           (calculate_effective_price (PInt amount_in) (PInt amount_out) original)
         = false).
Proof.
  assert (Hmul : forall a x, raises_zero_division (PyNum.mul a (PFloat x)) = false).
  { intros a x. unfold PyNum.mul.
    destruct a as [n|y]; cbn [PyNum.to_float rbind]; [|reflexivity].
    unfold PyFloat.of_int.
    destruct (binary_normalize _ _ _ _ _); reflexivity. }
  split.
  - intros x out orig. unfold calculate_effective_price.
    destruct (PyNum.le (PFloat x) (PInt 0)) eqn:Hle; [reflexivity|].
    assert (Hz : PyFloat.is_zero x = false).
    { destruct x; try reflexivity. discriminate. }
    unfold PyNum.truediv.
    destruct out as [m|y]; cbn [PyNum.to_float rbind].
    + unfold PyFloat.of_int.
      destruct (binary_normalize _ _ _ _ _); cbn [rbind]; try reflexivity;
        unfold PyFloat.div; rewrite Hz; cbn [rbind]; apply Hmul.
    + unfold PyFloat.div. rewrite Hz. cbn [rbind]. apply Hmul.
  - intros a b orig. unfold calculate_effective_price.
    destruct (PyNum.le (PInt a) (PInt 0)) eqn:Hle; [reflexivity|].
    unfold PyNum.truediv, PyFloat.int_truediv.
    destruct a as [|a|a]; try discriminate.
    destruct b as [|b|b]; cbn [rbind]; try apply Hmul;
      destruct (SFdiv _ _ _ _); cbn [rbind]; try reflexivity; apply Hmul.
Qed.

(** ** Route plans, continued *)

Lemma fold_add_dex_unlabelled steps :
  Forall (fun step => step_label step = None) steps ->
  forall acc, fold_left add_dex steps acc = acc.
Proof.
  induction 1 as [|step steps Hs _ IH]; intros acc; [reflexivity|].
  cbn [fold_left]. unfold add_dex at 2. rewrite Hs. apply IH.
Qed.

Lemma fold_add_dex_head steps :
  forall x acc, exists acc', fold_left add_dex steps (x :: acc) = x :: acc'.
Proof.
  induction steps as [|step steps IH]; intros x acc; cbn [fold_left]; [eauto|].
  unfold add_dex at 2. destruct (step_label step) as [label|]; [|apply IH].
  destruct (PyVal.truthy label && negb (PyVal.In_list label (x :: acc)));
    [|apply IH].
  cbn [app]. apply IH.
Qed.

(** X17. What [parse_route_summary] does with plans that are not lists of
    labelled steps: a plan none of whose items has a label gives "Unknown",
    in particular a plan that is an object or a text; a plan that is a
    non-zero number or [True] raises [TypeError]; and so does a plan whose
    first label is a number other than zero, which [join] refuses. *)
Theorem route_summary_of_odd_plans :
  (forall plan steps,
      PyVal.iterate plan = Ok steps ->
      Forall (fun step => step_label step = None) steps ->
      parse_route_summary plan = Ok "Unknown")
  /\ (forall d, parse_route_summary (VDict d) = Ok "Unknown")
  /\ (forall s, parse_route_summary (VStr s) = Ok "Unknown")
  /\ (forall n, PyNum.truthy n = true ->
                parse_route_summary (VNum n) = Raise TypeError)
  /\ parse_route_summary (VBool true) = Raise TypeError
  /\ (forall n steps,
         PyNum.truthy n = true ->
         parse_route_summary (VList (step_labelled (VNum n) :: steps))
         = Raise TypeError).
Proof.
  assert (H1 : forall plan steps,
      PyVal.iterate plan = Ok steps ->
      Forall (fun step => step_label step = None) steps ->
      parse_route_summary plan = Ok "Unknown").
  { intros plan steps Hi Hs. unfold parse_route_summary.
    destruct (negb (PyVal.truthy plan)); [reflexivity|].
    rewrite Hi. cbn [rbind]. now rewrite fold_add_dex_unlabelled. }
  split; [exact H1|]. split; [|split; [|split; [|split]]].
  - intros d. eapply H1; [reflexivity|].
    induction d as [|[k v] d IH]; constructor; [reflexivity|exact IH].
  - intros s. eapply H1; [reflexivity|].
    induction s as [|c s IH]; constructor; [reflexivity|exact IH].
  - intros n Hn. unfold parse_route_summary. cbn [PyVal.truthy]. rewrite Hn.
    reflexivity.
  - reflexivity.
  - intros n steps Hn. unfold parse_route_summary.
    cbn [PyVal.truthy negb PyVal.iterate rbind fold_left].
    assert (Ha : add_dex [] (step_labelled (VNum n)) = [VNum n]).
    { unfold add_dex. cbn. rewrite Hn. reflexivity. }
    rewrite Ha. destruct (fold_add_dex_head steps (VNum n) []) as [acc' ->].
    reflexivity.
Qed.

Lemma route_summary_of_odd_plans_witness :
  parse_route_summary (VList [step_labelled (VNum (PInt 7)); step_at "Orca"])
  = Raise TypeError.
Proof.
  apply (proj2 (proj2 (proj2 (proj2 (proj2 route_summary_of_odd_plans))))
           (PInt 7) [step_at "Orca"]).
  reflexivity.
Defined.

(** ** Route concentration, continued *)

Lemma gt_nan_left x : PyNum.gt (PFloat S754_nan) (PFloat x) = false.
Proof. reflexivity. Qed.

Lemma gt_nan_right x : PyNum.gt (PFloat x) (PFloat S754_nan) = false.
Proof. destruct x; reflexivity. Qed.

Lemma max_from_nan l : max_from S754_nan l = S754_nan.
Proof.
  induction l as [|x l IH]; [reflexivity|].
  cbn [max_from]. now rewrite gt_nan_right.
Qed.

Lemma max_from_skips_nan l :
  forall cur,
    max_from cur l = max_from cur (filter (fun x => negb (is_nan x)) l).
Proof.
  induction l as [|x l IH]; intros cur; [reflexivity|].
  cbn [max_from filter]. destruct x as [s|s| |s m e]; cbn [is_nan negb max_from];
    apply IH.
Qed.

(** X18. How [calculate_route_concentration] treats NaN among the reported
    percentages [x :: r]: a NaN in first place is the result; a NaN in any
    later place is ignored, the result being the one for [r] without its
    NaNs. *)
Theorem route_concentration_with_nan (py : builtins) (steps : list pyval)
  (x : float) (r : list float) :
  Forall2 (fun v p => PyVal.to_float py v = Ok p) (reported_percents steps) (x :: r) ->
  calculate_route_concentration py (VList steps)
  = Ok (Some (max_from x (filter (fun p => negb (is_nan p)) r)))
  /\ (is_nan x = true ->
      calculate_route_concentration py (VList steps) = Ok (Some S754_nan)).
Proof.
  intros Hconv.
  assert (E : calculate_route_concentration py (VList steps)
              = Ok (Some (max_from x r))).
  { unfold calculate_route_concentration.
    destruct steps as [|step steps]; [inv Hconv|].
    cbn [PyVal.truthy negb PyVal.iterate rbind].
    rewrite (collect_percentages_app py _ [] (x :: r) Hconv). reflexivity. }
  split.
  - rewrite E. now rewrite <- max_from_skips_nan.
  - intros Hx. destruct x; try discriminate. rewrite E. now rewrite max_from_nan.
Qed.

Lemma route_concentration_with_nan_witness :
  calculate_route_concentration Reference.ref_builtins
    (VList [step_with_percent (VNum (PFloat sixty));
            step_with_percent (VNum (PFloat S754_nan));
            step_with_percent (VNum (PFloat forty))])
  = Ok (Some (max_from sixty
                (filter (fun p => negb (is_nan p)) [S754_nan; forty]))).
Proof.
  refine (proj1 (route_concentration_with_nan Reference.ref_builtins
           [step_with_percent (VNum (PFloat sixty));
            step_with_percent (VNum (PFloat S754_nan));
            step_with_percent (VNum (PFloat forty))] sixty [S754_nan; forty] _)).
  repeat constructor.
Defined.

Lemma collect_percentages_error py steps1 step steps2 v e :
  forall acc ps,
    Forall2 (fun v x => PyVal.to_float py v = Ok x) (reported_percents steps1) ps ->
    step_percent step = Some v ->
    PyVal.to_float py v = Raise e ->
    collect_percentages py (steps1 ++ step :: steps2) acc = Raise e.
Proof.
  induction steps1 as [|s1 steps1 IH]; intros acc ps H Hv He; cbn in H.
  - cbn [app collect_percentages]. unfold add_percent. rewrite Hv, He. reflexivity.
  - cbn [app collect_percentages]. unfold add_percent.
    fold (reported_percents steps1) in H.
    destruct (step_percent s1) as [v1|]; cbn [app] in H.
    + inv H. match goal with Hx : PyVal.to_float _ v1 = _ |- _ => rewrite Hx end.
      cbn [rbind]. eapply IH; eassumption.
    + cbn [rbind]. eapply IH; eassumption.
Qed.

(** X19. A reported percentage that [float] refuses (a text that is not a
    number, a list, an object) makes [calculate_route_concentration] raise
    that error, wherever the step stands in the plan; and a response whose
    route plan does so is normalised to a failed quote, whatever else it
    holds. *)
Theorem bad_percentage_fails_the_quote (py : builtins) :
  (forall steps1 step steps2 ps v e,
      Forall2 (fun v x => PyVal.to_float py v = Ok x) (reported_percents steps1) ps ->
      step_percent step = Some v ->
      PyVal.to_float py v = Raise e ->
      calculate_route_concentration py (VList (steps1 ++ step :: steps2))
      = Raise e)
  /\ (forall d e,
         calculate_route_concentration py (PyVal.get d "routePlan" (VList []))
         = Raise e ->
         success (_parse_quote_response py (VDict d)) = false
         /\ price_impact (_parse_quote_response py (VDict d)) = None).
Proof.
  split.
  - intros steps1 step steps2 ps v e Hc Hv He.
    unfold calculate_route_concentration.
    replace (negb (PyVal.truthy (VList (steps1 ++ step :: steps2)))) with false
      by (destruct steps1; reflexivity).
    cbn [PyVal.iterate rbind].
    now rewrite (collect_percentages_error py steps1 step steps2 v e [] ps Hc Hv He).
  - intros d e He. unfold _parse_quote_response.
    destruct (parse_quote_body py (VDict d)) as [q|e'] eqn:E; [|split; reflexivity].
    exfalso. unfold parse_quote_body in E. cbn [PyVal.val_get] in E.
    cbn [rbind] in E.
    repeat match type of E with
           | rbind (calculate_route_concentration _ _) _ = _ => fail 1
           | rbind ?r _ = _ => destruct r; cbn [rbind] in E; [|discriminate E]
           end.
    rewrite He in E. discriminate.
Qed.

Lemma bad_percentage_fails_the_quote_witness :
  calculate_route_concentration Reference.ref_builtins
    (VList ([step_with_percent (VNum (PFloat sixty))]
            ++ step_with_percent (VStr "most") :: []))
  = Raise ValueError.
Proof.
  apply (proj1 (bad_percentage_fails_the_quote Reference.ref_builtins)
           [step_with_percent (VNum (PFloat sixty))]
           (step_with_percent (VStr "most")) [] [sixty] (VStr "most") ValueError).
  - repeat constructor.
  - reflexivity.
  - vm_compute. reflexivity.
Defined.

(** ** The reserve fetch, continued *)

(** An attempt answered with a document: the reserves read from it, or
    the exception of the reading when it is not a request exception. *)
Lemma fetch_attempt_document parse req attempt w data :
  document (kamino_api w (kamino_calls w) req) = Some data ->
  fetch_attempt parse req attempt w =
  match parse data with
  | Ok reserves => (Ok (Some reserves), log (KaminoGet req) w)
  | Raise e =>
      if is_request_exception e then fetch_attempt parse req attempt w
      else (Raise e, log (KaminoGet req) w)
  end.
Proof.
  unfold document. intros H.
  destruct (parse data) as [rs|e] eqn:Hp.
  - unfold fetch_attempt, try_request, Http.bind, kamino_get.
    destruct (kamino_api w (kamino_calls w) req) as [st [b|]|msg];
      try discriminate. cbn [answer].
    unfold raise_for_status. cbn [status_code].
    destruct ((400 <=? st) && (st <? 600)); [discriminate|]. inv H.
    cbn. unfold lift. rewrite Hp. reflexivity.
  - destruct (is_request_exception e) eqn:He; [reflexivity|].
    unfold fetch_attempt, try_request, Http.bind, kamino_get.
    destruct (kamino_api w (kamino_calls w) req) as [st [b|]|msg];
      try discriminate. cbn [answer].
    unfold raise_for_status. cbn [status_code].
    destruct ((400 <=? st) && (st <? 600)); [discriminate|]. inv H.
    cbn. unfold lift. rewrite Hp. destruct e; try reflexivity. discriminate.
Qed.

(** X20. When the first answer of the lending market is a document that
    reads as the reserves [rs], the fetch returns [rs] (an empty list too)
    after that single GET and without sleeping. *)
Theorem fetch_returns_first_document (parse : pyval -> result (list reserve))
  (market : string) (w : world) (data : pyval) (rs : list reserve) :
  let req := {| market := market; programId := KLEND_PROGRAM_ID |} in
  document (kamino_api w (kamino_calls w) req) = Some data ->
  parse data = Ok rs ->
  fetch_market_reserves parse market w = (Ok rs, log (KaminoGet req) w).
Proof.
  intros req Hd Hp. unfold fetch_market_reserves. fold req.
  cbn [seq MAX_RETRIES fetch_attempts]. unfold Http.bind at 1.
  rewrite (fetch_attempt_document _ _ _ _ data Hd), Hp. reflexivity.
Qed.

Lemma fetch_returns_first_document_witness :
  fetch_market_reserves (fun _ => Ok []) "M"
    (scripted [Responds 200 (Some (VDict []))] [])
  = (Ok [], log (KaminoGet {| market := "M"; programId := KLEND_PROGRAM_ID |})
              (scripted [Responds 200 (Some (VDict []))] [])).
Proof.
  apply (fetch_returns_first_document (fun _ => Ok []) "M"
           (scripted [Responds 200 (Some (VDict []))] []) (VDict []) []);
    reflexivity.
Defined.

(** X21. A request exception at the first attempt is followed by a sleep
    of 1 second and a second GET; when that one is answered with a
    document, the fetch returns its reserves. *)
Theorem fetch_recovers_after_failure (parse : pyval -> result (list reserve))
  (market : string) (w : world) (e0 : request_exception) (data : pyval)
  (rs : list reserve) :
  let req := {| market := market; programId := KLEND_PROGRAM_ID |} in
  request_failure (kamino_api w (kamino_calls w) req) = Some e0 ->
  document (kamino_api w (S (kamino_calls w)) req) = Some data ->
  parse data = Ok rs ->
  exists w',
    fetch_market_reserves parse market w = (Ok rs, w')
    /\ trace w' = (trace w ++ [KaminoGet req; Sleep (PInt 1); KaminoGet req])%list.
Proof.
  intros req H0 H1 Hp. unfold fetch_market_reserves. fold req.
  cbn [seq MAX_RETRIES fetch_attempts].
  unfold Http.bind at 1. rewrite (fetch_attempt_failure _ _ _ _ e0 H0).
  cbn [Nat.ltb Nat.leb Nat.sub MAX_RETRIES].
  unfold Http.bind at 1. rewrite (fetch_attempt_document _ _ _ _ data).
  2:{ cbn [kamino_api log]. rewrite kamino_calls_log_sleep, kamino_calls_log_get.
      exact H1. }
  rewrite Hp. eexists. split; [reflexivity|].
  unfold log. cbn [trace]. rewrite <- !app_assoc. reflexivity.
Qed.

Lemma fetch_recovers_after_failure_witness :
  exists w',
    fetch_market_reserves (fun _ => Ok []) "M"
      (scripted [Responds 503 None; Responds 200 (Some (VDict []))] [])
    = (Ok [], w')
    /\ trace w'
       = ([] ++ [KaminoGet {| market := "M"; programId := KLEND_PROGRAM_ID |};
                 Sleep (PInt 1);
                 KaminoGet {| market := "M"; programId := KLEND_PROGRAM_ID |}])%list.
Proof.
  apply (fetch_recovers_after_failure (fun _ => Ok []) "M"
           (scripted [Responds 503 None; Responds 200 (Some (VDict []))] [])
           (HTTPError 503) (VDict []) []);
    reflexivity.
Defined.

(** X22. An exception raised while reading the document that is not a
    request exception is not retried: the fetch raises it after the single
    GET, and so does the report, without a GET to the aggregator. *)
Theorem reading_error_is_not_retried (py : builtins)
  (parse : pyval -> result (list reserve)) (market : string)
  (sizes : option (list pynum)) (assets : option (list string))
  (w : world) (data : pyval) (e : exn) :
  let req := {| market := market; programId := KLEND_PROGRAM_ID |} in
  document (kamino_api w (kamino_calls w) req) = Some data ->
  parse data = Raise e ->
  is_request_exception e = false ->
  fetch_market_reserves parse market w = (Raise e, log (KaminoGet req) w)
  /\ generate_liquidity_report py parse market sizes assets w
     = (Raise e, log (KaminoGet req) w)
  /\ jupiter_calls (log (KaminoGet req) w) = jupiter_calls w.
Proof.
  intros req Hd Hp He.
  assert (E : fetch_market_reserves parse market w = (Raise e, log (KaminoGet req) w)).
  { unfold fetch_market_reserves. fold req.
    cbn [seq MAX_RETRIES fetch_attempts]. unfold Http.bind at 1.
    rewrite (fetch_attempt_document _ _ _ _ data Hd), Hp, He. reflexivity. }
  split; [exact E|]. split.
  - unfold generate_liquidity_report, Http.bind. rewrite E. reflexivity.
  - apply jupiter_calls_log_kamino.
Qed.

Lemma reading_error_is_not_retried_witness :
  fetch_market_reserves one_reserve_parser "M"
    (scripted [Responds 200 (Some (VList []))] [])
  = (Raise AttributeError,
     log (KaminoGet {| market := "M"; programId := KLEND_PROGRAM_ID |})
       (scripted [Responds 200 (Some (VList []))] [])).
Proof.
  apply (reading_error_is_not_retried Reference.ref_builtins one_reserve_parser
           "M" None None (scripted [Responds 200 (Some (VList []))] [])
           (VList []) AttributeError);
    reflexivity.
Defined.

(** ** The volatile-collateral filter *)

Lemma to_upper_idempotent (c : ascii) :
  Reference.to_upper (Reference.to_upper c) = Reference.to_upper c.
Proof.
  destruct c as [[] [] [] [] [] [] [] []]; reflexivity.
Qed.

Lemma ref_str_upper_idempotent (s : string) :
  Reference.ref_str_upper (Reference.ref_str_upper s) = Reference.ref_str_upper s.
Proof.
  unfold Reference.ref_str_upper.
  induction s as [|c s IH]; cbn; [reflexivity|].
  now rewrite to_upper_idempotent, IH.
Qed.

(** X23. The filter compares uppercase forms: it keeps, in their order,
    exactly the reserves whose uppercased symbol is the uppercase form of a
    requested symbol; filtering twice changes nothing; and, [upper] being
    idempotent, the requested symbols may be given in their uppercase form
    or not. *)
Theorem volatile_filter_ignores_case (py : builtins) (rs : list reserve)
  (syms : list string) :
  (forall r,
      In r (filter_volatile_collateral py rs (Some syms))
      <-> In r rs /\ In (str_upper py (symbol r)) (map (str_upper py) syms))
  /\ filter_volatile_collateral py
       (filter_volatile_collateral py rs (Some syms)) (Some syms)
     = filter_volatile_collateral py rs (Some syms)
  /\ ((forall s, str_upper py (str_upper py s) = str_upper py s) ->
      filter_volatile_collateral py rs (Some (map (str_upper py) syms))
      = filter_volatile_collateral py rs (Some syms))
  /\ (forall rs', filter_volatile_collateral py (rs ++ rs') (Some syms)
                  = (filter_volatile_collateral py rs (Some syms)
                     ++ filter_volatile_collateral py rs' (Some syms))%list).
Proof.
  unfold filter_volatile_collateral.
  set (keep := fun r : reserve =>
                 existsb (String.eqb (str_upper py (symbol r)))
                   (map (str_upper py) syms)).
  split; [|split; [|split]].
  - intros r. rewrite filter_In. subst keep. cbn beta.
    rewrite existsb_exists. split.
    + intros [Hr (x & Hx & Hxe)]. apply String.eqb_eq in Hxe. subst x. auto.
    + intros [Hr Hin]. split; [exact Hr|].
      exists (str_upper py (symbol r)). split; [exact Hin|apply String.eqb_refl].
  - induction rs as [|r rs IH]; [reflexivity|].
    cbn [filter]. destruct (keep r) eqn:Hk; [|exact IH].
    cbn [filter]. rewrite Hk. now rewrite IH.
  - intros Hup. rewrite map_map.
    assert (E : map (fun x => str_upper py (str_upper py x)) syms
                = map (str_upper py) syms).
    { apply map_ext. exact Hup. }
    now rewrite E.
  - intros rs'. apply filter_app.
Qed.

Lemma volatile_filter_ignores_case_witness :
  filter_volatile_collateral Reference.ref_builtins
    [sample_reserve PyFloat.zero]
    (Some (map (str_upper Reference.ref_builtins) ["sol"]))
  = filter_volatile_collateral Reference.ref_builtins
      [sample_reserve PyFloat.zero] (Some ["sol"]).
Proof.
  apply (proj1 (proj2 (proj2 (volatile_filter_ignores_case
           Reference.ref_builtins [sample_reserve PyFloat.zero] ["sol"])))).
  exact ref_str_upper_idempotent.
Defined.

(** ** Reading the market document *)

(** The further float constants are the values Python reads from their
    literals. *)
Lemma more_float_literals :
  Reference.ref_float_of_str "80.0" = Some eighty
  /\ Reference.ref_float_of_str "150.0" = Some one_hundred_fifty.
Proof. split; vm_compute; reflexivity. Qed.

(** X24. Records that [_parse_single_reserve] does not read: anything that
    is not an object, an object whose symbol is not a text, an object with
    neither "mintAddress" nor "mint", and (the uppercase of the empty text
    being empty) an object without "symbol".  No exception escapes. *)
Theorem unreadable_records_give_none (py : builtins)
  (float_pow10 : pynum -> result float) :
  (forall data, (forall d, data <> VDict d) ->
                _parse_single_reserve py float_pow10 data = None)
  /\ (forall d v,
         PyVal.lookup d "symbol" = Some v ->
         (forall s, v <> VStr s) ->
         _parse_single_reserve py float_pow10 (VDict d) = None)
  /\ (forall d,
         PyVal.lookup d "mintAddress" = None ->
         PyVal.lookup d "mint" = None ->
         _parse_single_reserve py float_pow10 (VDict d) = None)
  /\ (forall d,
         str_upper py "" = "" ->
         PyVal.lookup d "symbol" = None ->
         _parse_single_reserve py float_pow10 (VDict d) = None).
Proof.
  split; [|split; [|split]].
  - intros data Hd. destruct data; try reflexivity.
    exfalso. eapply Hd. reflexivity.
  - intros d v Hv Hs. unfold _parse_single_reserve, parse_single_reserve_body.
    unfold PyVal.get at 1. rewrite Hv.
    destruct v; try reflexivity. exfalso. eapply Hs. reflexivity.
  - intros d H1 H2. unfold _parse_single_reserve, parse_single_reserve_body.
    destruct (PyVal.get d "symbol" (VStr "")); try reflexivity.
    cbn [rbind]. unfold PyVal.get at 1 2. rewrite H1, H2.
    cbn [PyVal.truthy negb]. rewrite Bool.orb_true_r. reflexivity.
  - intros d Hup Hs. unfold _parse_single_reserve, parse_single_reserve_body.
    unfold PyVal.get at 1. rewrite Hs. cbn [rbind]. rewrite Hup.
    reflexivity.
Qed.

Lemma unreadable_records_give_none_witness :
  _parse_single_reserve Reference.ref_builtins no_float_pow10
    (VDict [("mintAddress", VStr "So11111111111111111111111111111111111111112")])
  = None.
Proof.
  apply (proj2 (proj2 (proj2 (unreadable_records_give_none
           Reference.ref_builtins no_float_pow10)))); reflexivity.
Defined.

(** X25. What a record that is read looks like: it came from an object;
    its symbol (the uppercase of the one given) and its mint address are
    not empty; its price is no longer a text; and its TVL is its total
    deposits times its price. *)
Theorem parsed_reserve_invariants (py : builtins)
  (float_pow10 : pynum -> result float) (data : pyval) (r : parsed_reserve) :
  _parse_single_reserve py float_pow10 data = Some r ->
  (exists d s, data = VDict d
               /\ PyVal.get d "symbol" (VStr "") = VStr s
               /\ parsed_symbol r = str_upper py s
               /\ parsed_mint_address r
                  = PyVal.get d "mintAddress" (PyVal.get d "mint" VNone)
               /\ parsed_decimals r = PyVal.get d "decimals" (VNum (PInt 0)))
  /\ parsed_symbol r <> ""
  /\ PyVal.truthy (parsed_mint_address r) = true
  /\ (forall s, parsed_usd_price r <> VStr s)
  /\ float_times (parsed_total_deposits r) (parsed_usd_price r)
     = Ok (parsed_tvl_usd r).
Proof.
  unfold _parse_single_reserve. intros H.
  destruct (parse_single_reserve_body py float_pow10 data) as [o|e] eqn:E;
    [|discriminate]. subst o.
  unfold parse_single_reserve_body in E.
  destruct data as [| | | | |d]; try discriminate.
  destruct (PyVal.get d "symbol" (VStr "")) as [| | |s| |] eqn:Hsym;
    try discriminate.
  cbn [rbind] in E.
  destruct (negb (PyVal.truthy (VStr (str_upper py s)))) eqn:Hs1;
    cbn [orb] in E; [discriminate|].
  destruct (negb (PyVal.truthy
              (PyVal.get d "mintAddress" (PyVal.get d "mint" VNone)))) eqn:Hm;
    [discriminate|].
  bind_as E price. bind_as E wads. bind_as E power. bind_as E deposits.
  bind_as E tvl. inv E. cbn.
  split; [exists d, s; auto|]. split; [|split; [|split]].
  - intros Hz. rewrite Hz in Hs1. discriminate.
  - now apply Bool.negb_false_iff in Hm.
  - intros s' Hs'. subst price.
    destruct (PyVal.get d "assetPriceUSD" (VNum (PFloat PyFloat.zero)));
      try discriminate;
      match goal with
      | H : rbind ?c _ = _ |- _ => destruct c; discriminate
      end.
  - assumption.
Qed.
Lemma parsed_reserve_invariants_witness :
  float_times (S754_finite false 5497558138880000 (-41))
    (VNum (PFloat one_hundred_fifty))
  = Ok (S754_finite false 6442450944000000 (-34)).
Proof.
  apply (parsed_reserve_invariants Reference.ref_builtins no_float_pow10
           sample_record
           {| parsed_symbol := "SOL";
              parsed_mint_address :=
                VStr "So11111111111111111111111111111111111111112";
              parsed_decimals := VNum (PInt 9);
              parsed_total_deposits := S754_finite false 5497558138880000 (-41);
              parsed_usd_price := VNum (PFloat one_hundred_fifty);
              parsed_tvl_usd := S754_finite false 6442450944000000 (-34);
              parsed_reserve_pubkey := VNone |}).
  vm_compute. reflexivity.
Defined.

Lemma fold_add_reserve py pw items :
  forall acc,
    fold_left (add_reserve py pw) items acc
    = (acc ++ parsed_records py pw items)%list.
Proof.
  induction items as [|raw items IH]; intros acc.
  - cbn. now rewrite app_nil_r.
  - cbn [fold_left parsed_records flat_map]. rewrite IH.
    unfold add_reserve. fold (parsed_records py pw items).
    destruct (_parse_single_reserve py pw raw); [|reflexivity].
    now rewrite <- app_assoc.
Qed.

Lemma parse_reserves_list py pw items :
  _parse_reserves py pw (VDict [("reserves", VList items)])
  = Ok (parsed_records py pw items).
Proof.
  unfold _parse_reserves. destruct items as [|raw items]; [reflexivity|].
  cbn [PyVal.get PyVal.lookup String.eqb Ascii.eqb Bool.eqb PyVal.truthy negb
       rbind PyVal.iterate].
  now rewrite fold_add_reserve.
Qed.

(** X26. The two shapes of the market document give the same reserves:
    when "reserves" is missing or empty at the top level, the list under
    "data" / "reserves" is read instead.  A document with neither gives no
    reserve; a document that is not an object, or whose "data" is not one,
    raises [AttributeError]; a "reserves" that is a non-zero number raises
    [TypeError]. *)
Theorem market_document_shapes (py : builtins)
  (float_pow10 : pynum -> result float) :
  (forall md dd items,
      PyVal.truthy (PyVal.get md "reserves" (VList [])) = false ->
      PyVal.lookup md "data" = Some (VDict dd) ->
      PyVal.lookup dd "reserves" = Some (VList items) ->
      _parse_reserves py float_pow10 (VDict md)
      = _parse_reserves py float_pow10 (VDict [("reserves", VList items)]))
  /\ (forall md,
         PyVal.lookup md "reserves" = None ->
         PyVal.lookup md "data" = None ->
         _parse_reserves py float_pow10 (VDict md) = Ok [])
  /\ (forall data, (forall d, data <> VDict d) ->
                   _parse_reserves py float_pow10 data = Raise AttributeError)
  /\ (forall md v,
         PyVal.lookup md "reserves" = None ->
         PyVal.lookup md "data" = Some v ->
         (forall d, v <> VDict d) ->
         _parse_reserves py float_pow10 (VDict md) = Raise AttributeError)
  /\ (forall md n,
         PyVal.lookup md "reserves" = Some (VNum n) ->
         PyNum.truthy n = true ->
         _parse_reserves py float_pow10 (VDict md) = Raise TypeError).
Proof.
  split; [|split; [|split; [|split]]].
  - intros md dd items Hf Hd Hr. rewrite parse_reserves_list.
    unfold _parse_reserves. rewrite Hf. cbn [negb].
    unfold PyVal.get at 1. rewrite Hd. cbn [PyVal.val_get rbind].
    unfold PyVal.get. rewrite Hr. cbn [PyVal.iterate rbind].
    now rewrite fold_add_reserve.
  - intros md Hr Hd. unfold _parse_reserves, PyVal.get. rewrite Hr, Hd.
    reflexivity.
  - intros data Hd. destruct data; try reflexivity.
    exfalso. eapply Hd. reflexivity.
  - intros md v Hr Hd Hv. unfold _parse_reserves, PyVal.get. rewrite Hr, Hd.
    cbn [PyVal.truthy negb]. destruct v; try reflexivity.
    exfalso. eapply Hv. reflexivity.
  - intros md n Hr Hn. unfold _parse_reserves, PyVal.get. rewrite Hr.
    cbn [PyVal.truthy]. rewrite Hn. reflexivity.
Qed.

Lemma market_document_shapes_witness :
  _parse_reserves Reference.ref_builtins no_float_pow10
    (VDict [("data", VDict [("reserves", VList [sample_record])])])
  = _parse_reserves Reference.ref_builtins no_float_pow10
      (VDict [("reserves", VList [sample_record])]).
Proof.
  apply (proj1 (market_document_shapes Reference.ref_builtins no_float_pow10)
           [("data", VDict [("reserves", VList [sample_record])])]
           [("reserves", VList [sample_record])] [sample_record]);
    reflexivity.
Defined.

(** X27. A list of records always reads, to the records that
    [_parse_single_reserve] accepts, in their order: a record it does not
    read is skipped wherever it stands, without any effect on the others,
    and there are never more reserves than records. *)
Theorem unreadable_records_are_skipped (py : builtins)
  (float_pow10 : pynum -> result float) (items1 items2 : list pyval)
  (bad : pyval) :
  _parse_single_reserve py float_pow10 bad = None ->
  _parse_reserves py float_pow10
    (VDict [("reserves", VList (items1 ++ bad :: items2))])
  = _parse_reserves py float_pow10
      (VDict [("reserves", VList (items1 ++ items2))])
  /\ (exists rs,
         _parse_reserves py float_pow10
           (VDict [("reserves", VList (items1 ++ items2))]) = Ok rs
         /\ (List.length rs <= List.length (items1 ++ items2))%nat
         /\ forall r, In r rs <->
                      exists raw, In raw (items1 ++ items2)
                                  /\ _parse_single_reserve py float_pow10 raw
                                     = Some r).
Proof.
  intros Hbad. rewrite !parse_reserves_list. split.
  - f_equal. unfold parsed_records. rewrite !flat_map_app.
    cbn [flat_map]. now rewrite Hbad.
  - eexists. split; [reflexivity|]. split.
    + generalize (items1 ++ items2)%list. intros l.
      induction l as [|raw l IH]; [cbn; lia|].
      cbn [parsed_records flat_map]. fold (parsed_records py float_pow10 l).
      rewrite length_app.
      destruct (_parse_single_reserve py float_pow10 raw); cbn [List.length] in *; lia.
    + intros r. unfold parsed_records. rewrite in_flat_map. split.
      * intros (raw & Hin & Hr). exists raw. split; [exact Hin|].
        destruct (_parse_single_reserve py float_pow10 raw) as [r'|];
          [|contradiction].
        destruct Hr as [->|[]]. reflexivity.
      * intros (raw & Hin & Hr). exists raw. split; [exact Hin|].
        rewrite Hr. now left.
Qed.

Lemma unreadable_records_are_skipped_witness :
  _parse_reserves Reference.ref_builtins no_float_pow10
    (VDict [("reserves", VList ([sample_record] ++ VNone :: [sample_record]))])
  = _parse_reserves Reference.ref_builtins no_float_pow10
      (VDict [("reserves", VList ([sample_record] ++ [sample_record]))]).
Proof.
  apply (unreadable_records_are_skipped Reference.ref_builtins no_float_pow10
           [sample_record] [sample_record] VNone).
  reflexivity.
Defined.

(** ** The report *)

Lemma for_each_pure {A B} (f : A -> M B) (g : A -> B) (l : list A) w :
  (forall a, In a l -> forall w', f a w' = (Ok (g a), w')) ->
  for_each f l w = (Ok (map g l), w).
Proof.
  induction l as [|a l IH]; intros H; [reflexivity|].
  cbn [for_each map]. unfold Http.bind at 1. rewrite (H a (or_introl eq_refl)).
  unfold Http.bind at 1. rewrite IH by (intros; apply H; now right).
  reflexivity.
Qed.

Lemma depth_nonpositive_price py mint d price od op l w :
  PyNum.le price (PInt 0) = true ->
  for_each (depth_point py mint d price od op) l w
  = (Ok (map (fun size => conversion_failed size (InvalidTokenPrice price)) l), w).
Proof.
  intros Hle. apply for_each_pure. intros size _ w'.
  unfold depth_point, usd_to_native_units. rewrite Hle. reflexivity.
Qed.

(** The rows of a reserve whose price is not above 0. *)
Lemma analyze_reserve_nonpositive_price py sizes r w :
  PyNum.le (usd_price r) (PInt 0) = true ->
  analyze_reserve py sizes r w
  = (Ok (map (fun size =>
                failed_row r (conversion_failed size
                                (InvalidTokenPrice (usd_price r)))) sizes), w).
Proof.
  intros Hle. unfold analyze_reserve, analyze_liquidity_depth.
  unfold Http.bind at 1. rewrite (depth_nonpositive_price _ _ _ _ _ _ _ _ Hle).
  rewrite (for_each_pure _ (failed_row r)).
  - now rewrite map_map.
  - intros pt Hin w'. apply in_map_iff in Hin. destruct Hin as (size & <- & _).
    reflexivity.
Qed.

(** X28. When the market has no reserve, or none whose symbol is among
    the requested assets (the volatile assets when no asset, or an empty
    list of assets, is requested), the report is empty and nothing is asked
    of the aggregator: the world is as the fetch left it. *)
Theorem report_without_volatile_reserve_is_empty (py : builtins)
  (parse : pyval -> result (list reserve)) (market : string)
  (sizes : option (list pynum)) (assets : option (list string))
  (w w1 : world) (rs : list reserve) :
  fetch_market_reserves parse market w = (Ok rs, w1) ->
  filter_volatile_collateral py rs (Some (requested_assets assets)) = [] ->
  generate_liquidity_report py parse market sizes assets w = (Ok [], w1).
Proof.
  intros Hf Hv. unfold generate_liquidity_report, Http.bind. rewrite Hf.
  destruct rs as [|r rs]; [reflexivity|].
  fold (requested_assets assets). rewrite Hv. reflexivity.
Qed.

Lemma report_without_volatile_reserve_is_empty_witness :
  generate_liquidity_report Reference.ref_builtins one_reserve_parser "M"
    None (Some ["WBTC"]) (scripted [Responds 200 (Some (VDict []))] [])
  = (Ok [],
     log (KaminoGet {| market := "M"; programId := KLEND_PROGRAM_ID |})
       (scripted [Responds 200 (Some (VDict []))] [])).
Proof.
  apply (report_without_volatile_reserve_is_empty Reference.ref_builtins
           one_reserve_parser "M" None (Some ["WBTC"])
           (scripted [Responds 200 (Some (VDict []))] [])
           (log (KaminoGet {| market := "M"; programId := KLEND_PROGRAM_ID |})
              (scripted [Responds 200 (Some (VDict []))] []))
           [unpriced_reserve]);
    reflexivity.
Defined.

(** X29. When every volatile reserve has a price that is not above 0, the
    report is returned without a single call to the aggregator and without
    sleeping: it has one row per reserve and size, each of them a failed
    quote carrying the invalid-price error and the single flag
    QUOTE_FAILED. *)
Theorem unpriced_reserves_give_failed_rows (py : builtins)
  (parse : pyval -> result (list reserve)) (market : string)
  (sizes : option (list pynum)) (assets : option (list string))
  (w w1 : world) (rs : list reserve) :
  fetch_market_reserves parse market w = (Ok rs, w1) ->
  Forall (fun r => PyNum.le (usd_price r) (PInt 0) = true)
    (filter_volatile_collateral py rs (Some (requested_assets assets))) ->
  generate_liquidity_report py parse market sizes assets w
  = (Ok (flat_map
           (fun r =>
              map (fun size =>
                     failed_row r (conversion_failed size
                                     (InvalidTokenPrice (usd_price r))))
                (init_swap_sizes sizes))
           (filter_volatile_collateral py rs (Some (requested_assets assets)))),
     w1).
Proof.
  intros Hf Hall. unfold generate_liquidity_report. unfold Http.bind at 1.
  rewrite Hf. destruct rs as [|r0 rs]; [reflexivity|].
  fold (requested_assets assets).
  remember (filter_volatile_collateral py (r0 :: rs)
              (Some (requested_assets assets))) as vol eqn:Hvol.
  clear Hvol. destruct vol as [|v vs]; [reflexivity|].
  unfold Http.bind.
  rewrite (for_each_pure _
             (fun r => map (fun size =>
                              failed_row r (conversion_failed size
                                              (InvalidTokenPrice (usd_price r))))
                         (init_swap_sizes sizes))).
  - unfold ret. now rewrite flat_map_concat_map.
  - intros r Hin w'. apply analyze_reserve_nonpositive_price.
    rewrite Forall_forall in Hall. now apply Hall.
Qed.

Lemma unpriced_reserves_give_failed_rows_witness :
  generate_liquidity_report Reference.ref_builtins one_reserve_parser "M"
    (Some [PInt 1000]) None (scripted [Responds 200 (Some (VDict []))] [])
  = (Ok [failed_row unpriced_reserve
           (conversion_failed (PInt 1000) (InvalidTokenPrice (PInt 0)))],
     log (KaminoGet {| market := "M"; programId := KLEND_PROGRAM_ID |})
       (scripted [Responds 200 (Some (VDict []))] [])).
Proof.
  apply (unpriced_reserves_give_failed_rows Reference.ref_builtins
           one_reserve_parser "M" (Some [PInt 1000]) None
           (scripted [Responds 200 (Some (VDict []))] [])
           (log (KaminoGet {| market := "M"; programId := KLEND_PROGRAM_ID |})
              (scripted [Responds 200 (Some (VDict []))] []))
           [unpriced_reserve]).
  - reflexivity.
  - repeat constructor.
Defined.

Lemma report_row_key r pt w rw w' :
  report_row r pt w = (Ok rw, w') ->
  row_key rw = (symbol r, swap_size_usd pt).
Proof.
  unfold report_row, Http.bind, lift, ret.
  destruct (_identify_risk_flags r pt); intros H; inv H. reflexivity.
Qed.

Lemma analyze_reserve_keys py sizes r w rws w' :
  analyze_reserve py sizes r w = (Ok rws, w') ->
  map row_key rws = map (fun size => (symbol r, size)) sizes.
Proof.
  unfold analyze_reserve, analyze_liquidity_depth, Http.bind.
  destruct (for_each _ sizes w) as [[pts|e] w1] eqn:Ep; [|discriminate].
  intros Hr. apply for_each_results in Ep. apply for_each_results in Hr.
  revert rws Hr.
  induction Ep as [|size pt sizes pts (wa & wb & Hp) _ IH]; intros rws Hr.
  - inv Hr. reflexivity.
  - inversion Hr as [|? rw ? rws' (wc & wd & Hrow) Hr']; subst.
    cbn [map]. rewrite (IH _ Hr'). f_equal.
    rewrite (report_row_key _ _ _ _ _ Hrow).
    now rewrite (depth_point_size _ _ _ _ _ _ _ _ _ _ Hp).
Qed.

(** X30. A report that is returned has one row for each volatile reserve
    and each swap size, reserve by reserve in the order of the market and,
    within a reserve, in the order of the sizes. *)
Theorem report_has_a_row_per_reserve_and_size (py : builtins)
  (parse : pyval -> result (list reserve)) (market : string)
  (sizes : option (list pynum)) (assets : option (list string))
  (w w1 w' : world) (rs : list reserve) (rows : list row) :
  fetch_market_reserves parse market w = (Ok rs, w1) ->
  generate_liquidity_report py parse market sizes assets w = (Ok rows, w') ->
  map row_key rows
  = flat_map (fun r => map (fun size => (symbol r, size)) (init_swap_sizes sizes))
      (filter_volatile_collateral py rs (Some (requested_assets assets))).
Proof.
  intros Hf. unfold generate_liquidity_report. unfold Http.bind at 1.
  rewrite Hf. destruct rs as [|r0 rs]; [intros H; inv H; reflexivity|].
  fold (requested_assets assets).
  remember (filter_volatile_collateral py (r0 :: rs)
              (Some (requested_assets assets))) as vol eqn:Hvol.
  clear Hvol. destruct vol as [|v vs]; [intros H; inv H; reflexivity|].
  generalize (v :: vs). intros vol. unfold Http.bind, ret.
  destruct (for_each _ _ w1) as [[rowss|e] w2] eqn:Er; [|discriminate].
  intros H. inv H. apply for_each_results in Er.
  induction Er as [|r rws l l' (wa & wb & Ha) _ IH]; [reflexivity|].
  cbn [List.concat flat_map]. rewrite map_app, IH. f_equal.
  eapply analyze_reserve_keys. exact Ha.
Qed.

Lemma report_has_a_row_per_reserve_and_size_witness :
  map row_key
    [failed_row unpriced_reserve
       (conversion_failed (PInt 1000) (InvalidTokenPrice (PInt 0)))]
  = flat_map (fun r => map (fun size => (symbol r, size))
                         (init_swap_sizes (Some [PInt 1000])))
      (filter_volatile_collateral Reference.ref_builtins [unpriced_reserve]
         (Some (requested_assets None))).
Proof.
  apply (report_has_a_row_per_reserve_and_size Reference.ref_builtins
           one_reserve_parser "M" (Some [PInt 1000]) None
           (scripted [Responds 200 (Some (VDict []))] [])
           (log (KaminoGet {| market := "M"; programId := KLEND_PROGRAM_ID |})
              (scripted [Responds 200 (Some (VDict []))] []))
           (log (KaminoGet {| market := "M"; programId := KLEND_PROGRAM_ID |})
              (scripted [Responds 200 (Some (VDict []))] []))
           [unpriced_reserve]);
    reflexivity.
Defined.
